(** * Storage gateway of the document dashboard: a shallow embedding

    The development follows the two storage modules of the dashboard and
    the component that shows what is stored:

    - the hardened gateway (validated uploads, guarded delete, listing,
      presigning), embedded in [Module Gateway];
    - the first gateway, [src/lib/s3.ts], the one the components import,
      embedded in [Module LibS3];
    - the table of files, [src/components/FilesList.tsx], embedded in
      [Module FilesList].

    JavaScript strings are sequences of UTF-16 code units, and the regular
    expression of the key naming scheme works on code units, so strings are
    modelled as lists of code units rather than as byte strings.  The object
    store, the document library and the presigner are capabilities: records
    of functions the gateway is parameterised by.  Every call of a
    capability is recorded in a trace, so that "no backend call was issued"
    is a statement about the trace. *)

From Stdlib Require Import List String Ascii ZArith NArith Bool Lia.
From Stdlib.Strings Require Import Byte.
From Stdlib Require Import DecimalString.
From Stdlib Require DecimalZ DecimalPos.
From Stdlib Require Import Sorting.Sorted Sorting.Permutation.
Import ListNotations.

Set Implicit Arguments.

Local Open Scope N_scope.

(* ===================================================================== *)
(** ** JavaScript strings *)
(* ===================================================================== *)

Module JS.

(** A string is its sequence of UTF-16 code units. *)
Definition code_unit := N.
Definition jsstring := list code_unit.

(** An ASCII literal of the source, as code units. *)
Definition lit (s : string) : jsstring :=
  List.map N_of_ascii (list_ascii_of_string s).

Definition unit_eqb (a b : code_unit) : bool := N.eqb a b.

Fixpoint eqb (s t : jsstring) : bool :=
  match s, t with
  | [], [] => true
  | a :: s', b :: t' => unit_eqb a b && eqb s' t'
  | _, _ => false
  end.

(** [s.startsWith(p)] *)
Fixpoint startsWith (s p : jsstring) {struct p} : bool :=
  match p with
  | [] => true
  | b :: p' =>
      match s with
      | [] => false
      | a :: s' => unit_eqb a b && startsWith s' p'
      end
  end.

(** [s.endsWith(p)] *)
Definition endsWith (s p : jsstring) : bool :=
  startsWith (rev s) (rev p).

(** [arr.includes(s)] on an array of strings. *)
Definition includes (arr : list jsstring) (s : jsstring) : bool :=
  existsb (eqb s) arr.

(** [s.split(sep)] for a separator of one code unit: the segments between
    the occurrences of [sep]; never the empty array. *)
Fixpoint split (sep : code_unit) (s : jsstring) : list jsstring :=
  match s with
  | [] => [[]]
  | c :: s' =>
      if unit_eqb c sep then [] :: split sep s'
      else
        match split sep s' with
        | [] => [[c]]
        | seg :: segs => (c :: seg) :: segs
        end
  end.

(** [arr.pop()]: the last element, [undefined] on the empty array. *)
Definition pop {A : Type} (arr : list A) : option A :=
  match rev arr with
  | [] => None
  | x :: _ => Some x
  end.

(** [String.prototype.replace] with a global one-character class: every
    code unit outside the class is replaced by [by_], the others kept. *)
Definition replace_outside (keep : code_unit -> bool) (by_ : code_unit)
    (s : jsstring) : jsstring :=
  List.map (fun c => if keep c then c else by_) s.

(** [n.toString()] for an integral number. *)
Definition Z_toString (z : Z) : jsstring :=
  lit (NilZero.string_of_int (Z.to_int z)).

Definition N_toString (n : N) : jsstring :=
  lit (NilZero.string_of_uint (N.to_uint n)).

(** Character classes. *)
Definition in_range (lo hi c : N) : bool := (lo <=? c) && (c <=? hi).
Definition is_upper (c : code_unit) : bool := in_range 65 90 c.
Definition is_lower (c : code_unit) : bool := in_range 97 122 c.
Definition is_digit (c : code_unit) : bool := in_range 48 57 c.
Definition is_alnum (c : code_unit) : bool :=
  is_lower c || is_upper c || is_digit c.

(** *** [encodeURIComponent] *)

Definition hex_digit (n : N) : code_unit :=
  if n <? 10 then 48 + n else 55 + n.

(** ["%XX"] for one octet. *)
Definition percent (octet : N) : jsstring :=
  [37; hex_digit (octet / 16); hex_digit (octet mod 16)].

(** The UTF-8 octets of a code point. *)
Definition utf8 (cp : N) : list N :=
  if cp <? 128 then [cp]
  else if cp <? 2048 then [192 + cp / 64; 128 + cp mod 64]
  else if cp <? 65536 then
    [224 + cp / 4096; 128 + (cp / 64) mod 64; 128 + cp mod 64]
  else
    [240 + cp / 262144; 128 + (cp / 4096) mod 64;
     128 + (cp / 64) mod 64; 128 + cp mod 64].

(** The unreserved set of [encodeURIComponent]:
    letters, digits and [- _ . ! ~ * ' ( )]. *)
Definition uri_unreserved (c : code_unit) : bool :=
  is_alnum c ||
  existsb (unit_eqb c) [45; 95; 46; 33; 126; 42; 39; 40; 41].

Definition is_high_surrogate (c : code_unit) : bool := in_range 55296 56319 c.
Definition is_low_surrogate (c : code_unit) : bool := in_range 56320 57343 c.

(** [None] stands for the [URIError] thrown on a lone surrogate. *)
Fixpoint encodeURIComponent (s : jsstring) : option jsstring :=
  match s with
  | [] => Some []
  | c :: rest =>
      if uri_unreserved c then option_map (cons c) (encodeURIComponent rest)
      else if is_low_surrogate c then None
      else if is_high_surrogate c then
        match rest with
        | c2 :: rest' =>
            if is_low_surrogate c2 then
              let cp := (c - 55296) * 1024 + (c2 - 56320) + 65536 in
              option_map (app (flat_map percent (utf8 cp)))
                         (encodeURIComponent rest')
            else None
        | [] => None
        end
      else
        option_map (app (flat_map percent (utf8 c)))
                   (encodeURIComponent rest)
  end.

End JS.

(* ===================================================================== *)
(** ** [Date.prototype.toISOString] *)
(* ===================================================================== *)

Module JSDate.
Import JS.
Local Open Scope Z_scope.

(** A [Date] is its time value, milliseconds since the epoch. *)
Definition Date := Z.

Definition msPerDay : Z := 86400000.

Definition digit (n : Z) : code_unit := Z.to_N (48 + n mod 10).
Definition pad2 (n : Z) : jsstring := [digit (n / 10); digit n].
Definition pad3 (n : Z) : jsstring := digit (n / 100) :: pad2 n.
Definition pad4 (n : Z) : jsstring := digit (n / 1000) :: pad3 n.
Definition pad6 (n : Z) : jsstring :=
  digit (n / 100000) :: digit (n / 10000) :: pad4 n.

(** Year, month and day of a day number (days since 1970-01-01) in the
    proleptic Gregorian calendar, by eras of 400 years starting on
    1 March. *)
Definition civil_from_days (days : Z) : Z * Z * Z :=
  let z := days + 719468 in
  let era := z / 146097 in
  let doe := z - era * 146097 in
  let yoe := (doe - doe / 1460 + doe / 36524 - doe / 146096) / 365 in
  let doy := doe - (365 * yoe + yoe / 4 - yoe / 100) in
  let mp := (5 * doy + 2) / 153 in
  let d := doy - (153 * mp + 2) / 5 + 1 in
  let m := if mp <? 10 then mp + 3 else mp - 9 in
  let y := yoe + era * 400 + (if m <=? 2 then 1 else 0) in
  (y, m, d).

(** Four digits for the years 0 to 9999, a sign and six digits otherwise. *)
Definition year_string (y : Z) : jsstring :=
  if (0 <=? y) && (y <=? 9999) then pad4 y
  else (if y <? 0 then 45%N else 43%N) :: pad6 (Z.abs y).

Definition toISOString (t : Date) : jsstring :=
  let days := t / msPerDay in
  let ms := t mod msPerDay in
  let '(y, m, d) := civil_from_days days in
  (year_string y ++ lit "-" ++ pad2 m ++ lit "-" ++ pad2 d ++ lit "T"
   ++ pad2 (ms / 3600000) ++ lit ":" ++ pad2 ((ms / 60000) mod 60)
   ++ lit ":" ++ pad2 ((ms / 1000) mod 60) ++ lit "." ++ pad3 (ms mod 1000)
   ++ lit "Z")%list.

End JSDate.

(* ===================================================================== *)
(** ** Values, exceptions and the capabilities *)
(* ===================================================================== *)

Import JS JSDate.

(** What a [catch] clause can receive.  The handlers of the gateway tell
    three cases apart: an [S3ServiceException] of the SDK, any other
    instance of [Error] (of which they read the message only), and a thrown
    value that is not an [Error]. *)
Inductive exn : Type :=
| S3ServiceException (name message : jsstring)
| JsError (name message : jsstring)
| NonError.

(** [new Error(message)] *)
Definition new_Error (message : jsstring) : exn := JsError (lit "Error") message.

(** The [URIError] of [encodeURIComponent]. *)
Definition URIError : exn := JsError (lit "URIError") (lit "URI malformed").

Definition ArrayBuffer := list byte.

(** A browser [File]: name, size in bytes, declared MIME type, content. *)
Record File : Type := {
  file_name : jsstring;
  file_size : N;
  file_type : jsstring;
  file_arrayBuffer : ArrayBuffer
}.

(** *** The document library *)

(** The descriptive fields of a document that the gateway sets; [pdf_body]
    is everything else in the document. *)
Record PDFDocument : Type := {
  pdf_Title : option jsstring;
  pdf_Author : option jsstring;
  pdf_Subject : option jsstring;
  pdf_Producer : option jsstring;
  pdf_Creator : option jsstring;
  pdf_Keywords : option (list jsstring);
  pdf_body : ArrayBuffer
}.

Definition setTitle (v : jsstring) (d : PDFDocument) : PDFDocument :=
  {| pdf_Title := Some v; pdf_Author := pdf_Author d;
     pdf_Subject := pdf_Subject d; pdf_Producer := pdf_Producer d;
     pdf_Creator := pdf_Creator d; pdf_Keywords := pdf_Keywords d;
     pdf_body := pdf_body d |}.

Definition setAuthor (v : jsstring) (d : PDFDocument) : PDFDocument :=
  {| pdf_Title := pdf_Title d; pdf_Author := Some v;
     pdf_Subject := pdf_Subject d; pdf_Producer := pdf_Producer d;
     pdf_Creator := pdf_Creator d; pdf_Keywords := pdf_Keywords d;
     pdf_body := pdf_body d |}.

Definition setSubject (v : jsstring) (d : PDFDocument) : PDFDocument :=
  {| pdf_Title := pdf_Title d; pdf_Author := pdf_Author d;
     pdf_Subject := Some v; pdf_Producer := pdf_Producer d;
     pdf_Creator := pdf_Creator d; pdf_Keywords := pdf_Keywords d;
     pdf_body := pdf_body d |}.

Definition setProducer (v : jsstring) (d : PDFDocument) : PDFDocument :=
  {| pdf_Title := pdf_Title d; pdf_Author := pdf_Author d;
     pdf_Subject := pdf_Subject d; pdf_Producer := Some v;
     pdf_Creator := pdf_Creator d; pdf_Keywords := pdf_Keywords d;
     pdf_body := pdf_body d |}.

Definition setCreator (v : jsstring) (d : PDFDocument) : PDFDocument :=
  {| pdf_Title := pdf_Title d; pdf_Author := pdf_Author d;
     pdf_Subject := pdf_Subject d; pdf_Producer := pdf_Producer d;
     pdf_Creator := Some v; pdf_Keywords := pdf_Keywords d;
     pdf_body := pdf_body d |}.

Definition setKeywords (v : list jsstring) (d : PDFDocument) : PDFDocument :=
  {| pdf_Title := pdf_Title d; pdf_Author := pdf_Author d;
     pdf_Subject := pdf_Subject d; pdf_Producer := pdf_Producer d;
     pdf_Creator := pdf_Creator d; pdf_Keywords := Some v;
     pdf_body := pdf_body d |}.

(** The document library, an external package the gateway imports as
    [PDFDocument], taken as a capability with the interface the design gives
    it: [parse(bytes) -> document | error], [document.setField(name, value)]
    and [serialize(document) -> bytes].  Parsing can fail; the setters above
    and serialization cannot. *)
Record PdfLib : Type := {
  PDFDocument_load : ArrayBuffer -> exn + PDFDocument;
  PDFDocument_save : PDFDocument -> ArrayBuffer
}.

(** *** The object store *)

(** The body of a put as the code builds it: [new Uint8Array(bytes)], or
    the [ArrayBuffer] that [file.arrayBuffer()] settles to, handed over as
    it is. *)
Inductive Body : Type :=
| Uint8Array (bytes : ArrayBuffer)
| bare_ArrayBuffer (buffer : ArrayBuffer).

Definition body_bytes (body : Body) : ArrayBuffer :=
  match body with Uint8Array bytes => bytes | bare_ArrayBuffer buffer => buffer end.

Record PutObjectInput : Type := {
  put_Bucket : jsstring;
  put_Key : jsstring;
  put_Body : option Body;
  put_ContentType : option jsstring;
  put_ContentDisposition : option jsstring;
  put_Metadata : list (jsstring * jsstring)
}.

Record ObjectRef : Type := { ref_Bucket : jsstring; ref_Key : jsstring }.

Record ListObjectsV2Input : Type := {
  list_Bucket : jsstring;
  list_Prefix : jsstring;
  list_MaxKeys : option N
}.

(** An entry of a listing; the SDK declares every field optional. *)
Record S3Object : Type := {
  obj_Key : option jsstring;
  obj_Size : option N;
  obj_LastModified : option Date
}.

Record ListObjectsV2Output : Type := { Contents : option (list S3Object) }.

Record HeadObjectOutput : Type := {
  Metadata : option (list (jsstring * jsstring))
}.

Inductive S3Command : Type :=
| PutObjectCommand (input : PutObjectInput)
| GetObjectCommand (input : ObjectRef)
| DeleteObjectCommand (input : ObjectRef)
| HeadObjectCommand (input : ObjectRef)
| ListObjectsV2Command (input : ListObjectsV2Input).

(** The store client over a backend state [S]: [upload_done] is
    [new Upload({client, params}).done()] of the storage library, the
    others are [s3Client.send(command)] at each command the gateway sends.
    Each takes the backend from one state to the next and succeeds or
    throws.  [upload_done] is the library and the store behind it: the
    library can throw before anything is sent. *)
Record S3Client (S : Type) : Type := {
  upload_done : PutObjectInput -> S -> (exn + unit) * S;
  send_list : ListObjectsV2Input -> S -> (exn + ListObjectsV2Output) * S;
  send_delete : ObjectRef -> S -> (exn + unit) * S;
  send_head : ObjectRef -> S -> (exn + HeadObjectOutput) * S
}.

(** What [Upload] of the storage library throws on a body that is none of
    the kinds it can cut into parts. *)
Definition unsupported_body : exn :=
  new_Error (lit "Body Data is unsupported format, expected data to be one of: string | Uint8Array | Buffer | Readable | ReadableStream | Blob;.").

(** [Upload] takes a [Uint8Array]; an [ArrayBuffer] that is not wrapped in
    a view is none of the kinds of body it takes.  A client refuses such a
    body when [done()] throws [refusal] on it and nothing reaches the
    store. *)
Definition refuses_bare_buffers {S} (c : S3Client S) (refusal : exn) : Prop :=
  forall (params : PutObjectInput) (buffer : ArrayBuffer) (s : S),
    put_Body params = Some (bare_ArrayBuffer buffer) ->
    upload_done c params s = (inl refusal, s).

(** [getSignedUrl(client, command, {expiresIn})] of the presigner package. *)
Definition Presigner := S3Command -> N -> exn + jsstring.

(** A command signs a retrieval when it is a [GetObjectCommand]. *)
Definition is_retrieval (c : S3Command) : bool :=
  match c with GetObjectCommand _ => true | _ => false end.

(** *** Traces and the world *)

(** The calls a trace records: of the document library, of the client of
    the store ([S3Put] is [done()] called on the [Upload] of a request, the
    others are [send] called on a command) and of the presigner. *)
Inductive event : Type :=
| PdfLoad (bytes : ArrayBuffer)
| PdfSave (doc : PDFDocument)
| S3Put (input : PutObjectInput)
| S3List (input : ListObjectsV2Input)
| S3Delete (input : ObjectRef)
| S3Head (input : ObjectRef)
| Presign (command : S3Command) (expiresIn : N).

(** An event is a call of the client of the object store. *)
Definition is_backend_call (e : event) : bool :=
  match e with
  | S3Put _ | S3List _ | S3Delete _ | S3Head _ => true
  | _ => false
  end.

Definition is_put (e : event) : bool :=
  match e with S3Put _ => true | _ => false end.

Definition is_delete (e : event) : bool :=
  match e with S3Delete _ => true | _ => false end.

(** The state a call of the gateway runs in: the backend, the calls issued
    so far, and the module-level variable [getSignedUrl]. *)
Record world (S : Type) : Type := {
  backend : S;
  trace : list event;
  getSignedUrl : option Presigner
}.

(** *** The monad of gateway calls: state and exceptions *)

Definition M (S A : Type) : Type := world S -> (exn + A) * world S.

Definition ret {S A} (a : A) : M S A := fun w => (inr a, w).

Definition throw {S A} (e : exn) : M S A := fun w => (inl e, w).

Definition bind {S A B} (c : M S A) (k : A -> M S B) : M S B :=
  fun w =>
    match c w with
    | (inr a, w') => k a w'
    | (inl e, w') => (inl e, w')
    end.

(** [try { body } catch (error) { handler }] *)
Definition try_catch {S A} (body : M S A) (handler : exn -> M S A) : M S A :=
  fun w =>
    match body w with
    | (inr a, w') => (inr a, w')
    | (inl e, w') => handler e w'
    end.

Definition emit {S} (e : event) : M S unit :=
  fun w => (inr tt, {| backend := backend w; trace := trace w ++ [e];
                       getSignedUrl := getSignedUrl w |}).

(** A call of the backend: recorded, then run on the backend state. *)
Definition call_backend {S A} (e : event) (f : S -> (exn + A) * S) : M S A :=
  fun w =>
    let '(r, s') := f (backend w) in
    (r, {| backend := s'; trace := trace w ++ [e];
           getSignedUrl := getSignedUrl w |}).

(** A call of a pure capability: recorded, then its result returned or
    thrown. *)
Definition call_pure {S A} (e : event) (r : exn + A) : M S A :=
  fun w => (r, {| backend := backend w; trace := trace w ++ [e];
                  getSignedUrl := getSignedUrl w |}).

Definition read_getSignedUrl {S} : M S (option Presigner) :=
  fun w => (inr (getSignedUrl w), w).

Definition write_getSignedUrl {S} (g : Presigner) : M S unit :=
  fun w => (inr tt, {| backend := backend w; trace := trace w;
                       getSignedUrl := Some g |}).

Declare Scope gateway_scope.
Delimit Scope gateway_scope with gw.
Notation "x <- c ;; k" := (bind c (fun x => k))
  (at level 61, c at next level, right associativity) : gateway_scope.
Notation "c ;; k" := (bind c (fun _ => k))
  (at level 61, right associativity) : gateway_scope.
Local Open Scope gateway_scope.

(** [Promise.all([p, q])] on two calls issued in this order: both are
    issued before either is awaited; the result is the pair of results when
    both fulfil and the rejection that settles first otherwise, which is the
    second one's only when [q_rejects_first]. *)
Definition Promise_all2 {S A B} (q_rejects_first : bool)
    (p : M S A) (q : M S B) : M S (A * B) :=
  fun w =>
    let '(r1, w1) := p w in
    let '(r2, w2) := q w1 in
    (match r1, r2 with
     | inr a, inr b => inr (a, b)
     | inl e, inr _ => inl e
     | inr _, inl e => inl e
     | inl e1, inl e2 => inl (if q_rejects_first then e2 else e1)
     end, w2).

(* ===================================================================== *)
(** ** The gateway *)
(* ===================================================================== *)

Module Gateway.

(** The shape of a file record of the listing. *)
Record FileInfo : Type := {
  fi_id : jsstring;
  fi_name : jsstring;
  fi_type : jsstring;
  fi_uploadedAt : Date;
  fi_size : N;
  fi_url : jsstring;
  fi_sourceLink : option jsstring
}.

Definition MAX_FILE_SIZE_MB : N := 100.

(** The class [[a-zA-Z0-9._-]] of the key naming scheme. *)
Definition key_char (c : code_unit) : bool :=
  is_alnum c || unit_eqb c 46 || unit_eqb c 95 || unit_eqb c 45.

(** [name.replace(/[^a-zA-Z0-9._-]/g, "_")] *)
Definition sanitize (name : jsstring) : jsstring :=
  replace_outside key_char 95 name.

(** The message of an [Error] instance, [None] for another thrown value. *)
Definition message_of (error : exn) : option jsstring :=
  match error with
  | S3ServiceException _ m => Some m
  | JsError _ m => Some m
  | NonError => None
  end.

(** The [catch] clause shared by the operations on the store: an
    [S3ServiceException] is reported with its name and message under
    [s3_prefix], any other [Error] with its message under [prefix], and
    anything else as [unknown]. *)
Definition rethrow {S A} (s3_prefix prefix unknown : jsstring)
    (error : exn) : M S A :=
  match error with
  | S3ServiceException name message =>
      throw (new_Error (s3_prefix ++ name ++ lit " - " ++ message))
  | JsError _ message => throw (new_Error (prefix ++ message))
  | NonError => throw (new_Error unknown)
  end.

(** [`https://${bucket}.s3.amazonaws.com/${key}`] *)
Definition public_url (bucket key : jsstring) : jsstring :=
  lit "https://" ++ bucket ++ lit ".s3.amazonaws.com/" ++ key.

Section WithCapabilities.

Variable S : Type.
Variable s3Client : S3Client S.
Variable pdfLib : PdfLib.
(** The bucket name of the environment, the empty string when unset. *)
Variable BUCKET_NAME : jsstring.
(** What [import("@aws-sdk/s3-request-presigner")] settles to. *)
Variable import_presigner : exn + Presigner.

Definition validateFileSize (file : File) : M S bool :=
  let maxSizeBytes := MAX_FILE_SIZE_MB * 1024 * 1024 in
  if maxSizeBytes <? file_size file then
    throw (new_Error (lit "File too large. Maximum size is "
                      ++ N_toString MAX_FILE_SIZE_MB ++ lit "MB."))
  else ret true.

(** [today] is the reading of [new Date()]. *)
Definition addSourceLinkToPdf (pdfFile : File) (sourceLink : jsstring)
    (today : Date) : M S ArrayBuffer :=
  try_catch
    (let arrayBuffer := file_arrayBuffer pdfFile in
     pdfDoc <- call_pure (PdfLoad arrayBuffer)
                 (PDFDocument_load pdfLib arrayBuffer) ;;
     let pdfDoc := setTitle (lit "Document: " ++ file_name pdfFile) pdfDoc in
     let pdfDoc := setAuthor (lit "Document Management System") pdfDoc in
     let pdfDoc := setSubject sourceLink pdfDoc in
     let pdfDoc := setProducer (lit "DMS Upload Tool") pdfDoc in
     let pdfDoc := setCreator (lit "DMS Upload Tool") pdfDoc in
     let pdfDoc :=
       setKeywords [lit "source:" ++ sourceLink;
                    lit "upload:" ++ toISOString today] pdfDoc in
     modifiedPdfBytes <- call_pure (PdfSave pdfDoc)
                           (inr (PDFDocument_save pdfLib pdfDoc)) ;;
     ret modifiedPdfBytes)
    (fun error =>
       match message_of error with
       | Some message =>
           throw (new_Error (lit "Failed to modify PDF metadata: "
                             ++ message))
       | None =>
           throw (new_Error
                    (lit "Failed to modify PDF metadata due to unknown error"))
       end).

Definition encodeURIComponent_ (s : jsstring) : M S jsstring :=
  match encodeURIComponent s with
  | Some r => ret r
  | None => throw URIError
  end.

(** [today] is the reading of [new Date()] in the embedding step,
    [timestamp] that of [Date.now()]. *)
Definition uploadPdfToS3 (pdfFile : File) (sourceLink : jsstring)
    (today : Date) (timestamp : Z) : M S jsstring :=
  try_catch
    (let BUCKET_NAME := lit "major-project-margdarshak" in
     (match BUCKET_NAME with
      | [] => throw (new_Error (lit
          "S3 bucket name is not defined. Check your environment configuration."))
      | _ => ret tt
      end) ;;
     validateFileSize pdfFile ;;
     modifiedPdfBytes <- addSourceLinkToPdf pdfFile sourceLink today ;;
     let sanitizedName := sanitize (file_name pdfFile) in
     let fileKey :=
       lit "pdf_files/" ++ Z_toString timestamp ++ lit "-" ++ sanitizedName in
     encodedLink <- encodeURIComponent_ sourceLink ;;
     encodedName <- encodeURIComponent_ (file_name pdfFile) ;;
     let params :=
       {| put_Bucket := BUCKET_NAME;
          put_Key := fileKey;
          put_Body := Some (Uint8Array modifiedPdfBytes);
          put_ContentType := Some (lit "application/pdf");
          put_ContentDisposition :=
            Some (lit "attachment; filename=" ++ [34] ++ sanitizedName ++ [34]);
          put_Metadata :=
            [(lit "sourceLink", encodedLink);
             (lit "originalName", encodedName);
             (lit "uploadTimestamp", Z_toString timestamp);
             (lit "fileSize", N_toString (file_size pdfFile))] |} in
     call_backend (S3Put params) (upload_done s3Client params) ;;
     ret fileKey)
    (rethrow (lit "S3 upload failed: ") (lit "Failed to upload PDF: ")
             (lit "Failed to upload PDF due to unknown error")).

Definition validExcelTypes : list jsstring :=
  [lit "application/vnd.ms-excel";
   lit "application/vnd.openxmlformats-officedocument.spreadsheetml.sheet";
   lit "application/vnd.oasis.opendocument.spreadsheet"].

Definition uploadExcelToS3 (excelFile : File) (timestamp : Z) : M S jsstring :=
  try_catch
    (validateFileSize excelFile ;;
     (if negb (includes validExcelTypes (file_type excelFile)) then
        throw (new_Error (lit
          "Invalid Excel file format. Please upload a valid Excel file."))
      else ret tt) ;;
     let sanitizedName := sanitize (file_name excelFile) in
     let fileKey :=
       lit "excel_sheets/" ++ Z_toString timestamp ++ lit "-" ++ sanitizedName in
     encodedName <- encodeURIComponent_ (file_name excelFile) ;;
     let params :=
       {| put_Bucket := BUCKET_NAME;
          put_Key := fileKey;
          put_Body := Some (bare_ArrayBuffer (file_arrayBuffer excelFile));
          put_ContentType := Some (file_type excelFile);
          put_ContentDisposition :=
            Some (lit "attachment; filename=" ++ [34] ++ sanitizedName ++ [34]);
          put_Metadata :=
            [(lit "originalName", encodedName);
             (lit "uploadTimestamp", Z_toString timestamp);
             (lit "fileSize", N_toString (file_size excelFile))] |} in
     call_backend (S3Put params) (upload_done s3Client params) ;;
     ret fileKey)
    (rethrow (lit "S3 upload failed: ") (lit "Failed to upload Excel: ")
             (lit "Failed to upload Excel due to unknown error")).

(** [item.Key && pred(item.Key)]: the key is present, not empty, and
    ends with one of the suffixes. *)
Definition key_endsWith (suffixes : list jsstring) (item : S3Object) : bool :=
  match obj_Key item with
  | Some (c :: k) => existsb (endsWith (c :: k)) suffixes
  | _ => false
  end.

(** The record built for a listed item; [today] is [new Date()]. *)
Definition toFileInfo (type : jsstring) (today : Date) (item : S3Object)
    : FileInfo :=
  {| fi_id := match obj_Key item with Some (c :: k) => c :: k | _ => [] end;
     fi_name :=
       match obj_Key item with
       | Some k => match pop (split 47 k) with Some n => n | None => [] end
       | None => []
       end;
     fi_type := type;
     fi_uploadedAt :=
       match obj_LastModified item with Some d => d | None => today end;
     fi_size := match obj_Size item with Some n => n | None => 0 end;
     fi_url :=
       public_url BUCKET_NAME
         match obj_Key item with Some k => k | None => lit "undefined" end;
     fi_sourceLink := None |}.

Definition contents_or_empty (r : ListObjectsV2Output) : list S3Object :=
  match Contents r with Some l => l | None => [] end.

(** [excel_rejects_first] resolves the race of [Promise.all] when both
    listings fail. *)
Definition listFilesFromS3 (today : Date) (excel_rejects_first : bool)
    : M S (list FileInfo) :=
  try_catch
    (let pdfCommand :=
       {| list_Bucket := BUCKET_NAME; list_Prefix := lit "pdf_files/";
          list_MaxKeys := Some 1000 |} in
     let excelCommand :=
       {| list_Bucket := BUCKET_NAME; list_Prefix := lit "excel_sheets/";
          list_MaxKeys := Some 1000 |} in
     responses <- Promise_all2 excel_rejects_first
                    (call_backend (S3List pdfCommand)
                                  (send_list s3Client pdfCommand))
                    (call_backend (S3List excelCommand)
                                  (send_list s3Client excelCommand)) ;;
     let '(pdfResponse, excelResponse) := responses in
     let pdfFiles :=
       List.map (toFileInfo (lit "pdf") today)
         (filter (key_endsWith [lit ".pdf"])
                 (contents_or_empty pdfResponse)) in
     let excelFiles :=
       List.map (toFileInfo (lit "excel") today)
         (filter (key_endsWith [lit ".xlsx"; lit ".xls"; lit ".ods"])
                 (contents_or_empty excelResponse)) in
     ret (pdfFiles ++ excelFiles))
    (rethrow (lit "S3 list operation failed: ") (lit "Failed to list files: ")
             (lit "Failed to list files due to unknown error")).

(** [expiresIn] is [None] when the caller leaves the argument out. *)
Definition getPresignedUrl (fileKey : jsstring) (expiresIn : option N)
    : M S jsstring :=
  let expiresIn := match expiresIn with Some n => n | None => 3600 end in
  try_catch
    (try_catch
       (match import_presigner with
        | inr importedGetSignedUrl => write_getSignedUrl importedGetSignedUrl
        | inl importError => throw importError
        end)
       (fun importError => ret tt) ;;
     g <- read_getSignedUrl ;;
     match g with
     | Some sign =>
         let command :=
           PutObjectCommand
             {| put_Bucket := BUCKET_NAME; put_Key := fileKey;
                put_Body := None; put_ContentType := None;
                put_ContentDisposition := None; put_Metadata := [] |} in
         call_pure (Presign command expiresIn) (sign command expiresIn)
     | None => ret (public_url BUCKET_NAME fileKey)
     end)
    (rethrow (lit "Failed to generate URL: ") (lit "Failed to generate URL: ")
             (lit "Failed to generate URL due to unknown error")).

Definition deleteFileFromS3 (fileKey : jsstring) : M S unit :=
  try_catch
    ((match fileKey with
      | [] => throw (new_Error (lit "File key is required"))
      | _ => ret tt
      end) ;;
     (if negb (startsWith fileKey (lit "pdf_files/")) &&
         negb (startsWith fileKey (lit "excel_sheets/")) then
        throw (new_Error (lit "Invalid file key format"))
      else ret tt) ;;
     let command := {| ref_Bucket := BUCKET_NAME; ref_Key := fileKey |} in
     call_backend (S3Delete command) (send_delete s3Client command))
    (rethrow (lit "S3 delete operation failed: ")
             (lit "Failed to delete file: ")
             (lit "Failed to delete file due to unknown error")).

Definition getFileMetadata (fileKey : jsstring)
    : M S (list (jsstring * jsstring)) :=
  try_catch
    (let command := {| ref_Bucket := BUCKET_NAME; ref_Key := fileKey |} in
     response <- call_backend (S3Head command) (send_head s3Client command) ;;
     ret (match Metadata response with Some m => m | None => [] end))
    (rethrow (lit "Failed to get metadata: ") (lit "Failed to get metadata: ")
             (lit "Failed to get metadata due to unknown error")).

End WithCapabilities.

End Gateway.

(* ===================================================================== *)
(** ** The first gateway, [src/lib/s3.ts] *)
(* ===================================================================== *)

Module LibS3.

Section WithCapabilities.

Variable S : Type.
Variable s3Client : S3Client S.
Variable BUCKET_NAME : jsstring.

(** The command class is imported from the client package, which the
    module already imports at its head, so the import settles. *)
Definition deleteFileFromS3 (fileKey : jsstring) : M S unit :=
  try_catch
    (let command := {| ref_Bucket := BUCKET_NAME; ref_Key := fileKey |} in
     call_backend (S3Delete command) (send_delete s3Client command))
    (fun error => throw (new_Error (lit "Failed to delete file from S3"))).

(** [timestamp] is the reading of [Date.now()].  The key takes the file
    name as it is; nothing is validated. *)
Definition uploadExcelToS3 (excelFile : File) (timestamp : Z) : M S jsstring :=
  try_catch
    (let fileKey :=
       lit "excel_sheets/" ++ Z_toString timestamp ++ lit "-"
       ++ file_name excelFile in
     let params :=
       {| put_Bucket := BUCKET_NAME;
          put_Key := fileKey;
          put_Body := Some (bare_ArrayBuffer (file_arrayBuffer excelFile));
          put_ContentType := Some (file_type excelFile);
          put_ContentDisposition := None;
          put_Metadata := [] |} in
     call_backend (S3Put params) (upload_done s3Client params) ;;
     ret fileKey)
    (fun error => throw (new_Error (lit "Failed to upload Excel to S3"))).

(** The record built for a listed item; [today] is [new Date()]. *)
Definition toFileInfo (type : jsstring) (today : Date) (item : S3Object)
    : Gateway.FileInfo :=
  {| Gateway.fi_id :=
       match obj_Key item with Some (c :: k) => c :: k | _ => [] end;
     Gateway.fi_name :=
       match obj_Key item with
       | Some k => match pop (split 47 k) with Some n => n | None => [] end
       | None => []
       end;
     Gateway.fi_type := type;
     Gateway.fi_uploadedAt :=
       match obj_LastModified item with Some d => d | None => today end;
     Gateway.fi_size := match obj_Size item with Some n => n | None => 0 end;
     Gateway.fi_url :=
       lit "https://" ++ BUCKET_NAME ++ lit ".s3.amazonaws.com/"
       ++ match obj_Key item with Some k => k | None => lit "undefined" end;
     Gateway.fi_sourceLink := None |}.

(** Every item of the two listings is mapped, none is filtered out;
    [excel_rejects_first] resolves the race of [Promise.all] when both
    listings fail. *)
Definition listFilesFromS3 (today : Date) (excel_rejects_first : bool)
    : M S (list Gateway.FileInfo) :=
  try_catch
    (let pdfCommand :=
       {| list_Bucket := BUCKET_NAME; list_Prefix := lit "pdf_files/";
          list_MaxKeys := None |} in
     let excelCommand :=
       {| list_Bucket := BUCKET_NAME; list_Prefix := lit "excel_sheets/";
          list_MaxKeys := None |} in
     responses <- Promise_all2 excel_rejects_first
                    (call_backend (S3List pdfCommand)
                                  (send_list s3Client pdfCommand))
                    (call_backend (S3List excelCommand)
                                  (send_list s3Client excelCommand)) ;;
     let '(pdfResponse, excelResponse) := responses in
     let pdfFiles :=
       match Contents pdfResponse with
       | Some items => List.map (toFileInfo (lit "pdf") today) items
       | None => []
       end in
     let excelFiles :=
       match Contents excelResponse with
       | Some items => List.map (toFileInfo (lit "excel") today) items
       | None => []
       end in
     ret (pdfFiles ++ excelFiles))
    (fun error => throw (new_Error (lit "Failed to list files from S3"))).

End WithCapabilities.

End LibS3.

(* ===================================================================== *)
(** ** The table of files, [components/FilesList.tsx] *)
(* ===================================================================== *)

(** The logic of the component: what it displays, how it sorts and pages,
    and its two handlers on the store.  The component imports the store
    operations from [lib/s3], the first gateway.  A handler is taken to run
    to its end before the next event. *)
Module FilesList.

Import Gateway.

Local Open Scope Z_scope.

Inductive SortField : Type := by_name | by_type | by_uploadedAt.

Inductive SortDirection : Type := asc | desc.

(** The state of the component ([useState]). *)
Record state : Type := {
  st_currentPage : Z;
  st_sortField : SortField;
  st_sortDirection : SortDirection;
  st_isLoading : bool;
  st_s3Files : list FileInfo;
  st_error : option jsstring
}.

Definition itemsPerPage : Z := 10.

Definition mock (id name type : string) (uploadedAt : Date) (size : N)
    : FileInfo :=
  {| fi_id := lit id; fi_name := lit name; fi_type := lit type;
     fi_uploadedAt := uploadedAt; fi_size := size; fi_url := lit "#";
     fi_sourceLink := None |}.

(** [new Date("2023-12-15")] is midnight UTC of that day. *)
Definition mockFiles : list FileInfo :=
  [mock "1" "annual-report-2023.pdf" "pdf" 1702598400000 2456789;
   mock "2" "financial-data-q4.xlsx" "excel" 1702166400000 1234567;
   mock "3" "product-catalog.pdf" "pdf" 1701129600000 3456789;
   mock "4" "inventory-2023.xlsx" "excel" 1700438400000 987654;
   mock "5" "marketing-strategy.pdf" "pdf" 1700006400000 1567890].

(** [Math.ceil(files.length / itemsPerPage)] *)
Definition totalPages (files : list FileInfo) : Z :=
  (Z.of_nat (List.length files) + 9) / 10.

Definition displayFiles (s3Files files : list FileInfo) : list FileInfo :=
  match s3Files with
  | _ :: _ => s3Files
  | [] => match files with _ :: _ => files | [] => mockFiles end
  end.

(** [array.slice(start, end)], a negative index counting from the end. *)
Definition slice {A : Type} (l : list A) (start end_ : Z) : list A :=
  let len := Z.of_nat (List.length l) in
  let k := if start <? 0 then Z.max (len + start) 0 else Z.min start len in
  let final := if end_ <? 0 then Z.max (len + end_) 0 else Z.min end_ len in
  firstn (Z.to_nat (final - k)) (skipn (Z.to_nat k) l).

(** [array.sort(compare)] for a consistent comparison: the sort is stable,
    an element stays before the later elements it does not compare greater
    than. *)
Fixpoint insert_sorted {A : Type} (compare : A -> A -> Z) (x : A)
    (sorted : list A) : list A :=
  match sorted with
  | [] => [x]
  | y :: rest =>
      if compare x y <=? 0 then x :: y :: rest
      else y :: insert_sorted compare x rest
  end.

Fixpoint Array_sort {A : Type} (compare : A -> A -> Z) (l : list A) : list A :=
  match l with
  | [] => []
  | x :: rest => insert_sorted compare x (Array_sort compare rest)
  end.

Definition handleSort (field : SortField) (st : state) : state :=
  let same :=
    match field, st_sortField st with
    | by_name, by_name | by_type, by_type | by_uploadedAt, by_uploadedAt => true
    | _, _ => false
    end in
  if same then
    {| st_currentPage := st_currentPage st;
       st_sortField := st_sortField st;
       st_sortDirection :=
         match st_sortDirection st with asc => desc | desc => asc end;
       st_isLoading := st_isLoading st;
       st_s3Files := st_s3Files st;
       st_error := st_error st |}
  else
    {| st_currentPage := st_currentPage st;
       st_sortField := field;
       st_sortDirection := asc;
       st_isLoading := st_isLoading st;
       st_s3Files := st_s3Files st;
       st_error := st_error st |}.

(** The controls of the pagination and what each sets the page to. *)
Inductive PageControl : Type :=
| PaginationPrevious
| PaginationNext
| PaginationLink (page : Z).

Section WithProps.

Variable S : Type.
Variable s3Client : S3Client S.
Variable BUCKET_NAME : jsstring.
(** [a.localeCompare(b)] of the host. *)
Variable localeCompare : jsstring -> jsstring -> Z.
(** The props: the files handed in and the callback of a deletion, which
    returns or throws. *)
Variable files : list FileInfo.
Variable onDelete : jsstring -> exn + unit.

(** The comparison of the sort effect. *)
Definition compareFiles (sortField : SortField) (sortDirection : SortDirection)
    (a b : FileInfo) : Z :=
  match sortField with
  | by_name =>
      match sortDirection with
      | asc => localeCompare (fi_name a) (fi_name b)
      | desc => localeCompare (fi_name b) (fi_name a)
      end
  | by_type =>
      match sortDirection with
      | asc => localeCompare (fi_type a) (fi_type b)
      | desc => localeCompare (fi_type b) (fi_type a)
      end
  | by_uploadedAt =>
      match sortDirection with
      | asc => fi_uploadedAt a - fi_uploadedAt b
      | desc => fi_uploadedAt b - fi_uploadedAt a
      end
  end.

Definition sortedFiles (st : state) : list FileInfo :=
  Array_sort (compareFiles (st_sortField st) (st_sortDirection st))
             (displayFiles (st_s3Files st) files).

Definition currentFiles (st : state) : list FileInfo :=
  slice (sortedFiles st) ((st_currentPage st - 1) * itemsPerPage)
        (st_currentPage st * itemsPerPage).

(** The pagination is rendered when [totalPages > 1], with one link for
    each page from 1 to [totalPages]. *)
Definition rendered (c : PageControl) : bool :=
  (1 <? totalPages files) &&
  match c with
  | PaginationLink page => (1 <=? page) && (page <=? totalPages files)
  | _ => true
  end.

Definition setCurrentPage (page : Z) (st : state) : state :=
  {| st_currentPage := page;
     st_sortField := st_sortField st;
     st_sortDirection := st_sortDirection st;
     st_isLoading := st_isLoading st;
     st_s3Files := st_s3Files st;
     st_error := st_error st |}.

(** A click on a control; a control that is not rendered is not there to be
    clicked. *)
Definition click (c : PageControl) (st : state) : state :=
  if rendered c then
    match c with
    | PaginationPrevious =>
        setCurrentPage (Z.max (st_currentPage st - 1) 1) st
    | PaginationNext =>
        setCurrentPage (Z.min (st_currentPage st + 1) (totalPages files)) st
    | PaginationLink page => setCurrentPage page st
    end
  else st.

Definition clicks (cs : list PageControl) (st : state) : state :=
  fold_left (fun st c => click c st) cs st.

Definition finish (s3Files : list FileInfo) (error : option jsstring)
    (st : state) : state :=
  {| st_currentPage := st_currentPage st;
     st_sortField := st_sortField st;
     st_sortDirection := st_sortDirection st;
     st_isLoading := false;
     st_s3Files := s3Files;
     st_error := error |}.

(** [today] and [excel_rejects_first] are those of the listing. *)
Definition fetchFiles (today : Date) (excel_rejects_first : bool) (st : state)
    (w : world S) : state * world S :=
  match LibS3.listFilesFromS3 s3Client BUCKET_NAME today excel_rejects_first w
  with
  | (inr fetchedFiles, w') => (finish fetchedFiles None st, w')
  | (inl _, w') =>
      (finish (st_s3Files st)
              (Some (lit "Failed to fetch files. Please try again.")) st, w')
  end.

Definition handleDeleteFile (fileId : jsstring) (st : state) (w : world S)
    : state * world S :=
  match LibS3.deleteFileFromS3 s3Client BUCKET_NAME fileId w with
  | (inr _, w') =>
      let remaining :=
        filter (fun file => negb (JS.eqb (fi_id file) fileId)) (st_s3Files st) in
      match onDelete fileId with
      | inr _ => (finish remaining (st_error st) st, w')
      | inl _ =>
          (finish remaining
                  (Some (lit "Failed to delete file. Please try again.")) st,
           w')
      end
  | (inl _, w') =>
      (finish (st_s3Files st)
              (Some (lit "Failed to delete file. Please try again.")) st, w')
  end.

(** What can happen to the mounted component: a click on a control of the
    pagination or on the head of a column, a fetch, a deletion. *)
Inductive action : Type :=
| Click (c : PageControl)
| Sort (field : SortField)
| Fetch (today : Date) (excel_rejects_first : bool)
| Delete (fileId : jsstring).

Definition act (a : action) (sw : state * world S) : state * world S :=
  match a with
  | Click c => (click c (fst sw), snd sw)
  | Sort field => (handleSort field (fst sw), snd sw)
  | Fetch today excel_rejects_first =>
      fetchFiles today excel_rejects_first (fst sw) (snd sw)
  | Delete fileId => handleDeleteFile fileId (fst sw) (snd sw)
  end.

Definition acts (l : list action) (sw : state * world S) : state * world S :=
  fold_left (fun sw a => act a sw) l sw.

End WithProps.

(** The state the component mounts in. *)
Definition mounted : state :=
  {| st_currentPage := 1; st_sortField := by_uploadedAt;
     st_sortDirection := desc; st_isLoading := false; st_s3Files := [];
     st_error := None |}.

End FilesList.

(* ===================================================================== *)
(** ** The taxonomy of failures, read on the code *)
(* ===================================================================== *)

(** The four kinds of failure the design distinguishes. *)
Inductive failure : Type :=
| ValidationError
| MetadataWriteError
| InvalidKey
| StoreError.

(** A key is recognized when it starts with one of the two category
    prefixes. *)
Definition recognized (key : jsstring) : bool :=
  startsWith key (lit "pdf_files/") || startsWith key (lit "excel_sheets/").

(** The kind of failure that occurs in a guarded delete of [key] on the
    backend state [s]: the guard trips on a key that is not recognized and
    no call is made; otherwise the call is made, and fails or not. *)
Definition delete_failure {S} (s3Client : S3Client S) (bucket key : jsstring)
    (s : S) : option failure :=
  if recognized key then
    match fst (send_delete s3Client
                 {| ref_Bucket := bucket; ref_Key := key |} s) with
    | inl _ => Some StoreError
    | inr _ => None
    end
  else Some InvalidKey.

(** The message a [catch] clause of the gateway reports for a cause. *)
Definition report (s3_prefix prefix unknown : jsstring) (cause : exn)
    : jsstring :=
  match cause with
  | S3ServiceException name message => s3_prefix ++ name ++ lit " - " ++ message
  | JsError _ message => prefix ++ message
  | NonError => unknown
  end.

(** A caller can tell the kinds of failure of the guarded delete apart when
    some function of the thrown value gives the kind that occurred. *)
Definition delete_failures_distinguishable : Prop :=
  exists classify : exn -> failure,
    forall S (s3Client : S3Client S) (bucket key : jsstring) (w : world S)
           (e : exn),
      fst (Gateway.deleteFileFromS3 s3Client bucket key w) = inl e ->
      delete_failure s3Client bucket key (backend w) = Some (classify e).

(** The events a call appended to the trace of [w]. *)
Definition appended {S} (w w' : world S) (evs : list event) : Prop :=
  trace w' = trace w ++ evs.

(** The shape [YYYY-MM-DDTHH:mm:ss.sssZ] of a timestamp, the year being of
    four digits, or of six digits after a sign. *)
Definition all_digits (s : jsstring) : bool := forallb is_digit s.

Definition is_date_time_tail (s : jsstring) : bool :=
  match s with
  | [d1; m1; m2; d2; dd1; dd2; t; h1; h2; c1; mi1; mi2; c2; s1; s2; p;
     f1; f2; f3; z] =>
      all_digits [m1; m2; dd1; dd2; h1; h2; mi1; mi2; s1; s2; f1; f2; f3]
      && JS.eqb [d1; d2; t; c1; c2; p; z] (lit "--T::.Z")
  | _ => false
  end.

Definition is_iso8601 (s : jsstring) : bool :=
  match s with
  | y1 :: y2 :: y3 :: y4 :: rest =>
      if is_digit y1 then all_digits [y2; y3; y4] && is_date_time_tail rest
      else
        match rest with
        | y5 :: y6 :: y7 :: rest' =>
            (unit_eqb y1 43 || unit_eqb y1 45)
            && all_digits [y2; y3; y4; y5; y6; y7] && is_date_time_tail rest'
        | _ => false
        end
  | _ => false
  end.

(** The world after a call that appended [evs] and left the backend in
    state [s]. *)
Definition after {S} (w : world S) (evs : list event) (s : S) : world S :=
  {| backend := s; trace := trace w ++ evs; getSignedUrl := getSignedUrl w |}.

(** The document the embedding step hands to the serializer. *)
Definition stamped (pdfFile : File) (sourceLink : jsstring) (today : Date)
    (doc : PDFDocument) : PDFDocument :=
  setKeywords [lit "source:" ++ sourceLink; lit "upload:" ++ toISOString today]
    (setCreator (lit "DMS Upload Tool")
       (setProducer (lit "DMS Upload Tool")
          (setSubject sourceLink
             (setAuthor (lit "Document Management System")
                (setTitle (lit "Document: " ++ file_name pdfFile) doc))))).

(** The key of the naming scheme: ["{prefix}/{timestamp}-{sanitizedName}"]. *)
Definition storage_key (prefix : jsstring) (timestamp : Z) (name : jsstring)
    : jsstring :=
  prefix ++ lit "/" ++ Z_toString timestamp ++ lit "-" ++ Gateway.sanitize name.

(** The size limit of the validator, in bytes. *)
Definition size_limit : N := Gateway.MAX_FILE_SIZE_MB * 1048576.

(** The error the embedding step throws for a cause. *)
Definition metadata_error (cause : exn) : exn :=
  new_Error
    match Gateway.message_of cause with
    | Some message => lit "Failed to modify PDF metadata: " ++ message
    | None => lit "Failed to modify PDF metadata due to unknown error"
    end.

(** The messages of the [catch] clause of each operation. *)
Definition report_pdf_upload : exn -> jsstring :=
  report (lit "S3 upload failed: ") (lit "Failed to upload PDF: ")
         (lit "Failed to upload PDF due to unknown error").

Definition report_excel_upload : exn -> jsstring :=
  report (lit "S3 upload failed: ") (lit "Failed to upload Excel: ")
         (lit "Failed to upload Excel due to unknown error").

Definition report_list : exn -> jsstring :=
  report (lit "S3 list operation failed: ") (lit "Failed to list files: ")
         (lit "Failed to list files due to unknown error").

Definition report_delete : exn -> jsstring :=
  report (lit "S3 delete operation failed: ") (lit "Failed to delete file: ")
         (lit "Failed to delete file due to unknown error").

Definition report_presign : exn -> jsstring :=
  report (lit "Failed to generate URL: ") (lit "Failed to generate URL: ")
         (lit "Failed to generate URL due to unknown error").

(** The error of the delete guard on a key that is not recognized. *)
Definition invalid_key_error (key : jsstring) : exn :=
  new_Error
    (lit "Failed to delete file: "
     ++ match key with
        | [] => lit "File key is required"
        | _ => lit "Invalid file key format"
        end).

(** The library gives back the document it serialized. *)
Definition round_trips (lib : PdfLib) (d : PDFDocument) : Prop :=
  PDFDocument_load lib (PDFDocument_save lib d) = inr d.

(** The two listing requests, and the list built from two listings. *)
Definition pdf_listing (bucket : jsstring) : ListObjectsV2Input :=
  {| list_Bucket := bucket; list_Prefix := lit "pdf_files/";
     list_MaxKeys := Some 1000 |}.

Definition excel_listing (bucket : jsstring) : ListObjectsV2Input :=
  {| list_Bucket := bucket; list_Prefix := lit "excel_sheets/";
     list_MaxKeys := Some 1000 |}.

Definition merged (bucket : jsstring) (today : Date)
    (pdfs sheets : ListObjectsV2Output) : list Gateway.FileInfo :=
  List.map (Gateway.toFileInfo bucket (lit "pdf") today)
    (filter (Gateway.key_endsWith [lit ".pdf"])
            (Gateway.contents_or_empty pdfs))
  ++ List.map (Gateway.toFileInfo bucket (lit "excel") today)
       (filter (Gateway.key_endsWith [lit ".xlsx"; lit ".xls"; lit ".ods"])
               (Gateway.contents_or_empty sheets)).

(** The put requests of the two uploads, given the serialized document and
    the percent-encoded link and name. *)
Definition pdf_put_request (pdfFile : File) (timestamp : Z)
    (modifiedPdfBytes : ArrayBuffer) (encodedLink encodedName : jsstring)
    : PutObjectInput :=
  {| put_Bucket := lit "major-project-margdarshak";
     put_Key := storage_key (lit "pdf_files") timestamp (file_name pdfFile);
     put_Body := Some (Uint8Array modifiedPdfBytes);
     put_ContentType := Some (lit "application/pdf");
     put_ContentDisposition :=
       Some (lit "attachment; filename=" ++ [34]
             ++ Gateway.sanitize (file_name pdfFile) ++ [34]);
     put_Metadata :=
       [(lit "sourceLink", encodedLink);
        (lit "originalName", encodedName);
        (lit "uploadTimestamp", Z_toString timestamp);
        (lit "fileSize", N_toString (file_size pdfFile))] |}.

Definition excel_put_request (bucket : jsstring) (excelFile : File)
    (timestamp : Z) (encodedName : jsstring) : PutObjectInput :=
  {| put_Bucket := bucket;
     put_Key := storage_key (lit "excel_sheets") timestamp (file_name excelFile);
     put_Body := Some (bare_ArrayBuffer (file_arrayBuffer excelFile));
     put_ContentType := Some (file_type excelFile);
     put_ContentDisposition :=
       Some (lit "attachment; filename=" ++ [34]
             ++ Gateway.sanitize (file_name excelFile) ++ [34]);
     put_Metadata :=
       [(lit "originalName", encodedName);
        (lit "uploadTimestamp", Z_toString timestamp);
        (lit "fileSize", N_toString (file_size excelFile))] |}.

(** The command the presigning step signs. *)
Definition presigned_command (bucket key : jsstring) : S3Command :=
  PutObjectCommand
    {| put_Bucket := bucket; put_Key := key; put_Body := None;
       put_ContentType := None; put_ContentDisposition := None;
       put_Metadata := [] |}.

(* ===================================================================== *)
(** ** Concrete capabilities, to run the gateway *)
(* ===================================================================== *)

(** An object store in memory: the objects as the put requests that made
    them, the latest first. *)
Module InMemory.

Definition store := list PutObjectInput.

Definition without (key : jsstring) (s : store) : store :=
  filter (fun o => negb (JS.eqb (put_Key o) key)) s.

Definition entry (o : PutObjectInput) : S3Object :=
  {| obj_Key := Some (put_Key o);
     obj_Size :=
       Some (match put_Body o with
             | Some b => N.of_nat (List.length (body_bytes b))
             | None => 0
             end);
     obj_LastModified := None |}.

(** The upload refuses a bare buffer, as the storage library does. *)
Definition client : S3Client store :=
  {| upload_done := fun i s =>
       match put_Body i with
       | Some (bare_ArrayBuffer _) => (inl unsupported_body, s)
       | _ => (inr tt, i :: without (put_Key i) s)
       end;
     send_list := fun i s =>
       (inr {| Contents :=
                 Some (List.map entry
                         (filter (fun o => startsWith (put_Key o) (list_Prefix i))
                                 s)) |}, s);
     send_delete := fun r s => (inr tt, without (ref_Key r) s);
     send_head := fun r s =>
       (match filter (fun o => JS.eqb (put_Key o) (ref_Key r)) s with
        | o :: _ => inr {| Metadata := Some (put_Metadata o) |}
        | [] => inl (S3ServiceException (lit "NotFound") (lit "UnknownError"))
        end, s) |}.

(** A store out of reach: every call throws [e]. *)
Definition unreachable (e : exn) : S3Client store :=
  {| upload_done := fun _ s => (inl e, s);
     send_list := fun _ s => (inl e, s);
     send_delete := fun _ s => (inl e, s);
     send_head := fun _ s => (inl e, s) |}.

(** A store whose listing of the prefix [bad] fails with [e]. *)
Definition flaky_list (bad : jsstring) (e : exn) : S3Client store :=
  {| upload_done := upload_done client;
     send_list := fun i s =>
       if JS.eqb (list_Prefix i) bad then (inl e, s) else send_list client i s;
     send_delete := send_delete client;
     send_head := send_head client |}.

Definition start (s : store) : world store :=
  {| backend := s; trace := []; getSignedUrl := None |}.

End InMemory.

(** A small document format: the six descriptive fields, each a sequence of
    numbers of two octets, followed by the body. *)
Module TinyPdf.

Definition octet (n : N) : byte :=
  match Byte.of_N (n mod 256) with Some b => b | None => x00 end.

Definition enc_num (n : N) : list byte := [octet (n / 256); octet n].

Definition enc_string (s : jsstring) : list byte :=
  enc_num (N.of_nat (List.length s)) ++ flat_map enc_num s.

Definition enc_field (f : option jsstring) : list byte :=
  match f with
  | None => enc_num 0
  | Some s => enc_num 1 ++ enc_string s
  end.

Definition enc_keywords (f : option (list jsstring)) : list byte :=
  match f with
  | None => enc_num 0
  | Some l => enc_num 1 ++ enc_num (N.of_nat (List.length l)) ++ flat_map enc_string l
  end.

Definition save (d : PDFDocument) : ArrayBuffer :=
  enc_field (pdf_Title d) ++ enc_field (pdf_Author d)
  ++ enc_field (pdf_Subject d) ++ enc_field (pdf_Producer d)
  ++ enc_field (pdf_Creator d) ++ enc_keywords (pdf_Keywords d)
  ++ pdf_body d.

Definition parser (A : Type) : Type := list byte -> option (A * list byte).

Definition dec_num : parser N :=
  fun bs =>
    match bs with
    | hi :: lo :: rest => Some (256 * Byte.to_N hi + Byte.to_N lo, rest)
    | _ => None
    end.

Fixpoint dec_many {A} (p : parser A) (n : nat) : parser (list A) :=
  fun bs =>
    match n with
    | O => Some ([], bs)
    | Datatypes.S n' =>
        match p bs with
        | Some (a, rest) =>
            match dec_many p n' rest with
            | Some (l, rest') => Some (a :: l, rest')
            | None => None
            end
        | None => None
        end
    end.

Definition dec_string : parser jsstring :=
  fun bs =>
    match dec_num bs with
    | Some (n, rest) => dec_many dec_num (N.to_nat n) rest
    | None => None
    end.

Definition dec_option {A} (p : parser A) : parser (option A) :=
  fun bs =>
    match dec_num bs with
    | Some (0, rest) => Some (None, rest)
    | Some (1, rest) =>
        match p rest with
        | Some (a, rest') => Some (Some a, rest')
        | None => None
        end
    | _ => None
    end.

Definition dec_strings : parser (list jsstring) :=
  fun bs =>
    match dec_num bs with
    | Some (n, rest) => dec_many dec_string (N.to_nat n) rest
    | None => None
    end.

Definition parse : parser PDFDocument :=
  fun bs =>
    match dec_option dec_string bs with
    | Some (title, b1) =>
    match dec_option dec_string b1 with
    | Some (author, b2) =>
    match dec_option dec_string b2 with
    | Some (subject, b3) =>
    match dec_option dec_string b3 with
    | Some (producer, b4) =>
    match dec_option dec_string b4 with
    | Some (creator, b5) =>
    match dec_option dec_strings b5 with
    | Some (keywords, body) =>
        Some ({| pdf_Title := title; pdf_Author := author;
                 pdf_Subject := subject; pdf_Producer := producer;
                 pdf_Creator := creator; pdf_Keywords := keywords;
                 pdf_body := body |}, [])
    | None => None end
    | None => None end
    | None => None end
    | None => None end
    | None => None end
    | None => None end.

Definition load (bs : ArrayBuffer) : exn + PDFDocument :=
  match parse bs with
  | Some (d, _) => inr d
  | None => inl (new_Error (lit "Failed to parse PDF document."))
  end.

Definition lib : PdfLib :=
  {| PDFDocument_load := load; PDFDocument_save := save |}.

Definition blank : PDFDocument :=
  {| pdf_Title := None; pdf_Author := None; pdf_Subject := None;
     pdf_Producer := None; pdf_Creator := None; pdf_Keywords := None;
     pdf_body := [x25; x50; x44; x46] |}.

End TinyPdf.

(** The inputs of the examples. *)
Module Examples.

Definition report_pdf : File :=
  {| file_name := [25253; 21578] ++ lit " (final)#1.pdf";
     file_size := N.of_nat (List.length (TinyPdf.save TinyPdf.blank));
     file_type := lit "application/pdf";
     file_arrayBuffer := TinyPdf.save TinyPdf.blank |}.

Definition not_a_pdf : File :=
  {| file_name := lit "notes.pdf";
     file_size := 3;
     file_type := lit "application/pdf";
     file_arrayBuffer := [x01; x02; x03] |}.

Definition huge_pdf : File :=
  {| file_name := lit "huge.pdf";
     file_size := 104857601;
     file_type := lit "application/pdf";
     file_arrayBuffer := TinyPdf.save TinyPdf.blank |}.

Definition sheet : File :=
  {| file_name := lit "q3 totals.xlsx";
     file_size := 4;
     file_type :=
       lit "application/vnd.openxmlformats-officedocument.spreadsheetml.sheet";
     file_arrayBuffer := [x50; x4b; x03; x04] |}.

Definition link : jsstring := lit "https://example.com/a".

Definition bucket : jsstring := lit "dashboard-bucket".

Definition a_pdf_key : jsstring := lit "pdf_files/123-a.pdf".

Definition foreign_key : jsstring := lit "evil/../../secret".

(** A presigner that renders what it is asked to sign. *)
Definition sign : Presigner :=
  fun command expiresIn =>
    match command with
    | PutObjectCommand i =>
        inr (Gateway.public_url (put_Bucket i) (put_Key i) ++ lit "?X-Amz-Expires="
             ++ N_toString expiresIn ++ lit "&x-id=PutObject")
    | _ => inl (new_Error (lit "unsupported command"))
    end.

End Examples.

(* ===================================================================== *)
(** ** Further notions the properties are stated with *)
(* ===================================================================== *)

(** A string of 16-bit code units, as every string of the source is. *)
Definition utf16 (s : jsstring) : bool := forallb (fun c => c <? 65536) s.

(** No surrogate of the string stands alone: a high surrogate is followed
    by a low one, and a low one follows a high one. *)
Fixpoint isWellFormed (s : jsstring) : bool :=
  match s with
  | [] => true
  | c :: rest =>
      if is_low_surrogate c then false
      else if is_high_surrogate c then
        match rest with
        | c2 :: rest' => is_low_surrogate c2 && isWellFormed rest'
        | [] => false
        end
      else isWellFormed rest
  end.

(** A code unit of a percent-encoded string: unreserved, or the percent
    sign. *)
Definition uri_safe (c : code_unit) : bool := uri_unreserved c || unit_eqb c 37.

(** The digit a hexadecimal character stands for. *)
Definition unhex (c : code_unit) : N := if c <? 58 then c - 48 else c - 55.

(** The code units a percent-encoded string stands for: the inverse of the
    encoder, by which nothing is lost in the encoding. *)
Fixpoint percent_decoded (r : jsstring) : jsstring :=
  match r with
  | [] => []
  | c :: rest =>
      if unit_eqb c 37 then
        match rest with
        | h1 :: l1 :: rest1 =>
            let o1 := 16 * unhex h1 + unhex l1 in
            if o1 <? 128 then o1 :: percent_decoded rest1
            else
              match rest1 with
              | _ :: h2 :: l2 :: rest2 =>
                  let o2 := 16 * unhex h2 + unhex l2 in
                  if o1 <? 224 then
                    ((o1 - 192) * 64 + (o2 - 128)) :: percent_decoded rest2
                  else
                    match rest2 with
                    | _ :: h3 :: l3 :: rest3 =>
                        let o3 := 16 * unhex h3 + unhex l3 in
                        if o1 <? 240 then
                          ((o1 - 224) * 4096 + (o2 - 128) * 64 + (o3 - 128))
                            :: percent_decoded rest3
                        else
                          match rest3 with
                          | _ :: h4 :: l4 :: rest4 =>
                              let o4 := 16 * unhex h4 + unhex l4 in
                              let cp := (o1 - 240) * 262144 + (o2 - 128) * 4096
                                        + (o3 - 128) * 64 + (o4 - 128) in
                              (55296 + (cp - 65536) / 1024)
                                :: (56320 + (cp - 65536) mod 1024)
                                :: percent_decoded rest4
                          | _ => []
                          end
                    | _ => []
                    end
              | _ => []
              end
        | _ => []
        end
      else c :: percent_decoded rest
  end.

(** A file of a listing has the extension of its type. *)
Definition has_listed_extension (file : Gateway.FileInfo) : bool :=
  match Gateway.fi_id file with
  | [] => false
  | id =>
      if JS.eqb (Gateway.fi_type file) (lit "pdf") then endsWith id (lit ".pdf")
      else existsb (endsWith id) [lit ".xlsx"; lit ".xls"; lit ".ods"]
  end.

(** The two listing requests of the first gateway, and the list it builds
    from two listings. *)
Definition pdf_listing_all (bucket : jsstring) : ListObjectsV2Input :=
  {| list_Bucket := bucket; list_Prefix := lit "pdf_files/";
     list_MaxKeys := None |}.

Definition excel_listing_all (bucket : jsstring) : ListObjectsV2Input :=
  {| list_Bucket := bucket; list_Prefix := lit "excel_sheets/";
     list_MaxKeys := None |}.

Definition unfiltered (bucket : jsstring) (today : Date)
    (pdfs sheets : ListObjectsV2Output) : list Gateway.FileInfo :=
  List.map (LibS3.toFileInfo bucket (lit "pdf") today)
           (Gateway.contents_or_empty pdfs)
  ++ List.map (LibS3.toFileInfo bucket (lit "excel") today)
              (Gateway.contents_or_empty sheets).


(** The order of a sort by a key, ascending or descending. *)
Definition in_order {A : Type} (key : A -> Z) (ascending : bool) (a b : A)
    : Prop :=
  if ascending then (key a <= key b)%Z else (key b <= key a)%Z.

(** Further inputs of the examples. *)
Module Cases.

(** A spreadsheet whose name starts with a high surrogate that no low
    surrogate follows. *)
Definition odd_sheet : File :=
  {| file_name := [55357] ++ lit ".xlsx";
     file_size := 4;
     file_type :=
       lit "application/vnd.openxmlformats-officedocument.spreadsheetml.sheet";
     file_arrayBuffer := [x50; x4b; x03; x04] |}.

Definition csv_sheet : File :=
  {| file_name := lit "totals.xlsx";
     file_size := 4;
     file_type := lit "text/csv";
     file_arrayBuffer := [x61; x2c; x62; x0a] |}.

Definition object (key : string) (body : ArrayBuffer) : PutObjectInput :=
  {| put_Bucket := Examples.bucket; put_Key := lit key;
     put_Body := Some (Uint8Array body);
     put_ContentType := None; put_ContentDisposition := None;
     put_Metadata := [] |}.

(** A bucket with a PDF, a folder marker, a foreign object under the PDF
    prefix and a spreadsheet. *)
Definition mixed_store : InMemory.store :=
  [object "pdf_files/17-a.pdf" [x25; x50];
   object "pdf_files/" [];
   object "pdf_files/17-notes.txt" [x61];
   object "excel_sheets/18-q3.xlsx" [x50; x4b; x03]].

(** Files of the store, uploaded one second apart. *)
Definition stored (n : nat) : Gateway.FileInfo :=
  {| Gateway.fi_id :=
       lit "pdf_files/" ++ Z_toString (Z.of_nat n) ++ lit "-a.pdf";
     Gateway.fi_name := Z_toString (Z.of_nat n) ++ lit "-a.pdf";
     Gateway.fi_type := lit "pdf";
     Gateway.fi_uploadedAt := (1700000000000 + 1000 * Z.of_nat n)%Z;
     Gateway.fi_size := 1024;
     Gateway.fi_url := lit "#";
     Gateway.fi_sourceLink := None |}.

Definition twelve : list Gateway.FileInfo := List.map stored (seq 1 12).

End Cases.

(* ===================================================================== *)
(** ** Strings: basic facts *)
(* ===================================================================== *)

Section StringFacts.

Lemma unit_eqb_eq (a b : code_unit) : unit_eqb a b = true <-> a = b.
Proof. unfold unit_eqb. apply N.eqb_eq. Qed.

Lemma eqb_eq (s t : jsstring) : JS.eqb s t = true <-> s = t.
Proof.
  revert t. induction s as [|a s IH]; intros [|b t]; simpl;
    try (split; [discriminate | discriminate]); try tauto.
  rewrite andb_true_iff, unit_eqb_eq, IH. split.
  - intros [-> ->]. reflexivity.
  - intros E. inversion E. auto.
Qed.

Lemma eqb_refl (s : jsstring) : JS.eqb s s = true.
Proof. apply eqb_eq. reflexivity. Qed.

Lemma startsWith_app (p s : jsstring) : startsWith (p ++ s) p = true.
Proof.
  induction p as [|b p IH]; simpl; [reflexivity|].
  rewrite IH, andb_true_r. apply unit_eqb_eq. reflexivity.
Qed.

Lemma startsWith_prefix (s p : jsstring) :
  startsWith s p = true <-> exists rest, s = p ++ rest.
Proof.
  split.
  - revert s. induction p as [|b p IH]; intros s H; simpl in *.
    + exists s. reflexivity.
    + destruct s as [|a s]; [discriminate|].
      apply andb_true_iff in H. destruct H as [Hab H].
      apply unit_eqb_eq in Hab. subst b.
      destruct (IH _ H) as [rest ->]. exists rest. reflexivity.
  - intros [rest ->]. apply startsWith_app.
Qed.

Lemma startsWith_nil (p : jsstring) : p <> [] -> startsWith [] p = false.
Proof. destruct p; [congruence | reflexivity]. Qed.

Lemma lit_app (a b : string) : lit (a ++ b) = lit a ++ lit b.
Proof.
  unfold lit. induction a as [|c a IH]; simpl; [reflexivity|].
  f_equal. exact IH.
Qed.

End StringFacts.

(* ===================================================================== *)
(** ** The key naming scheme *)
(* ===================================================================== *)

Section KeyNaming.
Import Gateway.

Lemma key_char_underscore : key_char 95 = true.
Proof. reflexivity. Qed.

Lemma sanitize_cons (c : code_unit) (s : jsstring) :
  sanitize (c :: s) = (if key_char c then c else 95) :: sanitize s.
Proof. reflexivity. Qed.

Lemma sanitize_length (s : jsstring) :
  List.length (sanitize s) = List.length s.
Proof. unfold sanitize, replace_outside. apply length_map. Qed.

Lemma sanitize_safe (s : jsstring) : forallb key_char (sanitize s) = true.
Proof.
  induction s as [|c s IH]; [reflexivity|].
  rewrite sanitize_cons. simpl. rewrite IH, andb_true_r.
  destruct (key_char c) eqn:E; [exact E | reflexivity].
Qed.

Lemma sanitize_fixed (s : jsstring) :
  forallb key_char s = true -> sanitize s = s.
Proof.
  induction s as [|c s IH]; [reflexivity|]. intros H. simpl in H.
  apply andb_true_iff in H. destruct H as [Hc Hs].
  rewrite sanitize_cons, Hc, (IH Hs). reflexivity.
Qed.

Lemma sanitize_idempotent (s : jsstring) : sanitize (sanitize s) = sanitize s.
Proof. apply sanitize_fixed, sanitize_safe. Qed.

(** Position by position, a code unit of the class is kept and any other
    becomes an underscore. *)
Lemma sanitize_nth (s : jsstring) (i : nat) (c : code_unit) :
  nth_error s i = Some c ->
  nth_error (sanitize s) i = Some (if key_char c then c else 95).
Proof.
  intros H. unfold sanitize, replace_outside.
  rewrite nth_error_map, H. reflexivity.
Qed.

End KeyNaming.

(* ===================================================================== *)
(** ** Timestamps *)
(* ===================================================================== *)

Lemma is_digit_digit (n : Z) : is_digit (digit n) = true.
Proof.
  unfold is_digit, in_range, digit.
  pose proof (Z.mod_pos_bound n 10 eq_refl) as B.
  apply andb_true_iff. split; apply N.leb_le; lia.
Qed.

Lemma year_string_cases (y : Z) :
  (exists a b c d, year_string y = [digit a; digit b; digit c; digit d]) \/
  (exists s a b c d e f, (s = 43 \/ s = 45) /\
     year_string y = [s; digit a; digit b; digit c; digit d; digit e; digit f]).
Proof.
  unfold year_string.
  destruct ((0 <=? y)%Z && (y <=? 9999)%Z).
  - left. unfold pad4, pad3, pad2. eauto.
  - right. unfold pad6, pad4, pad3, pad2.
    destruct (y <? 0)%Z; do 7 eexists; (split; [|reflexivity]); auto.
Qed.

Lemma toISOString_is_iso8601 (t : Date) : is_iso8601 (toISOString t) = true.
Proof.
  unfold toISOString.
  destruct (civil_from_days (t / msPerDay)) as [[y m] d].
  destruct (year_string_cases y) as [(a & b & c & e & ->) | (s & a & b & c & e & f & g & Hs & ->)].
  - unfold pad3, pad2. cbn -[digit Z.div Z.modulo].
    rewrite !is_digit_digit. reflexivity.
  - unfold pad3, pad2. cbn -[digit Z.div Z.modulo is_digit unit_eqb].
    rewrite !is_digit_digit.
    destruct Hs as [-> | ->]; reflexivity.
Qed.

Example toISOString_epoch : toISOString 0%Z = lit "1970-01-01T00:00:00.000Z".
Proof. reflexivity. Qed.

Example toISOString_before_epoch :
  toISOString (-1)%Z = lit "1969-12-31T23:59:59.999Z".
Proof. reflexivity. Qed.

Example toISOString_leap_day :
  toISOString 951782400000%Z = lit "2000-02-29T00:00:00.000Z".
Proof. vm_compute. reflexivity. Qed.

Example toISOString_upload_time :
  toISOString 1700000000000%Z = lit "2023-11-14T22:13:20.000Z".
Proof. vm_compute. reflexivity. Qed.

Example toISOString_expanded_year :
  toISOString 253402300800000%Z = lit "+010000-01-01T00:00:00.000Z".
Proof. vm_compute. reflexivity. Qed.

Example encodeURIComponent_link :
  encodeURIComponent (lit "https://example.com/a b?x=1") =
    Some (lit "https%3A%2F%2Fexample.com%2Fa%20b%3Fx%3D1").
Proof. vm_compute. reflexivity. Qed.

Example encodeURIComponent_ideographs :
  encodeURIComponent [25253; 21578] = Some (lit "%E6%8A%A5%E5%91%8A").
Proof. vm_compute. reflexivity. Qed.

Example encodeURIComponent_surrogate_pair :
  encodeURIComponent [55357; 56832] = Some (lit "%F0%9F%98%80").
Proof. vm_compute. reflexivity. Qed.

Example encodeURIComponent_lone_surrogate :
  encodeURIComponent [55357] = None.
Proof. reflexivity. Qed.

(* ===================================================================== *)
(** ** What each operation of the gateway computes *)
(* ===================================================================== *)

Section Runs.
Import Gateway.
Variable S : Type.
Implicit Types (w : world S) (c : S3Client S).

Lemma after_nil w : after w [] (backend w) = w.
Proof. destruct w. unfold after. simpl. rewrite app_nil_r. reflexivity. Qed.

Lemma after_after w evs evs' (s s' : S) :
  after (after w evs s) evs' s' = after w (evs ++ evs') s'.
Proof. unfold after. simpl. rewrite app_assoc. reflexivity. Qed.

Lemma call_backend_after A (e : event) (f : S -> (exn + A) * S) w :
  call_backend e f w = (fst (f (backend w)), after w [e] (snd (f (backend w)))).
Proof. unfold call_backend. destruct (f (backend w)). reflexivity. Qed.

Lemma call_pure_after A (e : event) (r : exn + A) w :
  @call_pure S A e r w = (r, after w [e] (backend w)).
Proof. reflexivity. Qed.

Lemma rethrow_report A (a b u : jsstring) (e : exn) w :
  @rethrow S A a b u e w = (inl (new_Error (report a b u e)), w).
Proof. destruct e; reflexivity. Qed.

Lemma try_catch_rethrow A (body : M S A) (a b u : jsstring) w :
  try_catch body (rethrow a b u) w =
    (match fst (body w) with
     | inr x => inr x
     | inl cause => inl (new_Error (report a b u cause))
     end, snd (body w)).
Proof.
  unfold try_catch. destruct (body w) as [[cause|x] w']; simpl.
  - apply rethrow_report.
  - reflexivity.
Qed.

Lemma validateFileSize_ok (file : File) w :
  file_size file <= size_limit -> validateFileSize file w = (inr true, w).
Proof.
  intros H. unfold validateFileSize.
  destruct (N.ltb_spec (MAX_FILE_SIZE_MB * 1024 * 1024) (file_size file)) as [L|L].
  - unfold size_limit, MAX_FILE_SIZE_MB in *. lia.
  - reflexivity.
Qed.

Lemma validateFileSize_too_large (file : File) w :
  size_limit < file_size file ->
  validateFileSize file w =
    (inl (new_Error (lit "File too large. Maximum size is 100MB.")), w).
Proof.
  intros H. unfold validateFileSize.
  destruct (N.ltb_spec (MAX_FILE_SIZE_MB * 1024 * 1024) (file_size file)) as [L|L].
  - reflexivity.
  - unfold size_limit, MAX_FILE_SIZE_MB in *. lia.
Qed.

Lemma addSourceLinkToPdf_ok lib file link today w doc :
  PDFDocument_load lib (file_arrayBuffer file) = inr doc ->
  addSourceLinkToPdf lib file link today w =
    (inr (PDFDocument_save lib (stamped file link today doc)),
     after w [PdfLoad (file_arrayBuffer file);
              PdfSave (stamped file link today doc)] (backend w)).
Proof.
  intros H. unfold addSourceLinkToPdf, try_catch, bind, call_pure, ret, after.
  rewrite H. cbn [backend trace getSignedUrl]. rewrite <- app_assoc. reflexivity.
Qed.

Lemma addSourceLinkToPdf_fails lib file link today w e :
  PDFDocument_load lib (file_arrayBuffer file) = inl e ->
  addSourceLinkToPdf lib file link today w =
    (inl (metadata_error e), after w [PdfLoad (file_arrayBuffer file)] (backend w)).
Proof.
  intros H. unfold addSourceLinkToPdf, try_catch, bind, call_pure, after, metadata_error.
  rewrite H. destruct (message_of e); reflexivity.
Qed.

Lemma uploadPdfToS3_too_large c lib file link today ts w :
  size_limit < file_size file ->
  uploadPdfToS3 c lib file link today ts w =
    (inl (new_Error (lit "Failed to upload PDF: File too large. Maximum size is 100MB.")), w).
Proof.
  intros H. unfold uploadPdfToS3. rewrite try_catch_rethrow. unfold bind.
  cbn [lit list_ascii_of_string List.map ret].
  rewrite (validateFileSize_too_large _ _ H). reflexivity.
Qed.

Lemma uploadPdfToS3_not_embedded c lib file link today ts w e :
  file_size file <= size_limit ->
  PDFDocument_load lib (file_arrayBuffer file) = inl e ->
  uploadPdfToS3 c lib file link today ts w =
    (inl (new_Error (report_pdf_upload (metadata_error e))),
     after w [PdfLoad (file_arrayBuffer file)] (backend w)).
Proof.
  intros Hs Hl. unfold uploadPdfToS3. rewrite try_catch_rethrow. unfold bind.
  cbn [lit list_ascii_of_string List.map ret].
  rewrite (validateFileSize_ok _ _ Hs).
  erewrite addSourceLinkToPdf_fails by eassumption.
  reflexivity.
Qed.


Lemma uploadPdfToS3_embedded c lib file link today ts w doc el en :
  file_size file <= size_limit ->
  PDFDocument_load lib (file_arrayBuffer file) = inr doc ->
  encodeURIComponent link = Some el ->
  encodeURIComponent (file_name file) = Some en ->
  let p := pdf_put_request file ts
             (PDFDocument_save lib (stamped file link today doc)) el en in
  uploadPdfToS3 c lib file link today ts w =
    (match fst (upload_done c p (backend w)) with
     | inr _ => inr (put_Key p)
     | inl cause => inl (new_Error (report_pdf_upload cause))
     end,
     after w [PdfLoad (file_arrayBuffer file);
              PdfSave (stamped file link today doc); S3Put p]
           (snd (upload_done c p (backend w)))).
Proof.
  intros Hs Hl Hel Hen p.
  unfold uploadPdfToS3. rewrite try_catch_rethrow. unfold bind.
  cbn [lit list_ascii_of_string List.map ret].
  rewrite (validateFileSize_ok _ _ Hs).
  erewrite addSourceLinkToPdf_ok by eassumption.
  unfold encodeURIComponent_. rewrite Hel, Hen. unfold ret.
  rewrite call_backend_after, after_after. cbn [backend after app].
  change (upload_done c _ (backend w)) with (upload_done c p (backend w)).
  destruct (upload_done c p (backend w)) as [[cause|[]] s']; reflexivity.
Qed.

Lemma uploadPdfToS3_not_encoded c lib file link today ts w doc :
  file_size file <= size_limit ->
  PDFDocument_load lib (file_arrayBuffer file) = inr doc ->
  encodeURIComponent link = None \/ encodeURIComponent (file_name file) = None ->
  uploadPdfToS3 c lib file link today ts w =
    (inl (new_Error (lit "Failed to upload PDF: URI malformed")),
     after w [PdfLoad (file_arrayBuffer file);
              PdfSave (stamped file link today doc)] (backend w)).
Proof.
  intros Hs Hl He.
  unfold uploadPdfToS3. rewrite try_catch_rethrow. unfold bind.
  cbn [lit list_ascii_of_string List.map ret].
  rewrite (validateFileSize_ok _ _ Hs).
  erewrite addSourceLinkToPdf_ok by eassumption.
  unfold encodeURIComponent_.
  destruct (encodeURIComponent link) as [el|].
  - destruct He as [He|He]; [discriminate|]. rewrite He. reflexivity.
  - reflexivity.
Qed.

Lemma uploadExcelToS3_too_large c bucket file ts w :
  size_limit < file_size file ->
  uploadExcelToS3 c bucket file ts w =
    (inl (new_Error (lit "Failed to upload Excel: File too large. Maximum size is 100MB.")), w).
Proof.
  intros H. unfold uploadExcelToS3. rewrite try_catch_rethrow. unfold bind.
  rewrite (validateFileSize_too_large _ _ H). reflexivity.
Qed.

Lemma uploadExcelToS3_accepted c bucket file ts w en :
  file_size file <= size_limit ->
  includes validExcelTypes (file_type file) = true ->
  encodeURIComponent (file_name file) = Some en ->
  let p := excel_put_request bucket file ts en in
  uploadExcelToS3 c bucket file ts w =
    (match fst (upload_done c p (backend w)) with
     | inr _ => inr (put_Key p)
     | inl cause => inl (new_Error (report_excel_upload cause))
     end,
     after w [S3Put p] (snd (upload_done c p (backend w)))).
Proof.
  intros Hs Ht Hen p.
  unfold uploadExcelToS3. rewrite try_catch_rethrow. unfold bind.
  rewrite (validateFileSize_ok _ _ Hs), Ht. cbn [negb ret].
  unfold encodeURIComponent_. rewrite Hen. unfold ret.
  rewrite call_backend_after.
  change (upload_done c _ (backend w)) with (upload_done c p (backend w)).
  destruct (upload_done c p (backend w)) as [[cause|[]] s']; reflexivity.
Qed.

Lemma deleteFileFromS3_run c bucket key w :
  let command := {| ref_Bucket := bucket; ref_Key := key |} in
  deleteFileFromS3 c bucket key w =
    if recognized key then
      (match fst (send_delete c command (backend w)) with
       | inr _ => inr tt
       | inl cause => inl (new_Error (report_delete cause))
       end,
       after w [S3Delete command] (snd (send_delete c command (backend w))))
    else (inl (invalid_key_error key), w).
Proof.
  intros command. unfold deleteFileFromS3. rewrite try_catch_rethrow.
  unfold bind, recognized.
  destruct key as [|k key]; [reflexivity|]. cbn [ret].
  rewrite <- negb_orb.
  destruct (startsWith (k :: key) (lit "pdf_files/")
            || startsWith (k :: key) (lit "excel_sheets/")); cbn [negb ret].
  - rewrite call_backend_after. fold command.
    destruct (send_delete c command (backend w)) as [[cause|[]] s']; reflexivity.
  - reflexivity.
Qed.

Lemma LibS3_deleteFileFromS3_run c bucket key w :
  let command := {| ref_Bucket := bucket; ref_Key := key |} in
  LibS3.deleteFileFromS3 c bucket key w =
    (match fst (send_delete c command (backend w)) with
     | inr _ => inr tt
     | inl _ => inl (new_Error (lit "Failed to delete file from S3"))
     end,
     after w [S3Delete command] (snd (send_delete c command (backend w)))).
Proof.
  intros command. unfold LibS3.deleteFileFromS3, try_catch.
  rewrite call_backend_after. fold command.
  destruct (send_delete c command (backend w)) as [[cause|[]] s']; reflexivity.
Qed.

Lemma listFilesFromS3_run c bucket today race w :
  let first := send_list c (pdf_listing bucket) (backend w) in
  let second := send_list c (excel_listing bucket) (snd first) in
  listFilesFromS3 c bucket today race w =
    (match fst first, fst second with
     | inr pdfs, inr sheets => inr (merged bucket today pdfs sheets)
     | inl e, inr _ => inl (new_Error (report_list e))
     | inr _, inl e => inl (new_Error (report_list e))
     | inl e1, inl e2 => inl (new_Error (report_list (if race then e2 else e1)))
     end,
     after w [S3List (pdf_listing bucket); S3List (excel_listing bucket)]
           (snd second)).
Proof.
  intros first second. unfold listFilesFromS3. rewrite try_catch_rethrow.
  unfold bind, Promise_all2. rewrite !call_backend_after.
  cbn [backend after]. fold (pdf_listing bucket) (excel_listing bucket).
  fold first. fold second. rewrite after_after. cbn [app].
  destruct (fst first) as [e1|pdfs], (fst second) as [e2|sheets]; reflexivity.
Qed.

Lemma getPresignedUrl_signs bucket (sign : Presigner) key expiresIn w :
  let n := match expiresIn with Some n => n | None => 3600 end in
  let command := presigned_command bucket key in
  getPresignedUrl bucket (inr sign) key expiresIn w =
    (match sign command n with
     | inr url => inr url
     | inl cause => inl (new_Error (report_presign cause))
     end,
     {| backend := backend w; trace := trace w ++ [Presign command n];
        getSignedUrl := Some sign |}).
Proof.
  intros n command. unfold getPresignedUrl. rewrite try_catch_rethrow.
  unfold bind, try_catch, write_getSignedUrl, read_getSignedUrl, call_pure.
  cbn [getSignedUrl backend trace fst snd]. fold n. fold (presigned_command bucket key).
  fold command. destruct (sign command n); reflexivity.
Qed.

Lemma getPresignedUrl_falls_back bucket (importError : exn) key expiresIn w :
  getSignedUrl w = None ->
  getPresignedUrl bucket (inl importError) key expiresIn w =
    (inr (public_url bucket key), w).
Proof.
  intros H. unfold getPresignedUrl. rewrite try_catch_rethrow.
  unfold bind, try_catch, throw, ret, read_getSignedUrl.
  rewrite H. reflexivity.
Qed.
Lemma uploadExcelToS3_bad_type c bucket file ts w :
  file_size file <= size_limit ->
  includes validExcelTypes (file_type file) = false ->
  uploadExcelToS3 c bucket file ts w =
    (inl (new_Error (lit "Failed to upload Excel: Invalid Excel file format. Please upload a valid Excel file.")), w).
Proof.
  intros Hs Ht. unfold uploadExcelToS3. rewrite try_catch_rethrow.
  unfold bind. rewrite (validateFileSize_ok _ _ Hs), Ht. reflexivity.
Qed.

Lemma uploadExcelToS3_not_encoded c bucket file ts w :
  file_size file <= size_limit ->
  includes validExcelTypes (file_type file) = true ->
  encodeURIComponent (file_name file) = None ->
  uploadExcelToS3 c bucket file ts w =
    (inl (new_Error (lit "Failed to upload Excel: URI malformed")), w).
Proof.
  intros Hs Ht He. unfold uploadExcelToS3. rewrite try_catch_rethrow.
  unfold bind. rewrite (validateFileSize_ok _ _ Hs), Ht. cbn [negb ret].
  unfold encodeURIComponent_. rewrite He. reflexivity.
Qed.

End Runs.

(* ===================================================================== *)
(** ** The properties of the specification *)
(* ===================================================================== *)

Lemma recognized_iff (key : jsstring) :
  recognized key = false <->
  key = [] \/ (startsWith key (lit "pdf_files/") = false /\
               startsWith key (lit "excel_sheets/") = false).
Proof.
  unfold recognized. rewrite orb_false_iff. split.
  - intros H. right. exact H.
  - intros [-> | H]; [split; reflexivity | exact H].
Qed.

(** C1. The guarded delete fails with the error of the key guard, and leaves
    the world as it was (no delete is issued), on every key that is empty or
    starts with neither ["pdf_files/"] nor ["excel_sheets/"]; on every other
    key it issues the delete once, and fails, with the report of the
    backend's failure, exactly when the backend fails. *)
Theorem C1_guarded_delete S (c : S3Client S) (bucket key : jsstring)
    (w : world S) :
  let command := {| ref_Bucket := bucket; ref_Key := key |} in
  let sent := send_delete c command (backend w) in
  (recognized key = false <->
   key = [] \/ (startsWith key (lit "pdf_files/") = false /\
                startsWith key (lit "excel_sheets/") = false)) /\
  Gateway.deleteFileFromS3 c bucket key w =
    if recognized key then
      (match fst sent with
       | inr _ => inr tt
       | inl cause => inl (new_Error (report_delete cause))
       end,
       after w [S3Delete command] (snd sent))
    else (inl (invalid_key_error key), w).
Proof.
  intros command sent. split.
  - apply recognized_iff.
  - apply deleteFileFromS3_run.
Qed.

Example remove_foreign_key :
  Gateway.deleteFileFromS3 InMemory.client Examples.bucket Examples.foreign_key
    (InMemory.start []) =
  (inl (new_Error (lit "Failed to delete file: Invalid file key format")),
   InMemory.start []).
Proof. reflexivity. Qed.

Example remove_empty_key :
  Gateway.deleteFileFromS3 InMemory.client Examples.bucket []
    (InMemory.start []) =
  (inl (new_Error (lit "Failed to delete file: File key is required")),
   InMemory.start []).
Proof. reflexivity. Qed.

Example remove_pdf_key :
  let run := Gateway.deleteFileFromS3 InMemory.client Examples.bucket
               Examples.a_pdf_key (InMemory.start []) in
  fst run = inr tt /\
  trace (snd run) =
    [S3Delete {| ref_Bucket := Examples.bucket; ref_Key := Examples.a_pdf_key |}].
Proof. split; reflexivity. Qed.

(** C2. A file larger than 100 * 1_048_576 bytes is rejected by the size
    check, and both uploads fail on it with the size error and leave the
    world as it was: nothing was parsed or rewritten and no put was
    issued. *)
Theorem C2_oversized_upload_rejected S (c : S3Client S) (lib : PdfLib)
    (bucket : jsstring) (file : File) (link : jsstring) (today : Date)
    (ts : Z) (w : world S) :
  size_limit < file_size file ->
  size_limit = 100 * 1048576 /\
  Gateway.validateFileSize file w =
    (inl (new_Error (lit "File too large. Maximum size is 100MB.")), w) /\
  Gateway.uploadPdfToS3 c lib file link today ts w =
    (inl (new_Error
            (lit "Failed to upload PDF: File too large. Maximum size is 100MB.")),
     w) /\
  Gateway.uploadExcelToS3 c bucket file ts w =
    (inl (new_Error
            (lit "Failed to upload Excel: File too large. Maximum size is 100MB.")),
     w).
Proof.
  intros H. split; [reflexivity|]. split; [|split].
  - apply validateFileSize_too_large, H.
  - apply uploadPdfToS3_too_large, H.
  - apply uploadExcelToS3_too_large, H.
Qed.

Lemma C2_oversized_upload_rejected_witness :
  size_limit < file_size Examples.huge_pdf /\
  Gateway.uploadPdfToS3 InMemory.client TinyPdf.lib Examples.huge_pdf
    Examples.link 0%Z 0%Z (InMemory.start []) =
    (inl (new_Error
            (lit "Failed to upload PDF: File too large. Maximum size is 100MB.")),
     InMemory.start []).
Proof.
  split; [reflexivity|].
  apply (@C2_oversized_upload_rejected _ InMemory.client TinyPdf.lib
           Examples.bucket Examples.huge_pdf Examples.link 0%Z 0%Z
           (InMemory.start [])).
  reflexivity.
Defined.

Lemma addSourceLinkToPdf_failure S (lib : PdfLib) (file : File)
    (link : jsstring) (today : Date) (w : world S) (e : exn) :
  fst (Gateway.addSourceLinkToPdf lib file link today w) = inl e ->
  exists cause,
    PDFDocument_load lib (file_arrayBuffer file) = inl cause /\
    e = metadata_error cause.
Proof.
  destruct (PDFDocument_load lib (file_arrayBuffer file)) as [cause|doc] eqn:L.
  - erewrite addSourceLinkToPdf_fails by eassumption. simpl.
    intros H. inversion H. exists cause. split; reflexivity.
  - erewrite addSourceLinkToPdf_ok by eassumption. discriminate.
Qed.

(** The events a PDF upload appends are an initial segment of: parse,
    serialize, put. *)
Lemma uploadPdfToS3_trace S (c : S3Client S) (lib : PdfLib) (file : File)
    (link : jsstring) (today : Date) (ts : Z) (w : world S) :
  let run := Gateway.uploadPdfToS3 c lib file link today ts w in
  let bytes := file_arrayBuffer file in
  trace (snd run) = trace w \/
  trace (snd run) = trace w ++ [PdfLoad bytes] \/
  (exists d, trace (snd run) = trace w ++ [PdfLoad bytes; PdfSave d]) \/
  (exists d p, trace (snd run) = trace w ++ [PdfLoad bytes; PdfSave d; S3Put p]).
Proof.
  intros run bytes. subst run.
  destruct (N.ltb_spec size_limit (file_size file)) as [Big|Small].
  - left. rewrite uploadPdfToS3_too_large by exact Big. reflexivity.
  - right.
    destruct (PDFDocument_load lib (file_arrayBuffer file)) as [cause|doc] eqn:L.
    + left. erewrite uploadPdfToS3_not_embedded by eassumption. reflexivity.
    + right.
      destruct (encodeURIComponent link) as [el|] eqn:El;
        [destruct (encodeURIComponent (file_name file)) as [en|] eqn:En|].
      * right. erewrite uploadPdfToS3_embedded by eassumption.
        eexists. eexists. reflexivity.
      * left. erewrite uploadPdfToS3_not_encoded by (eauto). eexists. reflexivity.
      * left. erewrite uploadPdfToS3_not_encoded by (eauto). eexists. reflexivity.
Qed.

(** C3. In a PDF upload the document is parsed and serialized before the
    put is issued; and when the embedding step fails, the upload fails, the
    backend is in the state it was in, and no call of the backend was
    issued. *)
Theorem C3_embedding_before_put S (c : S3Client S) (lib : PdfLib)
    (file : File) (link : jsstring) (today : Date) (ts : Z) (w : world S) :
  let run := Gateway.uploadPdfToS3 c lib file link today ts w in
  (forall evs p,
     trace (snd run) = trace w ++ evs -> In (S3Put p) evs ->
     exists d, evs = [PdfLoad (file_arrayBuffer file); PdfSave d; S3Put p]) /\
  (forall e,
     fst (Gateway.addSourceLinkToPdf lib file link today w) = inl e ->
     (exists cause,
        PDFDocument_load lib (file_arrayBuffer file) = inl cause /\
        e = metadata_error cause) /\
     (exists e', fst run = inl e') /\
     backend (snd run) = backend w /\
     (exists evs, trace (snd run) = trace w ++ evs /\
                  forallb (fun ev => negb (is_backend_call ev)) evs = true) /\
     (file_size file <= size_limit ->
      fst run = inl (new_Error (report_pdf_upload e)) /\
      trace (snd run) = trace w ++ [PdfLoad (file_arrayBuffer file)])).
Proof.
  intros run. split.
  - intros evs p Ht Hin.
    destruct (@uploadPdfToS3_trace _ c lib file link today ts w)
      as [H | [H | [[d H] | [d [q H]]]]];
      fold run in H; rewrite Ht in H.
    + rewrite <- (app_nil_r (trace w)) in H at 2.
      apply app_inv_head in H. subst evs. destruct Hin.
    + apply app_inv_head in H. subst evs.
      destruct Hin as [Hin|[]]; discriminate.
    + apply app_inv_head in H. subst evs.
      destruct Hin as [Hin|[Hin|[]]]; discriminate.
    + apply app_inv_head in H. subst evs.
      destruct Hin as [Hin|[Hin|[Hin|[]]]]; try discriminate.
      inversion Hin. subst q. exists d. reflexivity.
  - intros e He.
    destruct (addSourceLinkToPdf_failure _ _ _ _ _ He) as (cause & L & ->).
    subst run.
    destruct (N.ltb_spec size_limit (file_size file)) as [Big|Small].
    + rewrite uploadPdfToS3_too_large by exact Big. simpl.
      split; [exists cause; split; [exact L | reflexivity]|].
      split; [eexists; reflexivity|]. split; [reflexivity|].
      split; [exists []; split; [symmetry; apply app_nil_r | reflexivity]|].
      intros Hle. lia.
    + erewrite uploadPdfToS3_not_embedded by eassumption. simpl.
      split; [exists cause; split; [exact L | reflexivity]|].
      split; [eexists; reflexivity|]. split; [reflexivity|].
      split; [eexists; split; reflexivity|].
      intros _. split; reflexivity.
Qed.

Lemma C3_embedding_before_put_witness :
  let run := Gateway.uploadPdfToS3 InMemory.client TinyPdf.lib
               Examples.not_a_pdf Examples.link 0%Z 0%Z (InMemory.start []) in
  fst (Gateway.addSourceLinkToPdf TinyPdf.lib Examples.not_a_pdf Examples.link
         0%Z (InMemory.start [])) =
    inl (metadata_error (new_Error (lit "Failed to parse PDF document."))) /\
  (exists e', fst run = inl e') /\
  backend (snd run) = [].
Proof.
  intros run.
  split; [reflexivity|].
  destruct (@C3_embedding_before_put _ InMemory.client TinyPdf.lib
              Examples.not_a_pdf Examples.link 0%Z 0%Z (InMemory.start []))
    as [_ H].
  destruct (H (metadata_error (new_Error (lit "Failed to parse PDF document.")))
              eq_refl) as (_ & Hfail & Hback & _).
  split; [exact Hfail | exact Hback].
Defined.

(** C4. The listing issues its two calls, and when either of them fails the
    whole call fails with one error, the report of one of the failures;
    a list is returned only when both calls succeeded, and it is then the
    list built from both. *)
Theorem C4_listing_all_or_nothing S (c : S3Client S) (bucket : jsstring)
    (today : Date) (race : bool) (w : world S) :
  let first := send_list c (pdf_listing bucket) (backend w) in
  let second := send_list c (excel_listing bucket) (snd first) in
  let run := Gateway.listFilesFromS3 c bucket today race w in
  trace (snd run) =
    trace w ++ [S3List (pdf_listing bucket); S3List (excel_listing bucket)] /\
  ((exists e, fst first = inl e) \/ (exists e, fst second = inl e) ->
   exists cause,
     (fst first = inl cause \/ fst second = inl cause) /\
     fst run = inl (new_Error (report_list cause))) /\
  (forall files,
     fst run = inr files ->
     exists pdfs sheets,
       fst first = inr pdfs /\ fst second = inr sheets /\
       files = merged bucket today pdfs sheets) /\
  (forall pdfs sheets,
     fst first = inr pdfs -> fst second = inr sheets ->
     fst run = inr (merged bucket today pdfs sheets)).
Proof.
  intros first second run. subst run. rewrite listFilesFromS3_run.
  fold first. fold second. simpl.
  split; [reflexivity|].
  destruct (fst first) as [e1|pdfs], (fst second) as [e2|sheets].
  - split; [|split].
    + intros _. destruct race; eauto.
    + discriminate.
    + discriminate.
  - split; [|split].
    + intros _. eauto.
    + discriminate.
    + discriminate.
  - split; [|split].
    + intros _. eauto.
    + discriminate.
    + discriminate.
  - split; [|split].
    + intros [[e H]|[e H]]; discriminate.
    + intros files H. inversion H. eauto.
    + intros ? ? H1 H2. inversion H1. inversion H2. reflexivity.
Qed.

Lemma C4_listing_all_or_nothing_witness :
  let c := InMemory.flaky_list (lit "excel_sheets/")
             (S3ServiceException (lit "SlowDown") (lit "Please reduce your request rate.")) in
  let w := InMemory.start [] in
  (exists e, fst (send_list c (excel_listing Examples.bucket)
                    (snd (send_list c (pdf_listing Examples.bucket) (backend w))))
             = inl e) /\
  exists cause,
    fst (Gateway.listFilesFromS3 c Examples.bucket 0%Z false w) =
      inl (new_Error (report_list cause)).
Proof.
  intros c w.
  assert (H : exists e, fst (send_list c (excel_listing Examples.bucket)
                    (snd (send_list c (pdf_listing Examples.bucket) (backend w))))
             = inl e) by (eexists; reflexivity).
  split; [exact H|].
  destruct (@C4_listing_all_or_nothing _ c Examples.bucket 0%Z false w)
    as (_ & Hfail & _).
  destruct (Hfail (or_intror H)) as (cause & _ & Hrun).
  exists cause. exact Hrun.
Defined.

(** C5, as the code has it. A PDF upload of a file named by the code units
    U+62A5 and U+544A followed by [" (final)#1.pdf"], at timestamp
    1700000000000, that passes validation, embedding and the put returns the
    key ["pdf_files/1700000000000-____final__1.pdf"]: the two ideographs,
    the space and the parenthesis before "final" give four underscores, one
    for each code unit. *)
Theorem C5_key_of_the_report S (c : S3Client S) (lib : PdfLib) (file : File)
    (link : jsstring) (today : Date) (w : world S) (doc : PDFDocument)
    (el en : jsstring) :
  file_name file = [25253; 21578] ++ lit " (final)#1.pdf" ->
  file_size file <= size_limit ->
  PDFDocument_load lib (file_arrayBuffer file) = inr doc ->
  encodeURIComponent link = Some el ->
  encodeURIComponent (file_name file) = Some en ->
  fst (upload_done c
         (pdf_put_request file 1700000000000
            (PDFDocument_save lib (stamped file link today doc)) el en)
         (backend w)) = inr tt ->
  Gateway.sanitize (file_name file) = lit "____final__1.pdf" /\
  List.length (Gateway.sanitize (file_name file)) = List.length (file_name file) /\
  fst (Gateway.uploadPdfToS3 c lib file link today 1700000000000 w) =
    inr (lit "pdf_files/1700000000000-____final__1.pdf").
Proof.
  intros Hn Hs Hl Hel Hen Hput.
  split; [rewrite Hn; reflexivity|].
  split; [apply sanitize_length|].
  erewrite uploadPdfToS3_embedded by eassumption.
  cbv zeta. simpl fst. rewrite Hput.
  unfold pdf_put_request, put_Key, storage_key. rewrite Hn. reflexivity.
Qed.

Lemma C5_key_of_the_report_witness :
  fst (Gateway.uploadPdfToS3 InMemory.client TinyPdf.lib Examples.report_pdf
         Examples.link 1700000000000%Z 1700000000000%Z (InMemory.start [])) =
    inr (lit "pdf_files/1700000000000-____final__1.pdf").
Proof.
  eapply (@C5_key_of_the_report _ InMemory.client TinyPdf.lib
            Examples.report_pdf Examples.link 1700000000000%Z
            (InMemory.start []));
    first [reflexivity | vm_compute; discriminate].
Defined.

(** C5, refuted as stated. The upload of the file named U+62A5 U+544A
    [" (final)#1.pdf"] at timestamp 1700000000000 returns the key with four
    underscores before "final", not the key with three. *)
Lemma C5_counterexample :
  let run := Gateway.uploadPdfToS3 InMemory.client TinyPdf.lib
               Examples.report_pdf Examples.link 1700000000000%Z
               1700000000000%Z (InMemory.start []) in
  fst run = inr (lit "pdf_files/1700000000000-____final__1.pdf") /\
  fst run <> inr (lit "pdf_files/1700000000000-___final__1.pdf").
Proof.
  intros run. assert (H : fst run = inr (lit "pdf_files/1700000000000-____final__1.pdf"))
    by (vm_compute; reflexivity).
  split; [exact H|]. rewrite H. intros E. inversion E.
Qed.

(** C6. For every file name, the sanitized name has the length of the name,
    consists of code units of [[A-Za-z0-9._-]] only, and is left as it is by
    sanitizing again; a PDF upload that passes validation and embedding
    issues its put under ["pdf_files/{timestamp}-{sanitizedName}"], an Excel
    upload that passes validation under
    ["excel_sheets/{timestamp}-{sanitizedName}"], and each returns that key
    when the put succeeds. *)
Theorem C6_storage_key S (c : S3Client S) (lib : PdfLib) (bucket : jsstring)
    (file : File) (link : jsstring) (today : Date) (ts : Z) (w : world S) :
  let name := file_name file in
  let pdf_key := lit "pdf_files" ++ lit "/" ++ Z_toString ts ++ lit "-"
                 ++ Gateway.sanitize name in
  let excel_key := lit "excel_sheets" ++ lit "/" ++ Z_toString ts ++ lit "-"
                   ++ Gateway.sanitize name in
  forallb Gateway.key_char (Gateway.sanitize name) = true /\
  Gateway.sanitize (Gateway.sanitize name) = Gateway.sanitize name /\
  List.length (Gateway.sanitize name) = List.length name /\
  (forall doc el en,
     file_size file <= size_limit ->
     PDFDocument_load lib (file_arrayBuffer file) = inr doc ->
     encodeURIComponent link = Some el ->
     encodeURIComponent name = Some en ->
     let run := Gateway.uploadPdfToS3 c lib file link today ts w in
     exists p,
       put_Key p = pdf_key /\
       trace (snd run) =
         trace w ++ [PdfLoad (file_arrayBuffer file);
                     PdfSave (stamped file link today doc); S3Put p] /\
       (fst (upload_done c p (backend w)) = inr tt -> fst run = inr pdf_key)) /\
  (forall en,
     file_size file <= size_limit ->
     includes Gateway.validExcelTypes (file_type file) = true ->
     encodeURIComponent name = Some en ->
     let run := Gateway.uploadExcelToS3 c bucket file ts w in
     exists p,
       put_Key p = excel_key /\
       trace (snd run) = trace w ++ [S3Put p] /\
       (fst (upload_done c p (backend w)) = inr tt -> fst run = inr excel_key)) /\
  (forall k,
     fst (Gateway.uploadPdfToS3 c lib file link today ts w) = inr k ->
     k = pdf_key) /\
  (forall k,
     fst (Gateway.uploadExcelToS3 c bucket file ts w) = inr k -> k = excel_key).
Proof.
  intros name pdf_key excel_key.
  split; [apply sanitize_safe|]. split; [apply sanitize_idempotent|].
  split; [apply sanitize_length|].
  assert (Pdf : forall doc el en,
     file_size file <= size_limit ->
     PDFDocument_load lib (file_arrayBuffer file) = inr doc ->
     encodeURIComponent link = Some el ->
     encodeURIComponent name = Some en ->
     let run := Gateway.uploadPdfToS3 c lib file link today ts w in
     exists p,
       put_Key p = pdf_key /\
       trace (snd run) =
         trace w ++ [PdfLoad (file_arrayBuffer file);
                     PdfSave (stamped file link today doc); S3Put p] /\
       (fst (upload_done c p (backend w)) = inr tt -> fst run = inr pdf_key)).
  { intros doc el en Hs Hl Hel Hen run. subst run.
    erewrite uploadPdfToS3_embedded by eassumption. cbv zeta.
    exists (pdf_put_request file ts
              (PDFDocument_save lib (stamped file link today doc)) el en).
    split; [reflexivity|]. split; [reflexivity|].
    simpl fst. intros ->. reflexivity. }
  assert (Excel : forall en,
     file_size file <= size_limit ->
     includes Gateway.validExcelTypes (file_type file) = true ->
     encodeURIComponent name = Some en ->
     let run := Gateway.uploadExcelToS3 c bucket file ts w in
     exists p,
       put_Key p = excel_key /\
       trace (snd run) = trace w ++ [S3Put p] /\
       (fst (upload_done c p (backend w)) = inr tt -> fst run = inr excel_key)).
  { intros en Hs Ht Hen run. subst run.
    erewrite uploadExcelToS3_accepted by eassumption. cbv zeta.
    exists (excel_put_request bucket file ts en).
    split; [reflexivity|]. split; [reflexivity|].
    simpl fst. intros ->. reflexivity. }
  split; [exact Pdf|]. split; [exact Excel|]. split.
  - intros k.
    destruct (N.ltb_spec size_limit (file_size file)) as [Big|Small].
    { rewrite uploadPdfToS3_too_large by exact Big. discriminate. }
    destruct (PDFDocument_load lib (file_arrayBuffer file)) as [cause|doc] eqn:L.
    { erewrite uploadPdfToS3_not_embedded by eassumption. discriminate. }
    destruct (encodeURIComponent link) as [el|] eqn:El;
      [destruct (encodeURIComponent (file_name file)) as [en|] eqn:En|].
    + erewrite uploadPdfToS3_embedded by eassumption. cbv zeta. simpl fst.
      destruct (fst (upload_done c _ (backend w))); [discriminate|].
      intros H. inversion H. reflexivity.
    + erewrite uploadPdfToS3_not_encoded by eauto. discriminate.
    + erewrite uploadPdfToS3_not_encoded by eauto. discriminate.
  - intros k. unfold Gateway.uploadExcelToS3. rewrite try_catch_rethrow.
    unfold bind.
    destruct (Gateway.validateFileSize file w) as [[e|b] w1]; [discriminate|].
    destruct (negb (includes Gateway.validExcelTypes (file_type file)));
      [discriminate|].
    cbn [ret]. unfold Gateway.encodeURIComponent_.
    destruct (encodeURIComponent (file_name file)) as [en|]; [|discriminate].
    unfold ret. rewrite call_backend_after. simpl fst.
    destruct (fst (upload_done c _ (backend w1))); [discriminate|].
    intros H. inversion H. reflexivity.
Qed.

Lemma C6_storage_key_witness :
  (exists p,
     put_Key p = lit "excel_sheets/1700000000000-q3_totals.xlsx" /\
     trace (snd (Gateway.uploadExcelToS3 InMemory.client Examples.bucket
                   Examples.sheet 1700000000000%Z (InMemory.start []))) =
       [S3Put p]) /\
  fst (Gateway.uploadPdfToS3 InMemory.client TinyPdf.lib Examples.report_pdf
         Examples.link 0%Z 1700000000000%Z (InMemory.start [])) =
    inr (lit "pdf_files/1700000000000-____final__1.pdf").
Proof.
  split.
  - destruct (@C6_storage_key _ InMemory.client TinyPdf.lib Examples.bucket
                Examples.sheet Examples.link 0%Z 1700000000000%Z
                (InMemory.start [])) as (_ & _ & _ & _ & Excel & _).
    edestruct Excel as (p & Hkey & Htrace & Hret);
      [vm_compute; discriminate | reflexivity | reflexivity |].
    exists p. split; [rewrite Hkey; reflexivity | exact Htrace].
  - destruct (@C6_storage_key _ InMemory.client TinyPdf.lib Examples.bucket
                Examples.report_pdf Examples.link 0%Z 1700000000000%Z
                (InMemory.start [])) as (_ & _ & _ & Pdf & _).
    edestruct Pdf as (p & Hkey & Htrace & Hret);
      [vm_compute; discriminate | reflexivity | reflexivity | reflexivity |].
    cbv zeta in Hret. rewrite Hret; [reflexivity|].
    vm_compute in Htrace. inversion Htrace. reflexivity.
Defined.

(** C7. On every input the library parses, and for every source link, the
    embedding step returns the serialization of a document whose subject is
    the link as it is, whose keywords are ["source:<link>"] and
    ["upload:<timestamp>"], the timestamp being of the ISO-8601 shape, whose
    title is ["Document: <file name>"], with the fixed author, producer and
    creator; and where the library gives back the document it serialized,
    parsing the returned bytes gives the link as subject and
    ["source:<link>"] among the keywords. *)
Theorem C7_embedded_provenance S (lib : PdfLib) (file : File)
    (link : jsstring) (today : Date) (w : world S) (doc : PDFDocument) :
  PDFDocument_load lib (file_arrayBuffer file) = inr doc ->
  let run := Gateway.addSourceLinkToPdf lib file link today w in
  exists d,
    fst run = inr (PDFDocument_save lib d) /\
    pdf_Subject d = Some link /\
    pdf_Keywords d =
      Some [lit "source:" ++ link; lit "upload:" ++ toISOString today] /\
    is_iso8601 (toISOString today) = true /\
    pdf_Title d = Some (lit "Document: " ++ file_name file) /\
    pdf_Author d = Some (lit "Document Management System") /\
    pdf_Producer d = Some (lit "DMS Upload Tool") /\
    pdf_Creator d = Some (lit "DMS Upload Tool") /\
    pdf_body d = pdf_body doc /\
    (round_trips lib d ->
     exists out d' keywords,
       fst run = inr out /\
       PDFDocument_load lib out = inr d' /\
       pdf_Subject d' = Some link /\
       pdf_Keywords d' = Some keywords /\
       In (lit "source:" ++ link) keywords).
Proof.
  intros Hl run. subst run.
  erewrite addSourceLinkToPdf_ok by eassumption.
  exists (stamped file link today doc). simpl fst.
  repeat (split; [first [reflexivity | apply toISOString_is_iso8601]|]).
  intros Hrt. do 3 eexists.
  split; [reflexivity|]. split; [exact Hrt|].
  split; [reflexivity|]. split; [reflexivity|].
  left. reflexivity.
Qed.

Lemma C7_embedded_provenance_witness :
  PDFDocument_load TinyPdf.lib (file_arrayBuffer Examples.report_pdf) =
    inr TinyPdf.blank /\
  exists out d',
    fst (Gateway.addSourceLinkToPdf TinyPdf.lib Examples.report_pdf
           (lit "https://example.com/a") 1700000000000%Z (InMemory.start []))
      = inr out /\
    PDFDocument_load TinyPdf.lib out = inr d' /\
    pdf_Subject d' = Some (lit "https://example.com/a").
Proof.
  split; [reflexivity|].
  destruct (@C7_embedded_provenance _ TinyPdf.lib Examples.report_pdf
              (lit "https://example.com/a") 1700000000000%Z
              (InMemory.start []) TinyPdf.blank eq_refl)
    as (d & Hrun & Hsub & Hkw & _ & Htitle & Hau & Hpr & Hcr & Hbody & Hrt).
  assert (Hd : d = stamped Examples.report_pdf (lit "https://example.com/a")
                     1700000000000%Z TinyPdf.blank).
  { destruct d. simpl in *. subst. reflexivity. }
  destruct Hrt as (out & d' & kws & Hout & Hload & Hsub' & _).
  - rewrite Hd. reflexivity.
  - exists out, d'. split; [exact Hout|]. split; [exact Hload | exact Hsub'].
Defined.

(** C8, as the code has it. With the presigner available, the presigning
    step hands it a put-object command for the key, with 3600 seconds when
    the caller gives no duration, and returns the URL it signs, which
    authorizes an upload and not a retrieval; without the presigner and
    with none imported before, it returns the public URL of the key and the
    world is as it was. *)
Theorem C8_presign_signs_a_put S (bucket : jsstring) (sign : Presigner)
    (importError : exn) (key : jsstring) (expiresIn : option N)
    (w : world S) :
  let n := match expiresIn with Some n => n | None => 3600 end in
  let command := presigned_command bucket key in
  let run := Gateway.getPresignedUrl bucket (inr sign) key expiresIn w in
  trace (snd run) = trace w ++ [Presign command n] /\
  is_retrieval command = false /\
  fst run =
    match sign command n with
    | inr url => inr url
    | inl cause => inl (new_Error (report_presign cause))
    end /\
  (getSignedUrl w = None ->
   Gateway.getPresignedUrl bucket (inl importError) key expiresIn w =
     (inr (lit "https://" ++ bucket ++ lit ".s3.amazonaws.com/" ++ key), w)).
Proof.
  intros n command run. subst run. rewrite getPresignedUrl_signs.
  fold n. fold command. simpl.
  split; [reflexivity|]. split; [reflexivity|]. split; [reflexivity|].
  intros H. apply getPresignedUrl_falls_back, H.
Qed.

Lemma C8_presign_signs_a_put_witness :
  getSignedUrl (InMemory.start []) = None /\
  Gateway.getPresignedUrl Examples.bucket (inl NonError) Examples.a_pdf_key
    None (InMemory.start []) =
    (inr (lit "https://dashboard-bucket.s3.amazonaws.com/pdf_files/123-a.pdf"),
     InMemory.start []) /\
  fst (Gateway.getPresignedUrl Examples.bucket (inr Examples.sign)
         Examples.a_pdf_key None (InMemory.start [])) =
    inr (lit "https://dashboard-bucket.s3.amazonaws.com/pdf_files/123-a.pdf"
         ++ lit "?X-Amz-Expires=3600&x-id=PutObject").
Proof.
  destruct (@C8_presign_signs_a_put _ Examples.bucket Examples.sign NonError
              Examples.a_pdf_key None (InMemory.start []))
    as (_ & _ & Hrun & Hfall).
  split; [reflexivity|]. split.
  - apply Hfall. reflexivity.
  - rewrite Hrun. reflexivity.
Defined.

(** C9, refuted as stated. No function of the thrown value tells the kinds
    of failure of the guarded delete apart: the delete of the empty key,
    which the guard refuses, and the delete of a recognized key on a backend
    that throws an error with the guard's text, throw the same value. *)
Lemma C9_counterexample : ~ delete_failures_distinguishable.
Proof.
  intros [classify H].
  pose proof (H _ InMemory.client Examples.bucket []
                (InMemory.start [])
                (new_Error (lit "Failed to delete file: File key is required"))
                eq_refl) as Guard.
  pose proof (H _ (InMemory.unreachable
                     (new_Error (lit "File key is required")))
                Examples.bucket Examples.a_pdf_key (InMemory.start [])
                (new_Error (lit "Failed to delete file: File key is required"))
                eq_refl) as Store.
  vm_compute in Guard, Store. congruence.
Qed.

(** C9, as the code has it. Every failure of the four operations is a plain
    [Error] that carries a message and nothing else, and the message is the
    report of what was thrown inside the operation: an operation fails with
    [e] exactly when one of its steps throws a cause and [e] is the [Error]
    whose message reports that cause under the operation's prefixes.  The
    cause is the failure of a check (size, type, key guard), the error of
    the embedding step, the [URIError] of the percent-encoding, or what the
    store threw at the call.  A service exception of the store is reported
    with its name and its message, any other [Error] with its message,
    whichever kind of failure it is, and another thrown value with a fixed
    text. *)
Theorem C9_failures_carry_a_message S (c : S3Client S) (lib : PdfLib)
    (bucket : jsstring) (w : world S) (e : exn) :
  (forall file link today ts,
     fst (Gateway.uploadPdfToS3 c lib file link today ts w) = inl e <->
     exists cause,
       e = JsError (lit "Error") (report_pdf_upload cause) /\
       ((size_limit < file_size file /\
         cause = new_Error (lit "File too large. Maximum size is 100MB.")) \/
        (file_size file <= size_limit /\
         exists failure,
           PDFDocument_load lib (file_arrayBuffer file) = inl failure /\
           cause = metadata_error failure) \/
        (file_size file <= size_limit /\
         (exists doc, PDFDocument_load lib (file_arrayBuffer file) = inr doc) /\
         (encodeURIComponent link = None \/
          encodeURIComponent (file_name file) = None) /\
         cause = URIError) \/
        (file_size file <= size_limit /\
         exists doc el en,
           PDFDocument_load lib (file_arrayBuffer file) = inr doc /\
           encodeURIComponent link = Some el /\
           encodeURIComponent (file_name file) = Some en /\
           fst (upload_done c
                  (pdf_put_request file ts
                     (PDFDocument_save lib (stamped file link today doc))
                     el en)
                  (backend w)) = inl cause))) /\
  (forall file ts,
     fst (Gateway.uploadExcelToS3 c bucket file ts w) = inl e <->
     exists cause,
       e = JsError (lit "Error") (report_excel_upload cause) /\
       ((size_limit < file_size file /\
         cause = new_Error (lit "File too large. Maximum size is 100MB.")) \/
        (file_size file <= size_limit /\
         includes Gateway.validExcelTypes (file_type file) = false /\
         cause = new_Error (lit
           "Invalid Excel file format. Please upload a valid Excel file.")) \/
        (file_size file <= size_limit /\
         includes Gateway.validExcelTypes (file_type file) = true /\
         encodeURIComponent (file_name file) = None /\
         cause = URIError) \/
        (file_size file <= size_limit /\
         includes Gateway.validExcelTypes (file_type file) = true /\
         exists en,
           encodeURIComponent (file_name file) = Some en /\
           fst (upload_done c (excel_put_request bucket file ts en)
                  (backend w)) = inl cause))) /\
  (forall today race,
     let first := send_list c (pdf_listing bucket) (backend w) in
     let second := send_list c (excel_listing bucket) (snd first) in
     fst (Gateway.listFilesFromS3 c bucket today race w) = inl e <->
     exists cause,
       e = JsError (lit "Error") (report_list cause) /\
       ((fst first = inl cause /\
         ((exists listing, fst second = inr listing) \/ race = false)) \/
        (fst second = inl cause /\
         ((exists listing, fst first = inr listing) \/ race = true)))) /\
  (forall key,
     let command := {| ref_Bucket := bucket; ref_Key := key |} in
     fst (Gateway.deleteFileFromS3 c bucket key w) = inl e <->
     exists cause,
       e = JsError (lit "Error") (report_delete cause) /\
       ((key = [] /\ cause = new_Error (lit "File key is required")) \/
        (key <> [] /\ recognized key = false /\
         cause = new_Error (lit "Invalid file key format")) \/
        (recognized key = true /\
         fst (send_delete c command (backend w)) = inl cause))) /\
  (forall name message other,
     report_pdf_upload (S3ServiceException name message) =
       lit "S3 upload failed: " ++ name ++ lit " - " ++ message /\
     report_excel_upload (S3ServiceException name message) =
       lit "S3 upload failed: " ++ name ++ lit " - " ++ message /\
     report_list (S3ServiceException name message) =
       lit "S3 list operation failed: " ++ name ++ lit " - " ++ message /\
     report_delete (S3ServiceException name message) =
       lit "S3 delete operation failed: " ++ name ++ lit " - " ++ message /\
     report_pdf_upload (JsError other message) =
       lit "Failed to upload PDF: " ++ message /\
     report_excel_upload (JsError other message) =
       lit "Failed to upload Excel: " ++ message /\
     report_list (JsError other message) =
       lit "Failed to list files: " ++ message /\
     report_delete (JsError other message) =
       lit "Failed to delete file: " ++ message /\
     report_pdf_upload NonError =
       lit "Failed to upload PDF due to unknown error" /\
     report_excel_upload NonError =
       lit "Failed to upload Excel due to unknown error" /\
     report_list NonError = lit "Failed to list files due to unknown error" /\
     report_delete NonError =
       lit "Failed to delete file due to unknown error").
Proof.
  split; [|split; [|split; [|split]]].
  - intros file link today ts.
    destruct (N.ltb_spec size_limit (file_size file)) as [Big|Small].
    { rewrite uploadPdfToS3_too_large by exact Big. cbn [fst]. split.
      - intros [= <-]. eexists. split; [|left; split; [exact Big|reflexivity]].
        reflexivity.
      - intros (cause & -> & [[_ ->]|[[Hs _]|[[Hs _]|[Hs _]]]]);
          [reflexivity | lia | lia | lia]. }
    destruct (PDFDocument_load lib (file_arrayBuffer file)) as [failure|doc] eqn:L.
    { erewrite uploadPdfToS3_not_embedded by eassumption. cbn [fst]. split.
      - intros [= <-]. exists (metadata_error failure). split; [reflexivity|].
        right. left. split; [exact Small|]. exists failure. split; reflexivity.
      - intros (cause & -> & [[Hs _]|[(_ & f & Hf & ->)|[(_ & [d Hd] & _)|(_ & d & el & en & Hd & _)]]]);
          [lia | | discriminate | discriminate].
        inversion Hf. reflexivity. }
    destruct (encodeURIComponent link) as [el|] eqn:El;
      [destruct (encodeURIComponent (file_name file)) as [en|] eqn:En|].
    + erewrite uploadPdfToS3_embedded by eassumption. cbv zeta. cbn [fst].
      split.
      * destruct (fst (upload_done c _ (backend w))) as [cause|u] eqn:U;
          [|discriminate].
        intros [= <-]. exists cause. split; [reflexivity|].
        right. right. right. split; [exact Small|].
        exists doc, el, en. repeat (split; [reflexivity|]). exact U.
      * intros (cause & -> & [[Hs _]|[(_ & f & Hf & _)|[(_ & _ & [H|H] & _)|(_ & d & el' & en' & Hd & Hel & Hen & U)]]]);
          [lia | discriminate | discriminate | discriminate |].
        inversion Hd. inversion Hel. inversion Hen. subst d el' en'.
        rewrite U. reflexivity.
    + erewrite uploadPdfToS3_not_encoded by eauto. cbn [fst]. split.
      * intros [= <-]. exists URIError. split; [reflexivity|].
        right. right. left. split; [exact Small|]. split; [eauto|].
        split; [right; reflexivity | reflexivity].
      * intros (cause & -> & [[Hs _]|[(_ & f & Hf & _)|[(_ & _ & _ & ->)|(_ & d & el' & en' & _ & _ & Hen & _)]]]);
          [lia | discriminate | reflexivity | discriminate].
    + erewrite uploadPdfToS3_not_encoded by eauto. cbn [fst]. split.
      * intros [= <-]. exists URIError. split; [reflexivity|].
        right. right. left. split; [exact Small|]. split; [eauto|].
        split; [left; reflexivity | reflexivity].
      * intros (cause & -> & [[Hs _]|[(_ & f & Hf & _)|[(_ & _ & _ & ->)|(_ & d & el' & en' & _ & Hel & _)]]]);
          [lia | discriminate | reflexivity | discriminate].
  - intros file ts.
    destruct (N.ltb_spec size_limit (file_size file)) as [Big|Small].
    { rewrite uploadExcelToS3_too_large by exact Big. cbn [fst]. split.
      - intros [= <-]. eexists. split; [|left; split; [exact Big|reflexivity]].
        reflexivity.
      - intros (cause & -> & [[_ ->]|[[Hs _]|[[Hs _]|[Hs _]]]]);
          [reflexivity | lia | lia | lia]. }
    destruct (includes Gateway.validExcelTypes (file_type file)) eqn:T.
    2:{ rewrite uploadExcelToS3_bad_type by assumption. cbn [fst]. split.
        - intros [= <-].
          exists (new_Error (lit
            "Invalid Excel file format. Please upload a valid Excel file.")).
          split; [reflexivity|]. right. left.
          split; [exact Small|]. split; reflexivity.
        - intros (cause & -> & [[Hs _]|[(_ & _ & ->)|[(_ & H & _)|(_ & H & _)]]]);
            [lia | reflexivity | discriminate | discriminate]. }
    destruct (encodeURIComponent (file_name file)) as [en|] eqn:En.
    + erewrite uploadExcelToS3_accepted by eassumption. cbv zeta. cbn [fst].
      split.
      * destruct (fst (upload_done c _ (backend w))) as [cause|u] eqn:U;
          [|discriminate].
        intros [= <-]. exists cause. split; [reflexivity|].
        right. right. right. split; [exact Small|]. split; [reflexivity|].
        exists en. split; [reflexivity | exact U].
      * intros (cause & -> & [[Hs _]|[(_ & H & _)|[(_ & _ & H & _)|(_ & _ & en' & Hen & U)]]]);
          [lia | discriminate | discriminate |].
        inversion Hen. subst en'. rewrite U. reflexivity.
    + rewrite uploadExcelToS3_not_encoded by assumption. cbn [fst]. split.
      * intros [= <-]. exists URIError. split; [reflexivity|].
        right. right. left. repeat (split; [assumption || reflexivity|]).
        reflexivity.
      * intros (cause & -> & [[Hs _]|[(_ & H & _)|[(_ & _ & _ & ->)|(_ & _ & en' & Hen & _)]]]);
          [lia | discriminate | reflexivity | discriminate].
  - intros today race first second. rewrite listFilesFromS3_run.
    fold first. fold second. cbn [fst].
    destruct (fst first) as [e1|pdfs] eqn:F, (fst second) as [e2|sheets] eqn:G.
    + split.
      * intros [= <-]. destruct race.
        -- exists e2. split; [reflexivity|]. right. split; [reflexivity|].
           right. reflexivity.
        -- exists e1. split; [reflexivity|]. left. split; [reflexivity|].
           right. reflexivity.
      * intros (cause & -> & [[H [[l Hl]| ->]]|[H [[l Hl]| ->]]]);
          try discriminate; inversion H; reflexivity.
    + split.
      * intros [= <-]. exists e1. split; [reflexivity|]. left.
        split; [reflexivity|]. left. eauto.
      * intros (cause & -> & [[H _]|[H _]]); [|discriminate].
        inversion H. reflexivity.
    + split.
      * intros [= <-]. exists e2. split; [reflexivity|]. right.
        split; [reflexivity|]. left. eauto.
      * intros (cause & -> & [[H _]|[H _]]); [discriminate|].
        inversion H. reflexivity.
    + split; [discriminate|].
      intros (cause & _ & [[H _]|[H _]]); discriminate.
  - intros key command. rewrite deleteFileFromS3_run. fold command.
    destruct (recognized key) eqn:R.
    + cbn [fst]. split.
      * destruct (fst (send_delete c command (backend w))) as [cause|u] eqn:D;
          [|discriminate].
        intros [= <-]. exists cause. split; [reflexivity|]. right. right.
        split; reflexivity.
      * intros (cause & -> & [[-> _]|[(_ & H & _)|[_ D]]]);
          [discriminate R | discriminate |].
        rewrite D. reflexivity.
    + cbn [fst]. unfold invalid_key_error. split.
      * intros [= <-]. destruct key as [|k key].
        -- eexists. split; [|left; split; reflexivity]. reflexivity.
        -- eexists. split; [|right; left; split; [discriminate|split; reflexivity]].
           reflexivity.
      * intros (cause & -> & [[-> ->]|[(Hk & _ & ->)|[H _]]]);
          [reflexivity | | discriminate].
        destruct key; [contradiction|reflexivity].
  - intros name message other. repeat split.
Qed.

Lemma C9_failures_carry_a_message_witness :
  fst (Gateway.deleteFileFromS3
         (InMemory.unreachable
            (S3ServiceException (lit "AccessDenied") (lit "Access Denied")))
         Examples.bucket Examples.a_pdf_key (InMemory.start [])) =
    inl (new_Error (lit "S3 delete operation failed: AccessDenied - Access Denied")) /\
  fst (Gateway.deleteFileFromS3
         (InMemory.unreachable (JsError (lit "TypeError") (lit "Failed to fetch")))
         Examples.bucket Examples.a_pdf_key (InMemory.start [])) =
    inl (new_Error (lit "Failed to delete file: Failed to fetch")).
Proof.
  split.
  - destruct (@C9_failures_carry_a_message _
                (InMemory.unreachable
                   (S3ServiceException (lit "AccessDenied") (lit "Access Denied")))
                TinyPdf.lib Examples.bucket (InMemory.start [])
                (new_Error (lit "S3 delete operation failed: AccessDenied - Access Denied")))
      as (_ & _ & _ & Hdel & _).
    apply (Hdel Examples.a_pdf_key).
    exists (S3ServiceException (lit "AccessDenied") (lit "Access Denied")).
    split; [reflexivity|]. right. right. split; reflexivity.
  - destruct (@C9_failures_carry_a_message _
                (InMemory.unreachable
                   (JsError (lit "TypeError") (lit "Failed to fetch")))
                TinyPdf.lib Examples.bucket (InMemory.start [])
                (new_Error (lit "Failed to delete file: Failed to fetch")))
      as (_ & _ & _ & Hdel & _).
    apply (Hdel Examples.a_pdf_key).
    exists (JsError (lit "TypeError") (lit "Failed to fetch")).
    split; [reflexivity|]. right. right. split; reflexivity.
Defined.

(** C10. The delete of [src/lib/s3.ts] checks nothing: on every key, the
    empty one and the keys under neither prefix included, it issues the
    delete, and it fails, with one fixed error, exactly when the backend
    fails; the guarded delete issues the call on the recognized keys
    only. *)
Theorem C10_first_gateway_delete_unguarded S (c : S3Client S)
    (bucket key : jsstring) (w : world S) :
  let command := {| ref_Bucket := bucket; ref_Key := key |} in
  let sent := send_delete c command (backend w) in
  LibS3.deleteFileFromS3 c bucket key w =
    (match fst sent with
     | inr _ => inr tt
     | inl _ => inl (new_Error (lit "Failed to delete file from S3"))
     end,
     after w [S3Delete command] (snd sent)) /\
  fst (LibS3.deleteFileFromS3 c bucket key w) <> inl (invalid_key_error key) /\
  trace (snd (LibS3.deleteFileFromS3 c bucket key w)) =
    trace w ++ [S3Delete command] /\
  trace (snd (Gateway.deleteFileFromS3 c bucket key w)) =
    (if recognized key then trace w ++ [S3Delete command] else trace w) /\
  recognized [] = false /\
  recognized (lit "evil/../../secret") = false.
Proof.
  intros command sent. rewrite LibS3_deleteFileFromS3_run.
  fold command. fold sent. simpl.
  split; [reflexivity|]. split.
  - destruct (fst sent); [|discriminate].
    destruct key; intros H; inversion H.
  - split; [reflexivity|]. split; [|split; reflexivity].
    rewrite deleteFileFromS3_run. fold command. fold sent.
    destruct (recognized key); reflexivity.
Qed.

(* ===================================================================== *)
(** ** Keys, names and uploads: further properties *)
(* ===================================================================== *)

Local Open Scope N_scope.

(** ** Decimal numerals *)

Lemma lit_cons (a : ascii) (s : string) : lit (String a s) = N_of_ascii a :: lit s.
Proof. reflexivity. Qed.

Lemma lit_inj (a b : string) : lit a = lit b -> a = b.
Proof.
  revert b. induction a as [|c a IH]; intros [|d b]; try discriminate; [reflexivity|].
  rewrite !lit_cons. intros H. inversion H as [[Hc Ht]].
  f_equal.
  - rewrite <- (ascii_N_embedding c), <- (ascii_N_embedding d), Hc. reflexivity.
  - apply IH, Ht.
Qed.

Lemma digits_of_uint (d : Decimal.uint) :
  forallb is_digit (lit (NilEmpty.string_of_uint d)) = true.
Proof. induction d; simpl; auto. Qed.

Lemma digits_of_uint_nz (d : Decimal.uint) :
  forallb is_digit (lit (NilZero.string_of_uint d)) = true.
Proof. destruct d; try reflexivity; apply (digits_of_uint (_ d)). Qed.

Lemma uint_nz_nonempty (d : Decimal.uint) : lit (NilZero.string_of_uint d) <> [].
Proof. destruct d; discriminate. Qed.

Lemma Z_toString_digits (z : Z) :
  (0 <= z)%Z -> forallb is_digit (Z_toString z) = true /\ Z_toString z <> [].
Proof.
  intros H. unfold Z_toString. destruct z as [|p|p]; [split; [reflexivity|discriminate]| |lia].
  simpl Z.to_int. simpl NilZero.string_of_int.
  split; [apply digits_of_uint_nz | apply uint_nz_nonempty].
Qed.

Lemma to_int_proper (z : Z) : Z.to_int z <> Decimal.Pos Decimal.Nil /\ Z.to_int z <> Decimal.Neg Decimal.Nil.
Proof.
  destruct z as [|p|p]; simpl; split; try discriminate;
    intros H; inversion H as [H1];
    exact (DecimalPos.Unsigned.to_uint_nonnil p H1).
Qed.

Lemma Z_toString_inj (a b : Z) : Z_toString a = Z_toString b -> a = b.
Proof.
  unfold Z_toString. intros H. apply lit_inj in H.
  apply DecimalZ.to_int_inj.
  destruct (to_int_proper a) as [A1 A2], (to_int_proper b) as [B1 B2].
  pose proof (@NilZero.isi _ A1 A2) as Ha. pose proof (@NilZero.isi _ B1 B2) as Hb.
  rewrite H in Ha. rewrite Ha in Hb. inversion Hb. reflexivity.
Qed.

(** ** Segments *)

Lemma split_no_sep (sep : code_unit) (s : jsstring) :
  forallb (fun c => negb (unit_eqb c sep)) s = true -> split sep s = [s].
Proof.
  induction s as [|c s IH]; [reflexivity|]. simpl. intros H.
  apply andb_true_iff in H. destruct H as [Hc Hs].
  apply negb_true_iff in Hc. rewrite Hc, (IH Hs). reflexivity.
Qed.

Lemma split_app_sep (sep : code_unit) (a b : jsstring) :
  forallb (fun c => negb (unit_eqb c sep)) a = true ->
  split sep (a ++ sep :: b) = a :: split sep b.
Proof.
  induction a as [|c a IH]; simpl; intros H.
  - unfold unit_eqb. rewrite N.eqb_refl. reflexivity.
  - apply andb_true_iff in H. destruct H as [Hc Ha].
    apply negb_true_iff in Hc. rewrite Hc, (IH Ha). reflexivity.
Qed.

Lemma forallb_impl A (p q : A -> bool) (l : list A) :
  (forall x, p x = true -> q x = true) ->
  forallb p l = true -> forallb q l = true.
Proof.
  intros Hpq. induction l as [|x l IH]; [reflexivity|]. simpl.
  intros H. apply andb_true_iff in H. destruct H as [Hx Hl].
  rewrite (Hpq _ Hx), (IH Hl). reflexivity.
Qed.

Lemma in_range_spec (lo hi c : N) : in_range lo hi c = true <-> lo <= c <= hi.
Proof.
  unfold in_range. rewrite andb_true_iff, !N.leb_le. tauto.
Qed.

Lemma key_char_spec (c : code_unit) :
  Gateway.key_char c = true <->
  (97 <= c <= 122) \/ (65 <= c <= 90) \/ (48 <= c <= 57) \/
  c = 46 \/ c = 95 \/ c = 45.
Proof.
  unfold Gateway.key_char, is_alnum, is_lower, is_upper, is_digit.
  rewrite !orb_true_iff, !in_range_spec, !unit_eqb_eq. tauto.
Qed.

Lemma Z_toString_no_slash (z : Z) :
  forallb (fun c => negb (unit_eqb c 47)) (Z_toString z) = true.
Proof.
  assert (D : forall d, forallb (fun c => negb (unit_eqb c 47))
                          (lit (NilZero.string_of_uint d)) = true).
  { intros d. apply forallb_impl with (p := is_digit); [|apply digits_of_uint_nz].
    intros c Hc. apply in_range_spec in Hc. apply negb_true_iff.
    apply N.eqb_neq. lia. }
  unfold Z_toString. destruct z as [|p|p]; [reflexivity| |].
  - simpl Z.to_int. simpl NilZero.string_of_int. apply D.
  - simpl Z.to_int. simpl NilZero.string_of_int. rewrite lit_cons.
    simpl. apply D.
Qed.

Lemma sanitize_no_slash (name : jsstring) :
  forallb (fun c => negb (unit_eqb c 47)) (Gateway.sanitize name) = true.
Proof.
  apply forallb_impl with (p := Gateway.key_char); [|apply sanitize_safe].
  intros c Hc. apply key_char_spec in Hc. apply negb_true_iff.
  apply N.eqb_neq. lia.
Qed.

Lemma storage_key_segments (prefix : jsstring) (ts : Z) (name : jsstring) :
  forallb (fun c => negb (unit_eqb c 47)) prefix = true ->
  split 47 (storage_key prefix ts name) =
    [prefix; Z_toString ts ++ lit "-" ++ Gateway.sanitize name].
Proof.
  intros Hp. unfold storage_key.
  change (lit "/" ++ Z_toString ts ++ lit "-" ++ Gateway.sanitize name)
    with (47 :: (Z_toString ts ++ lit "-" ++ Gateway.sanitize name)).
  rewrite split_app_sep by exact Hp. f_equal.
  apply split_no_sep. rewrite !forallb_app.
  rewrite Z_toString_no_slash, sanitize_no_slash. reflexivity.
Qed.

Lemma pop_last A (l : list A) (x : A) : pop (l ++ [x]) = Some x.
Proof. unfold pop. rewrite rev_app_distr. reflexivity. Qed.

(** X1. A key built by either upload has exactly two segments between
    slashes: the folder and the stamped, sanitized name. The name a listing
    shows for such a key ([split("/").pop()]) is therefore the whole second
    segment, time stamp included. *)
Theorem X1_uploaded_key_has_two_segments (bucket : jsstring) (ts : Z)
    (name : jsstring) (today : Date) (size : option N)
    (modified : option Date) :
  let shown := Z_toString ts ++ lit "-" ++ Gateway.sanitize name in
  let listed key :=
    {| obj_Key := Some key; obj_Size := size; obj_LastModified := modified |} in
  split 47 (storage_key (lit "pdf_files") ts name) = [lit "pdf_files"; shown] /\
  split 47 (storage_key (lit "excel_sheets") ts name) =
    [lit "excel_sheets"; shown] /\
  Gateway.fi_name
    (Gateway.toFileInfo bucket (lit "pdf") today
       (listed (storage_key (lit "pdf_files") ts name))) = shown /\
  Gateway.fi_name
    (Gateway.toFileInfo bucket (lit "excel") today
       (listed (storage_key (lit "excel_sheets") ts name))) = shown.
Proof.
  intros shown listed.
  assert (P : split 47 (storage_key (lit "pdf_files") ts name) =
              [lit "pdf_files"; shown])
    by (apply storage_key_segments; reflexivity).
  assert (E : split 47 (storage_key (lit "excel_sheets") ts name) =
              [lit "excel_sheets"; shown])
    by (apply storage_key_segments; reflexivity).
  split; [exact P|]. split; [exact E|].
  unfold Gateway.toFileInfo, listed. cbn [Gateway.fi_name obj_Key].
  rewrite P, E. split; reflexivity.
Qed.

(** ** Extensions *)

Lemma startsWith_map_sanitize (s p : jsstring) :
  forallb (fun c => Gateway.key_char c && negb (unit_eqb c 95)) p = true ->
  startsWith (Gateway.sanitize s) p = startsWith s p.
Proof.
  revert s. induction p as [|q p IH]; intros s Hp; [reflexivity|].
  simpl in Hp. apply andb_true_iff in Hp. destruct Hp as [Hq Hp].
  apply andb_true_iff in Hq. destruct Hq as [Hk Hu].
  destruct s as [|c s]; [reflexivity|].
  rewrite sanitize_cons. simpl. rewrite (IH s Hp). f_equal.
  destruct (Gateway.key_char c) eqn:Hc; [reflexivity|].
  apply negb_true_iff in Hu. unfold unit_eqb in *.
  rewrite N.eqb_sym, Hu. symmetry. apply N.eqb_neq. intros ->. congruence.
Qed.

Lemma sanitize_rev (s : jsstring) :
  Gateway.sanitize (rev s) = rev (Gateway.sanitize s).
Proof. unfold Gateway.sanitize, replace_outside. apply map_rev. Qed.

Lemma forallb_rev A (p : A -> bool) (l : list A) :
  forallb p (rev l) = forallb p l.
Proof.
  induction l as [|x l IH]; [reflexivity|]. simpl.
  rewrite forallb_app, IH. simpl. rewrite andb_true_r. apply andb_comm.
Qed.

Lemma endsWith_sanitize (s p : jsstring) :
  forallb (fun c => Gateway.key_char c && negb (unit_eqb c 95)) p = true ->
  endsWith (Gateway.sanitize s) p = endsWith s p.
Proof.
  intros Hp. unfold endsWith. rewrite <- sanitize_rev.
  apply startsWith_map_sanitize. rewrite forallb_rev. exact Hp.
Qed.

Lemma startsWith_before (sep : code_unit) (b rest p : jsstring) :
  forallb (fun c => negb (unit_eqb c sep)) p = true ->
  startsWith (b ++ sep :: rest) p = startsWith b p.
Proof.
  revert b. induction p as [|q p IH]; intros b Hp; [reflexivity|].
  simpl in Hp. apply andb_true_iff in Hp. destruct Hp as [Hq Hp].
  destruct b as [|c b]; simpl.
  - apply negb_true_iff in Hq. unfold unit_eqb in *.
    rewrite N.eqb_sym, Hq. reflexivity.
  - rewrite (IH b Hp). reflexivity.
Qed.

Lemma endsWith_after (sep : code_unit) (a b p : jsstring) :
  forallb (fun c => negb (unit_eqb c sep)) p = true ->
  endsWith (a ++ sep :: b) p = endsWith b p.
Proof.
  intros Hp. unfold endsWith. rewrite rev_app_distr. simpl.
  rewrite <- app_assoc. simpl. apply startsWith_before.
  rewrite forallb_rev. exact Hp.
Qed.

Lemma storage_key_endsWith (prefix : jsstring) (ts : Z) (name ext : jsstring) :
  forallb (fun c => Gateway.key_char c && negb (unit_eqb c 95)
                    && negb (unit_eqb c 45)) ext = true ->
  endsWith (storage_key prefix ts name) ext = endsWith name ext.
Proof.
  intros H. unfold storage_key.
  change (prefix ++ lit "/" ++ Z_toString ts ++ lit "-" ++ Gateway.sanitize name)
    with (prefix ++ lit "/" ++ Z_toString ts ++ 45 :: Gateway.sanitize name).
  rewrite !app_assoc.
  rewrite endsWith_after.
  - apply endsWith_sanitize. revert H. apply forallb_impl.
    intros c Hc. apply andb_true_iff in Hc. tauto.
  - revert H. apply forallb_impl.
    intros c Hc. apply andb_true_iff in Hc. tauto.
Qed.

Lemma storage_key_nonempty (prefix : jsstring) (ts : Z) (name : jsstring) :
  storage_key prefix ts name <> [].
Proof.
  unfold storage_key. intros H. apply app_eq_nil in H. destruct H as [_ H].
  discriminate H.
Qed.

(** X2. Whether the listing keeps an uploaded object is decided by the
    name the file had when it was uploaded: a PDF is listed exactly when
    that name ends in [.pdf], a spreadsheet exactly when it ends in [.xlsx],
    [.xls] or [.ods]. The comparison is made on the code units as they are,
    so a name in capitals is stored and never listed. *)
Theorem X2_listed_iff_name_has_extension (ts : Z) (name : jsstring)
    (size : option N) (modified : option Date) :
  let listed key :=
    {| obj_Key := Some key; obj_Size := size; obj_LastModified := modified |} in
  Gateway.key_endsWith [lit ".pdf"]
    (listed (storage_key (lit "pdf_files") ts name)) =
    endsWith name (lit ".pdf") /\
  Gateway.key_endsWith [lit ".xlsx"; lit ".xls"; lit ".ods"]
    (listed (storage_key (lit "excel_sheets") ts name)) =
    (endsWith name (lit ".xlsx") || endsWith name (lit ".xls")
     || endsWith name (lit ".ods")).
Proof.
  intros listed. unfold Gateway.key_endsWith, listed. cbn [obj_Key].
  split.
  - destruct (storage_key (lit "pdf_files") ts name) as [|c k] eqn:K.
    + destruct (storage_key_nonempty _ _ _ K).
    + rewrite <- K. cbn [existsb].
      rewrite storage_key_endsWith by reflexivity. apply orb_false_r.
  - destruct (storage_key (lit "excel_sheets") ts name) as [|c k] eqn:K.
    + destruct (storage_key_nonempty _ _ _ K).
    + rewrite <- K. cbn [existsb].
      rewrite !storage_key_endsWith by reflexivity.
      rewrite orb_false_r, orb_assoc. reflexivity.
Qed.

Example upper_case_extension_not_listed :
  Gateway.key_endsWith [lit ".pdf"]
    {| obj_Key := Some (storage_key (lit "pdf_files") 1700000000000
                                    (lit "REPORT.PDF"));
       obj_Size := None; obj_LastModified := None |} = false.
Proof. vm_compute. reflexivity. Qed.

(** ** Collisions *)

Lemma digits_then_dash (a b x y : jsstring) :
  forallb is_digit a = true -> forallb is_digit b = true ->
  a ++ 45 :: x = b ++ 45 :: y -> a = b /\ x = y.
Proof.
  revert b. induction a as [|c a IH]; intros [|d b] Ha Hb H; simpl in *.
  - inversion H. auto.
  - inversion H. subst d. apply andb_true_iff in Hb. destruct Hb as [Hd _].
    discriminate Hd.
  - inversion H. subst c. apply andb_true_iff in Ha. destruct Ha as [Hc _].
    discriminate Hc.
  - apply andb_true_iff in Ha. apply andb_true_iff in Hb.
    inversion H. subst d.
    destruct (IH b (proj2 Ha) (proj2 Hb) H2) as [-> ->]. auto.
Qed.

(** X3. With clock readings that are not negative, two uploads into the
    same folder get the same key exactly when they read the same
    millisecond from the clock and their names sanitize
    to the same string; a PDF and a spreadsheet never share a key. *)
Theorem X3_keys_collide_iff (prefix : jsstring) (ts1 ts2 : Z)
    (name1 name2 : jsstring) :
  (0 <= ts1)%Z -> (0 <= ts2)%Z ->
  (storage_key prefix ts1 name1 = storage_key prefix ts2 name2 <->
   ts1 = ts2 /\ Gateway.sanitize name1 = Gateway.sanitize name2) /\
  storage_key (lit "pdf_files") ts1 name1 <>
    storage_key (lit "excel_sheets") ts2 name2.
Proof.
  intros H1 H2. split.
  - split.
    + unfold storage_key. intros H.
      apply app_inv_head in H. apply app_inv_head in H.
      destruct (Z_toString_digits H1) as [D1 _].
      destruct (Z_toString_digits H2) as [D2 _].
      destruct (digits_then_dash _ _ _ _ D1 D2 H) as [Ht Hn].
      split; [apply Z_toString_inj, Ht | exact Hn].
    + intros [-> Hn]. unfold storage_key. rewrite Hn. reflexivity.
  - discriminate.
Qed.

Lemma X3_keys_collide_iff_witness :
  (0 <= 1700000000000)%Z /\
  storage_key (lit "pdf_files") 1700000000000 (lit "a b.pdf") =
    storage_key (lit "pdf_files") 1700000000000 (lit "a_b.pdf").
Proof.
  split; [lia|].
  apply (@X3_keys_collide_iff (lit "pdf_files") 1700000000000 1700000000000
           (lit "a b.pdf") (lit "a_b.pdf")); [lia | lia |].
  split; reflexivity.
Defined.

(** ** encodeURIComponent *)

(** Induction on strings that follows the two ways the encoder recurs. *)
Lemma jsstring_ind2 (P : jsstring -> Prop) :
  P [] ->
  (forall c rest, P rest -> (forall c2 rest', rest = c2 :: rest' -> P rest') ->
                  P (c :: rest)) ->
  forall s, P s.
Proof.
  intros Hnil Hcons s.
  assert (H : P s /\ forall c rest, s = c :: rest -> P rest).
  { induction s as [|c s [IH1 IH2]].
    - split; [exact Hnil | discriminate].
    - split.
      + apply Hcons; [exact IH1 | exact IH2].
      + intros c' rest E. inversion E. subst. exact IH1. }
  exact (proj1 H).
Qed.

Lemma uri_unreserved_not_surrogate (c : code_unit) :
  uri_unreserved c = true ->
  is_low_surrogate c = false /\ is_high_surrogate c = false.
Proof.
  unfold uri_unreserved, is_alnum, is_lower, is_upper, is_digit.
  rewrite !orb_true_iff, !in_range_spec. cbn [existsb].
  rewrite !orb_true_iff, !unit_eqb_eq.
  intros H. unfold is_low_surrogate, is_high_surrogate.
  split; apply not_true_iff_false; rewrite in_range_spec; lia.
Qed.

Lemma encodeURIComponent_None (s : jsstring) :
  encodeURIComponent s = None <-> isWellFormed s = false.
Proof.
  induction s as [|c rest IH IH2] using jsstring_ind2.
  - simpl. split; discriminate.
  - simpl.
    destruct (uri_unreserved c) eqn:U.
    + destruct (uri_unreserved_not_surrogate _ U) as [-> ->].
      destruct (encodeURIComponent rest); simpl.
      * rewrite <- IH. split; discriminate.
      * rewrite <- IH. tauto.
    + destruct (is_low_surrogate c); [tauto|].
      destruct (is_high_surrogate c).
      * destruct rest as [|c2 rest']; [tauto|].
        destruct (is_low_surrogate c2); simpl; [|tauto].
        specialize (IH2 c2 rest' eq_refl).
        destruct (encodeURIComponent rest'); simpl.
        -- rewrite <- IH2. split; discriminate.
        -- rewrite <- IH2. tauto.
      * destruct (encodeURIComponent rest); simpl.
        -- rewrite <- IH. split; discriminate.
        -- rewrite <- IH. tauto.
Qed.

Lemma encodeURIComponent_Some (s : jsstring) :
  isWellFormed s = true -> exists r, encodeURIComponent s = Some r.
Proof.
  intros H. destruct (encodeURIComponent s) as [r|] eqn:E; [eauto|].
  apply encodeURIComponent_None in E. congruence.
Qed.

Lemma hex_digit_safe (n : N) : n < 16 -> uri_safe (hex_digit n) = true.
Proof.
  intros H. unfold uri_safe, uri_unreserved, is_alnum, hex_digit.
  destruct (N.ltb_spec n 10).
  - assert (D : is_digit (48 + n) = true) by (apply in_range_spec; lia).
    rewrite D. rewrite !orb_true_r. reflexivity.
  - assert (D : is_upper (55 + n) = true) by (apply in_range_spec; lia).
    rewrite D. rewrite !orb_true_r. reflexivity.
Qed.

Lemma percent_safe (octet : N) :
  octet < 256 -> forallb uri_safe (percent octet) = true.
Proof.
  intros H. unfold percent. cbn [forallb].
  rewrite !hex_digit_safe.
  - reflexivity.
  - apply N.mod_lt. discriminate.
  - apply N.Div0.div_lt_upper_bound. lia.
Qed.

Lemma utf8_octets (cp : N) :
  cp < 1114112 -> Forall (fun o => o < 256) (utf8 cp).
Proof.
  intros H. unfold utf8.
  assert (M : forall x, x mod 64 < 64) by (intros; apply N.mod_lt; discriminate).
  destruct (N.ltb_spec cp 128); [repeat constructor; lia|].
  destruct (N.ltb_spec cp 2048).
  { assert (cp / 64 < 32) by (apply N.Div0.div_lt_upper_bound; lia).
    pose proof (M cp). repeat constructor; lia. }
  destruct (N.ltb_spec cp 65536).
  { assert (cp / 4096 < 16) by (apply N.Div0.div_lt_upper_bound; lia).
    pose proof (M cp). pose proof (M (cp / 64)). repeat constructor; lia. }
  assert (cp / 262144 < 5) by (apply N.Div0.div_lt_upper_bound; lia).
  pose proof (M cp). pose proof (M (cp / 64)). pose proof (M (cp / 4096)).
  repeat constructor; lia.
Qed.

Lemma flat_map_percent_safe (octets : list N) :
  Forall (fun o => o < 256) octets ->
  forallb uri_safe (flat_map percent octets) = true.
Proof.
  induction 1 as [|o l Ho _ IH]; [reflexivity|].
  cbn [flat_map]. rewrite forallb_app, IH, percent_safe by exact Ho. reflexivity.
Qed.

Lemma encodeURIComponent_safe (s r : jsstring) :
  utf16 s = true -> encodeURIComponent s = Some r ->
  forallb uri_safe r = true.
Proof.
  revert r. induction s as [|c rest IH IH2] using jsstring_ind2; intros r Hu.
  - simpl. intros [= <-]. reflexivity.
  - simpl in Hu. apply andb_true_iff in Hu. destruct Hu as [Hc Hrest].
    apply N.ltb_lt in Hc. simpl.
    destruct (uri_unreserved c) eqn:U.
    + destruct (encodeURIComponent rest) as [r'|]; [|discriminate].
      simpl. intros [= <-]. simpl. unfold uri_safe at 1. rewrite U. simpl.
      apply IH; [exact Hrest | reflexivity].
    + destruct (is_low_surrogate c) eqn:Lo; [discriminate|].
      destruct (is_high_surrogate c) eqn:Hi.
      * destruct rest as [|c2 rest']; [discriminate|].
        destruct (is_low_surrogate c2) eqn:Lo2; [|discriminate].
        destruct (encodeURIComponent rest') as [r'|] eqn:E; [|discriminate].
        simpl. intros [= <-].
        simpl in Hrest. apply andb_true_iff in Hrest.
        rewrite forallb_app, (IH2 c2 rest' eq_refl r' (proj2 Hrest) E).
        rewrite flat_map_percent_safe; [reflexivity|].
        apply utf8_octets. apply in_range_spec in Hi, Lo2. lia.
      * destruct (encodeURIComponent rest) as [r'|] eqn:E; [|discriminate].
        simpl. intros [= <-].
        rewrite forallb_app, (IH r' Hrest eq_refl).
        rewrite flat_map_percent_safe; [reflexivity|].
        apply utf8_octets. lia.
Qed.

Lemma uri_safe_ascii (c : code_unit) : uri_safe c = true -> c < 128.
Proof.
  unfold uri_safe, uri_unreserved, is_alnum, is_lower, is_upper, is_digit.
  rewrite !orb_true_iff, !in_range_spec. cbn [existsb].
  rewrite !orb_true_iff, !unit_eqb_eq. lia.
Qed.

(** ** The uploads, gate by gate *)

Section UploadGates.
Variable S : Type.
Implicit Types (w : world S) (c : S3Client S).

Lemma trace_after w (evs : list event) (s : S) :
  trace (after w evs s) = trace w ++ evs.
Proof. reflexivity. Qed.

Lemma put_in_non_puts (evs : list event) (p : PutObjectInput) :
  forallb (fun ev => negb (is_put ev)) evs = true -> ~ In (S3Put p) evs.
Proof.
  intros H Hin. rewrite forallb_forall in H. specialize (H _ Hin). discriminate.
Qed.

(** The one put a PDF upload can issue. *)
Lemma uploadPdfToS3_puts c lib file link today ts w evs p :
  trace (snd (Gateway.uploadPdfToS3 c lib file link today ts w)) = trace w ++ evs ->
  In (S3Put p) evs ->
  exists doc el en,
    file_size file <= size_limit /\
    PDFDocument_load lib (file_arrayBuffer file) = inr doc /\
    encodeURIComponent link = Some el /\
    encodeURIComponent (file_name file) = Some en /\
    p = pdf_put_request file ts
          (PDFDocument_save lib (stamped file link today doc)) el en /\
    evs = [PdfLoad (file_arrayBuffer file);
           PdfSave (stamped file link today doc); S3Put p].
Proof.
  destruct (N.ltb_spec size_limit (file_size file)) as [Big|Small].
  { rewrite uploadPdfToS3_too_large by exact Big. simpl. intros Ht Hin.
    rewrite <- (app_nil_r (trace w)) in Ht at 1. apply app_inv_head in Ht.
    subst evs. destruct Hin. }
  destruct (PDFDocument_load lib (file_arrayBuffer file)) as [cause|doc] eqn:L.
  { erewrite uploadPdfToS3_not_embedded by eassumption. simpl. intros Ht Hin.
    apply app_inv_head in Ht. subst evs.
    destruct Hin as [Hin|[]]. discriminate. }
  destruct (encodeURIComponent link) as [el|] eqn:El;
    [destruct (encodeURIComponent (file_name file)) as [en|] eqn:En|].
  - erewrite uploadPdfToS3_embedded by eassumption. cbv zeta. simpl.
    intros Ht Hin. apply app_inv_head in Ht. subst evs.
    destruct Hin as [Hin|[Hin|[Hin|[]]]]; try discriminate.
    inversion Hin. exists doc, el, en. repeat (split; [assumption || reflexivity|]).
    reflexivity.
  - erewrite uploadPdfToS3_not_encoded by eauto. simpl. intros Ht Hin.
    apply app_inv_head in Ht. subst evs.
    destruct Hin as [Hin|[Hin|[]]]; discriminate.
  - erewrite uploadPdfToS3_not_encoded by eauto. simpl. intros Ht Hin.
    apply app_inv_head in Ht. subst evs.
    destruct Hin as [Hin|[Hin|[]]]; discriminate.
Qed.

(** The one put an Excel upload can issue. *)
Lemma uploadExcelToS3_puts c bucket file ts w evs p :
  trace (snd (Gateway.uploadExcelToS3 c bucket file ts w)) = trace w ++ evs ->
  In (S3Put p) evs ->
  exists en,
    file_size file <= size_limit /\
    includes Gateway.validExcelTypes (file_type file) = true /\
    encodeURIComponent (file_name file) = Some en /\
    p = excel_put_request bucket file ts en /\
    evs = [S3Put p].
Proof.
  assert (Nothing : forall r : exn + jsstring, trace (snd (r, w)) = trace w ++ evs ->
                              In (S3Put p) evs -> False).
  { intros r Ht Hin. simpl in Ht.
    rewrite <- (app_nil_r (trace w)) in Ht at 1. apply app_inv_head in Ht.
    subst evs. destruct Hin. }
  destruct (N.ltb_spec size_limit (file_size file)) as [Big|Small].
  { rewrite uploadExcelToS3_too_large by exact Big.
    intros Ht Hin. destruct (Nothing _ Ht Hin). }
  destruct (includes Gateway.validExcelTypes (file_type file)) eqn:T.
  2:{ rewrite uploadExcelToS3_bad_type by assumption.
      intros Ht Hin. destruct (Nothing _ Ht Hin). }
  destruct (encodeURIComponent (file_name file)) as [en|] eqn:En.
  2:{ rewrite uploadExcelToS3_not_encoded by assumption.
      intros Ht Hin. destruct (Nothing _ Ht Hin). }
  erewrite uploadExcelToS3_accepted by eassumption. cbv zeta. simpl.
  intros Ht Hin. apply app_inv_head in Ht. subst evs.
  destruct Hin as [Hin|[]]. inversion Hin.
  exists en. repeat (split; [assumption || reflexivity|]). reflexivity.
Qed.

Lemma uploadPdfToS3_returns c lib file link today ts w k :
  fst (Gateway.uploadPdfToS3 c lib file link today ts w) = inr k ->
  k = storage_key (lit "pdf_files") ts (file_name file).
Proof.
  destruct (N.ltb_spec size_limit (file_size file)) as [Big|Small].
  { rewrite uploadPdfToS3_too_large by exact Big. discriminate. }
  destruct (PDFDocument_load lib (file_arrayBuffer file)) as [cause|doc] eqn:L.
  { erewrite uploadPdfToS3_not_embedded by eassumption. discriminate. }
  destruct (encodeURIComponent link) as [el|] eqn:El;
    [destruct (encodeURIComponent (file_name file)) as [en|] eqn:En|].
  - erewrite uploadPdfToS3_embedded by eassumption. cbv zeta. simpl fst.
    destruct (fst (upload_done c _ (backend w))); [discriminate|].
    intros H. inversion H. reflexivity.
  - erewrite uploadPdfToS3_not_encoded by eauto. discriminate.
  - erewrite uploadPdfToS3_not_encoded by eauto. discriminate.
Qed.

Lemma uploadExcelToS3_returns c bucket file ts w k :
  fst (Gateway.uploadExcelToS3 c bucket file ts w) = inr k ->
  k = storage_key (lit "excel_sheets") ts (file_name file).
Proof.
  destruct (N.ltb_spec size_limit (file_size file)) as [Big|Small].
  { rewrite uploadExcelToS3_too_large by exact Big. discriminate. }
  destruct (includes Gateway.validExcelTypes (file_type file)) eqn:T.
  2:{ rewrite uploadExcelToS3_bad_type by assumption. discriminate. }
  destruct (encodeURIComponent (file_name file)) as [en|] eqn:En.
  2:{ rewrite uploadExcelToS3_not_encoded by assumption. discriminate. }
  erewrite uploadExcelToS3_accepted by eassumption. cbv zeta. simpl fst.
  destruct (fst (upload_done c _ (backend w))); [discriminate|].
  intros H. inversion H. reflexivity.
Qed.

End UploadGates.

Lemma recognized_storage_key (ts : Z) (name : jsstring) :
  recognized (storage_key (lit "pdf_files") ts name) = true /\
  recognized (storage_key (lit "excel_sheets") ts name) = true.
Proof.
  unfold recognized, storage_key. split.
  - change (lit "pdf_files" ++ lit "/" ++ Z_toString ts ++ lit "-" ++ Gateway.sanitize name)
      with (lit "pdf_files/" ++ Z_toString ts ++ lit "-" ++ Gateway.sanitize name).
    rewrite startsWith_app. reflexivity.
  - change (lit "excel_sheets" ++ lit "/" ++ Z_toString ts ++ lit "-" ++ Gateway.sanitize name)
      with (lit "excel_sheets/" ++ Z_toString ts ++ lit "-" ++ Gateway.sanitize name).
    rewrite startsWith_app. apply orb_true_r.
Qed.

(** X4. Every key an upload returns passes the guard of the delete
    function: deleting it reaches the store with exactly one delete
    request, for that key. *)
Theorem X4_uploaded_keys_pass_the_guard S (c : S3Client S) (lib : PdfLib)
    (bucket : jsstring) (file : File) (link : jsstring) (today : Date)
    (ts : Z) (w w' : world S) (k : jsstring) :
  fst (Gateway.uploadPdfToS3 c lib file link today ts w) = inr k \/
  fst (Gateway.uploadExcelToS3 c bucket file ts w) = inr k ->
  let command := {| ref_Bucket := bucket; ref_Key := k |} in
  recognized k = true /\
  trace (snd (Gateway.deleteFileFromS3 c bucket k w')) =
    trace w' ++ [S3Delete command] /\
  backend (snd (Gateway.deleteFileFromS3 c bucket k w')) =
    snd (send_delete c command (backend w')).
Proof.
  intros H command.
  assert (R : recognized k = true).
  { destruct H as [H|H].
    - apply uploadPdfToS3_returns in H. subst k. apply recognized_storage_key.
    - apply uploadExcelToS3_returns in H. subst k. apply recognized_storage_key. }
  split; [exact R|].
  rewrite deleteFileFromS3_run, R. split; reflexivity.
Qed.

Lemma X4_uploaded_keys_pass_the_guard_witness :
  let up := Gateway.uploadPdfToS3 InMemory.client TinyPdf.lib
              Examples.report_pdf Examples.link 0%Z 1700000000000%Z
              (InMemory.start []) in
  let key := lit "pdf_files/1700000000000-____final__1.pdf" in
  fst up = inr key /\
  backend (snd (Gateway.deleteFileFromS3 InMemory.client Examples.bucket key
                  (snd up))) = [].
Proof.
  intros up key.
  assert (U : fst up = inr key) by reflexivity.
  split; [exact U|].
  destruct (@X4_uploaded_keys_pass_the_guard _ InMemory.client TinyPdf.lib
              Examples.bucket Examples.report_pdf Examples.link 0%Z
              1700000000000%Z (InMemory.start []) (snd up) key (or_introl U))
    as (_ & _ & B).
  rewrite B. reflexivity.
Defined.

(** X5. The bucket each call addresses. A PDF upload always puts into the
    bucket written in the code, [major-project-margdarshak]; the upload of
    a spreadsheet, the listing, the delete and the metadata read address
    the configured bucket. *)
Theorem X5_buckets_addressed S (c : S3Client S) (lib : PdfLib)
    (bucket : jsstring) (file : File) (link : jsstring) (today : Date)
    (ts : Z) (race : bool) (key : jsstring) (w : world S) :
  (forall evs p,
     trace (snd (Gateway.uploadPdfToS3 c lib file link today ts w)) =
       trace w ++ evs ->
     In (S3Put p) evs -> put_Bucket p = lit "major-project-margdarshak") /\
  (forall evs p,
     trace (snd (Gateway.uploadExcelToS3 c bucket file ts w)) = trace w ++ evs ->
     In (S3Put p) evs -> put_Bucket p = bucket) /\
  (forall evs i,
     trace (snd (Gateway.listFilesFromS3 c bucket today race w)) =
       trace w ++ evs ->
     In (S3List i) evs -> list_Bucket i = bucket) /\
  (forall evs r,
     trace (snd (Gateway.deleteFileFromS3 c bucket key w)) = trace w ++ evs ->
     In (S3Delete r) evs -> ref_Bucket r = bucket) /\
  (forall evs r,
     trace (snd (Gateway.getFileMetadata c bucket key w)) = trace w ++ evs ->
     In (S3Head r) evs -> ref_Bucket r = bucket).
Proof.
  split; [|split; [|split; [|split]]].
  - intros evs p Ht Hin.
    destruct (uploadPdfToS3_puts _ _ _ _ _ _ _ _ _ Ht Hin)
      as (doc & el & en & _ & _ & _ & _ & -> & _). reflexivity.
  - intros evs p Ht Hin.
    destruct (uploadExcelToS3_puts _ _ _ _ _ _ _ Ht Hin)
      as (en & _ & _ & _ & -> & _). reflexivity.
  - intros evs i. rewrite listFilesFromS3_run. simpl. intros Ht Hin.
    apply app_inv_head in Ht. subst evs.
    destruct Hin as [Hin|[Hin|[]]]; inversion Hin; reflexivity.
  - intros evs r. rewrite deleteFileFromS3_run.
    destruct (recognized key); simpl; intros Ht Hin.
    + apply app_inv_head in Ht. subst evs.
      destruct Hin as [Hin|[]]. inversion Hin. reflexivity.
    + rewrite <- (app_nil_r (trace w)) in Ht at 1. apply app_inv_head in Ht.
      subst evs. destruct Hin.
  - intros evs r. unfold Gateway.getFileMetadata. rewrite try_catch_rethrow.
    unfold bind. rewrite call_backend_after.
    destruct (fst (send_head c _ (backend w))); simpl; intros Ht Hin;
      apply app_inv_head in Ht; subst evs;
      destruct Hin as [Hin|[]]; inversion Hin; reflexivity.
Qed.

Lemma X5_buckets_addressed_witness :
  let run := Gateway.uploadPdfToS3 InMemory.client TinyPdf.lib
               Examples.report_pdf Examples.link 0%Z 1700000000000%Z
               (InMemory.start []) in
  exists p, backend (snd run) = [p] /\
            put_Bucket p = lit "major-project-margdarshak".
Proof.
  intros run.
  destruct (@X5_buckets_addressed _ InMemory.client TinyPdf.lib Examples.bucket
              Examples.report_pdf Examples.link 0%Z 1700000000000%Z false
              Examples.a_pdf_key (InMemory.start [])) as (Pdf & _).
  eexists. split; [reflexivity|].
  eapply Pdf; [reflexivity|]. right. right. left. reflexivity.
Defined.


(** X6. The Content-Disposition of every put is
    [attachment; filename=] followed by the sanitized name between double
    quotes; the name between the quotes is as long as the file's name and
    holds no quote, no slash and no backslash, so it cannot end the quoted
    string. *)
Theorem X6_content_disposition_is_quoted S (c : S3Client S) (lib : PdfLib)
    (bucket : jsstring) (file : File) (link : jsstring) (today : Date)
    (ts : Z) (w : world S) (evs : list event) (p : PutObjectInput) :
  (trace (snd (Gateway.uploadPdfToS3 c lib file link today ts w)) =
     trace w ++ evs \/
   trace (snd (Gateway.uploadExcelToS3 c bucket file ts w)) = trace w ++ evs) ->
  In (S3Put p) evs ->
  exists filename,
    put_ContentDisposition p =
      Some (lit "attachment; filename=" ++ [34] ++ filename ++ [34]) /\
    List.length filename = List.length (file_name file) /\
    forall ch, In ch filename ->
      45 <= ch <= 122 /\ ch <> 47 /\ ch <> 92 /\ ch <> 34.
Proof.
  intros Ht Hin. exists (Gateway.sanitize (file_name file)).
  assert (D : put_ContentDisposition p =
              Some (lit "attachment; filename=" ++ [34]
                    ++ Gateway.sanitize (file_name file) ++ [34])).
  { destruct Ht as [Ht|Ht].
    - destruct (uploadPdfToS3_puts _ _ _ _ _ _ _ _ _ Ht Hin)
        as (doc & el & en & _ & _ & _ & _ & -> & _). reflexivity.
    - destruct (uploadExcelToS3_puts _ _ _ _ _ _ _ Ht Hin)
        as (en & _ & _ & _ & -> & _). reflexivity. }
  split; [exact D|]. split; [apply sanitize_length|].
  intros ch Hch.
  pose proof (sanitize_safe (file_name file)) as Safe.
  rewrite forallb_forall in Safe. specialize (Safe _ Hch).
  apply key_char_spec in Safe. lia.
Qed.

Lemma X6_content_disposition_is_quoted_witness :
  exists p,
    backend (snd (Gateway.uploadPdfToS3 InMemory.client TinyPdf.lib
                    Examples.report_pdf Examples.link 0%Z 1700000000000%Z
                    (InMemory.start []))) = [p] /\
    put_ContentDisposition p =
      Some (lit "attachment; filename=" ++ [34] ++ lit "____final__1.pdf"
            ++ [34]).
Proof.
  eexists. split; [reflexivity|].
  edestruct (@X6_content_disposition_is_quoted _ InMemory.client TinyPdf.lib
               Examples.bucket Examples.report_pdf Examples.link 0%Z
               1700000000000%Z (InMemory.start []))
    as (filename & D & _ & _);
    [left; reflexivity | right; right; left; reflexivity |].
  reflexivity.
Defined.

(** X7. A name or a link with a surrogate that stands alone cannot be
    percent-encoded. For a file within the size limit: a PDF upload with
    such a name or link, of a document that loads, fails with
    [Failed to upload PDF: URI malformed] after the document has been
    loaded and saved and before anything is put; an upload of a
    spreadsheet of a valid type with such a name fails with
    [Failed to upload Excel: URI malformed] without any effect. *)
Theorem X7_unpaired_surrogate_stops_the_upload S (c : S3Client S)
    (lib : PdfLib) (bucket : jsstring) (file : File) (link : jsstring)
    (today : Date) (ts : Z) (w : world S) :
  file_size file <= size_limit ->
  (encodeURIComponent (file_name file) = None <->
   isWellFormed (file_name file) = false) /\
  (forall doc,
     PDFDocument_load lib (file_arrayBuffer file) = inr doc ->
     isWellFormed link = false \/ isWellFormed (file_name file) = false ->
     Gateway.uploadPdfToS3 c lib file link today ts w =
       (inl (new_Error (lit "Failed to upload PDF: URI malformed")),
        after w [PdfLoad (file_arrayBuffer file);
                 PdfSave (stamped file link today doc)] (backend w))) /\
  (includes Gateway.validExcelTypes (file_type file) = true ->
   isWellFormed (file_name file) = false ->
   Gateway.uploadExcelToS3 c bucket file ts w =
     (inl (new_Error (lit "Failed to upload Excel: URI malformed")), w)).
Proof.
  intros Hs. split; [apply encodeURIComponent_None|]. split.
  - intros doc Hl Hw. apply uploadPdfToS3_not_encoded; [exact Hs | exact Hl |].
    destruct Hw as [Hw|Hw]; [left|right]; apply encodeURIComponent_None, Hw.
  - intros Ht Hw. apply uploadExcelToS3_not_encoded; [exact Hs | exact Ht |].
    apply encodeURIComponent_None, Hw.
Qed.

Lemma X7_unpaired_surrogate_stops_the_upload_witness :
  file_size Cases.odd_sheet <= size_limit /\
  isWellFormed (file_name Cases.odd_sheet) = false /\
  Gateway.uploadExcelToS3 InMemory.client Examples.bucket Cases.odd_sheet
    1700000000000%Z (InMemory.start []) =
    (inl (new_Error (lit "Failed to upload Excel: URI malformed")),
     InMemory.start []).
Proof.
  assert (Hs : file_size Cases.odd_sheet <= size_limit) by (vm_compute; discriminate).
  split; [exact Hs|]. split; [reflexivity|].
  apply (@X7_unpaired_surrogate_stops_the_upload _ InMemory.client TinyPdf.lib
           Examples.bucket Cases.odd_sheet Examples.link 0%Z 1700000000000%Z
           (InMemory.start []) Hs); reflexivity.
Defined.

(** X8. A file within the size limit whose declared type is none of the
    three spreadsheet types is refused with the message of the format
    check, and nothing reaches the store. *)
Theorem X8_excel_type_gate S (c : S3Client S) (bucket : jsstring)
    (file : File) (ts : Z) (w : world S) :
  file_size file <= size_limit ->
  file_type file <> lit "application/vnd.ms-excel" ->
  file_type file <>
    lit "application/vnd.openxmlformats-officedocument.spreadsheetml.sheet" ->
  file_type file <> lit "application/vnd.oasis.opendocument.spreadsheet" ->
  Gateway.uploadExcelToS3 c bucket file ts w =
    (inl (new_Error
            (lit "Failed to upload Excel: Invalid Excel file format. Please upload a valid Excel file.")),
     w).
Proof.
  intros Hs H1 H2 H3. apply uploadExcelToS3_bad_type; [exact Hs|].
  unfold includes, Gateway.validExcelTypes. cbn [existsb].
  rewrite !orb_false_iff. repeat split; try reflexivity;
    apply not_true_iff_false; rewrite eqb_eq; assumption.
Qed.

Lemma X8_excel_type_gate_witness :
  Gateway.uploadExcelToS3 InMemory.client Examples.bucket Cases.csv_sheet
    1700000000000%Z (InMemory.start []) =
    (inl (new_Error
            (lit "Failed to upload Excel: Invalid Excel file format. Please upload a valid Excel file.")),
     InMemory.start []).
Proof.
  apply (@X8_excel_type_gate _ InMemory.client Examples.bucket Cases.csv_sheet
           1700000000000%Z (InMemory.start []));
    first [vm_compute; discriminate | discriminate].
Defined.

Lemma existsb_is_put_In (evs : list event) :
  existsb is_put evs = true <-> exists p, In (S3Put p) evs.
Proof.
  rewrite existsb_exists. split.
  - intros [[] [Hin Hp]]; try discriminate. eauto.
  - intros [p Hin]. exists (S3Put p). split; [exact Hin | reflexivity].
Qed.

Lemma InMemory_client_refuses :
  refuses_bare_buffers InMemory.client unsupported_body.
Proof. intros params buffer s H. simpl. rewrite H. reflexivity. Qed.

(** X9. What an upload hands to the store. A PDF upload hands [Upload] a
    request exactly when every check before it has passed (the size limit,
    the loading of the document, the percent-encoding of link and name),
    and the body of that request is a [Uint8Array]. The upload of a
    spreadsheet hands over the [ArrayBuffer] of the file as it is: with an
    [Upload] that refuses such a body before it sends anything, as the
    storage library does, the upload of a spreadsheet never returns a key
    and leaves the store as it was, and on a file that passes every check
    it fails with the report of the refusal. *)
Theorem X9_no_spreadsheet_is_stored S (c : S3Client S) (lib : PdfLib)
    (bucket : jsstring) (file : File) (link : jsstring) (today : Date)
    (ts : Z) (w : world S) :
  (forall evs,
     trace (snd (Gateway.uploadPdfToS3 c lib file link today ts w)) =
       trace w ++ evs ->
     (existsb is_put evs = true <->
      file_size file <= size_limit /\
      (exists doc, PDFDocument_load lib (file_arrayBuffer file) = inr doc) /\
      isWellFormed link = true /\ isWellFormed (file_name file) = true)) /\
  (forall evs p,
     trace (snd (Gateway.uploadPdfToS3 c lib file link today ts w)) =
       trace w ++ evs ->
     In (S3Put p) evs -> exists bytes, put_Body p = Some (Uint8Array bytes)) /\
  (forall refusal,
     refuses_bare_buffers c refusal ->
     let run := Gateway.uploadExcelToS3 c bucket file ts w in
     (exists e, fst run = inl e) /\
     backend (snd run) = backend w /\
     (file_size file <= size_limit ->
      includes Gateway.validExcelTypes (file_type file) = true ->
      isWellFormed (file_name file) = true ->
      fst run = inl (new_Error (report_excel_upload refusal)))).
Proof.
  split; [|split].
  - intros evs Ht. rewrite existsb_is_put_In. split.
    + intros [p Hin].
      destruct (uploadPdfToS3_puts _ _ _ _ _ _ _ _ _ Ht Hin)
        as (doc & el & en & Hs & Hl & Hel & Hen & _).
      split; [exact Hs|]. split; [eauto|].
      split; apply not_false_iff_true; rewrite <- encodeURIComponent_None;
        congruence.
    + intros (Hs & [doc Hl] & Hw1 & Hw2).
      destruct (encodeURIComponent_Some _ Hw1) as [el Hel].
      destruct (encodeURIComponent_Some _ Hw2) as [en Hen].
      erewrite uploadPdfToS3_embedded in Ht by eassumption.
      cbv zeta in Ht. simpl in Ht. apply app_inv_head in Ht. subst evs.
      eexists. right. right. left. reflexivity.
  - intros evs p Ht Hin.
    destruct (uploadPdfToS3_puts _ _ _ _ _ _ _ _ _ Ht Hin)
      as (doc & el & en & _ & _ & _ & _ & -> & _).
    eexists. reflexivity.
  - intros refusal Hr run. subst run.
    destruct (N.ltb_spec size_limit (file_size file)) as [Big|Small].
    { rewrite uploadExcelToS3_too_large by exact Big.
      split; [eexists; reflexivity|]. split; [reflexivity|]. lia. }
    destruct (includes Gateway.validExcelTypes (file_type file)) eqn:T.
    2:{ rewrite uploadExcelToS3_bad_type by assumption.
        split; [eexists; reflexivity|]. split; [reflexivity|]. discriminate. }
    destruct (encodeURIComponent (file_name file)) as [en|] eqn:En.
    2:{ rewrite uploadExcelToS3_not_encoded by assumption.
        split; [eexists; reflexivity|]. split; [reflexivity|].
        intros _ _ Hw. apply encodeURIComponent_None in En. congruence. }
    erewrite uploadExcelToS3_accepted by eassumption. cbv zeta.
    rewrite (Hr (excel_put_request bucket file ts en) (file_arrayBuffer file)
                (backend w) eq_refl).
    split; [eexists; reflexivity|]. split; [reflexivity|].
    intros _ _ _. reflexivity.
Qed.

Lemma X9_no_spreadsheet_is_stored_witness :
  let run := Gateway.uploadExcelToS3 InMemory.client Examples.bucket
               Examples.sheet 1700000000000%Z (InMemory.start []) in
  fst run =
    inl (new_Error (lit "Failed to upload Excel: Body Data is unsupported format, expected data to be one of: string | Uint8Array | Buffer | Readable | ReadableStream | Blob;.")) /\
  backend (snd run) = [].
Proof.
  intros run.
  destruct (@X9_no_spreadsheet_is_stored _ InMemory.client TinyPdf.lib
              Examples.bucket Examples.sheet Examples.link 0%Z
              1700000000000%Z (InMemory.start [])) as (_ & _ & Excel).
  destruct (Excel unsupported_body InMemory_client_refuses)
    as (_ & Hb & Hfail).
  split; [|exact Hb].
  apply Hfail; [vm_compute; discriminate | reflexivity | reflexivity].
Defined.

Lemma decimal_units (d : Decimal.uint) (ch : code_unit) :
  In ch (lit (NilZero.string_of_uint d)) -> 48 <= ch <= 57.
Proof.
  intros H. pose proof (digits_of_uint_nz d) as D.
  rewrite forallb_forall in D. apply in_range_spec. apply D, H.
Qed.

Lemma Z_toString_units (z : Z) (ch : code_unit) :
  In ch (Z_toString z) -> 45 <= ch <= 57.
Proof.
  unfold Z_toString. destruct z as [|p|p]; simpl Z.to_int;
    simpl NilZero.string_of_int.
  - intros H. apply (decimal_units Decimal.zero) in H. lia.
  - intros H. apply decimal_units in H. lia.
  - rewrite lit_cons. intros [<-|H]; [cbv; split; discriminate|].
    apply decimal_units in H. lia.
Qed.

Lemma N_toString_units (n : N) (ch : code_unit) :
  In ch (N_toString n) -> 48 <= ch <= 57.
Proof. unfold N_toString. apply decimal_units. Qed.

(** X10. Every metadata value a put carries consists of ASCII code
    units only, whatever 16-bit code units the name and the link are made
    of. *)
Theorem X10_metadata_values_are_ascii S (c : S3Client S) (lib : PdfLib)
    (bucket : jsstring) (file : File) (link : jsstring) (today : Date)
    (ts : Z) (w : world S) (evs : list event) (p : PutObjectInput)
    (k v : jsstring) :
  utf16 link = true -> utf16 (file_name file) = true ->
  (trace (snd (Gateway.uploadPdfToS3 c lib file link today ts w)) =
     trace w ++ evs \/
   trace (snd (Gateway.uploadExcelToS3 c bucket file ts w)) = trace w ++ evs) ->
  In (S3Put p) evs ->
  In (k, v) (put_Metadata p) ->
  forall ch, In ch v -> ch < 128.
Proof.
  intros Hl Hn Ht Hin Hkv ch Hch.
  assert (Enc : forall s r, utf16 s = true -> encodeURIComponent s = Some r ->
                            In ch r -> ch < 128).
  { intros s r Hs Hr Hr'. apply uri_safe_ascii.
    pose proof (encodeURIComponent_safe _ Hs Hr) as F.
    rewrite forallb_forall in F. apply F, Hr'. }
  destruct Ht as [Ht|Ht].
  - destruct (uploadPdfToS3_puts _ _ _ _ _ _ _ _ _ Ht Hin)
      as (doc & el & en & _ & _ & Hel & Hen & -> & _).
    cbn [put_Metadata pdf_put_request] in Hkv.
    destruct Hkv as [E|[E|[E|[E|[]]]]]; inversion E; subst v.
    + exact (Enc _ _ Hl Hel Hch).
    + exact (Enc _ _ Hn Hen Hch).
    + apply Z_toString_units in Hch. lia.
    + apply N_toString_units in Hch. lia.
  - destruct (uploadExcelToS3_puts _ _ _ _ _ _ _ Ht Hin)
      as (en & _ & _ & Hen & -> & _).
    cbn [put_Metadata excel_put_request] in Hkv.
    destruct Hkv as [E|[E|[E|[]]]]; inversion E; subst v.
    + exact (Enc _ _ Hn Hen Hch).
    + apply Z_toString_units in Hch. lia.
    + apply N_toString_units in Hch. lia.
Qed.

Lemma X10_metadata_values_are_ascii_witness :
  exists p,
    backend (snd (Gateway.uploadPdfToS3 InMemory.client TinyPdf.lib
                    Examples.report_pdf Examples.link 0%Z 1700000000000%Z
                    (InMemory.start []))) = [p] /\
    In (lit "originalName", lit "%E6%8A%A5%E5%91%8A%20(final)%231.pdf")
       (put_Metadata p) /\
    forall ch, In ch (lit "%E6%8A%A5%E5%91%8A%20(final)%231.pdf") -> ch < 128.
Proof.
  eexists. split; [reflexivity|].
  assert (M : In (lit "originalName", lit "%E6%8A%A5%E5%91%8A%20(final)%231.pdf")
                 (put_Metadata
                    (pdf_put_request Examples.report_pdf 1700000000000%Z
                       (PDFDocument_save TinyPdf.lib
                          (stamped Examples.report_pdf Examples.link 0%Z
                             TinyPdf.blank))
                       (lit "https%3A%2F%2Fexample.com%2Fa")
                       (lit "%E6%8A%A5%E5%91%8A%20(final)%231.pdf"))))
    by (right; left; reflexivity).
  split; [exact M|].
  eapply (@X10_metadata_values_are_ascii _ InMemory.client TinyPdf.lib
            Examples.bucket Examples.report_pdf Examples.link 0%Z
            1700000000000%Z (InMemory.start []));
    [reflexivity | reflexivity | left; reflexivity
     | right; right; left; reflexivity | exact M].
Defined.

Lemma getFileMetadata_run S (c : S3Client S) (bucket key : jsstring)
    (w : world S) :
  let command := {| ref_Bucket := bucket; ref_Key := key |} in
  let sent := send_head c command (backend w) in
  Gateway.getFileMetadata c bucket key w =
    (match fst sent with
     | inr response =>
         inr (match Metadata response with Some m => m | None => [] end)
     | inl cause => inl (new_Error (report
                       (lit "Failed to get metadata: ")
                       (lit "Failed to get metadata: ")
                       (lit "Failed to get metadata due to unknown error") cause))
     end,
     after w [S3Head command] (snd sent)).
Proof.
  intros command sent. unfold Gateway.getFileMetadata.
  rewrite try_catch_rethrow. unfold bind. rewrite call_backend_after.
  fold command. fold sent.
  destruct (fst sent); reflexivity.
Qed.

Lemma unhex_hex_digit (n : N) : n < 16 -> unhex (hex_digit n) = n.
Proof.
  intros H. unfold unhex, hex_digit.
  destruct (N.ltb_spec n 10).
  - destruct (N.ltb_spec (48 + n) 58); lia.
  - destruct (N.ltb_spec (55 + n) 58); lia.
Qed.

Lemma octet_of_percent (o : N) :
  o < 256 -> 16 * unhex (hex_digit (o / 16)) + unhex (hex_digit (o mod 16)) = o.
Proof.
  intros H. rewrite !unhex_hex_digit.
  - symmetry. apply N.div_mod. discriminate.
  - apply N.mod_lt. discriminate.
  - apply N.Div0.div_lt_upper_bound. lia.
Qed.

Lemma percent_decoded_1 (o : N) (rest : jsstring) :
  o < 128 ->
  percent_decoded (percent o ++ rest) = o :: percent_decoded rest.
Proof.
  intros H. unfold percent. cbn [app percent_decoded].
  change (unit_eqb 37 37) with true. cbv zeta.
  rewrite octet_of_percent by lia.
  destruct (N.ltb_spec o 128); [reflexivity | lia].
Qed.

Lemma percent_decoded_2 (cp : N) (rest : jsstring) :
  128 <= cp < 2048 ->
  percent_decoded (flat_map percent [192 + cp / 64; 128 + cp mod 64] ++ rest) =
    cp :: percent_decoded rest.
Proof.
  intros H.
  assert (cp / 64 < 32) by (apply N.Div0.div_lt_upper_bound; lia).
  assert (cp mod 64 < 64) by (apply N.mod_lt; discriminate).
  pose proof (N.div_mod cp 64 ltac:(discriminate)).
  unfold percent. cbn [flat_map app percent_decoded].
  change (unit_eqb 37 37) with true. cbv zeta.
  rewrite !octet_of_percent by lia.
  destruct (N.ltb_spec (192 + cp / 64) 128); [lia|].
  destruct (N.ltb_spec (192 + cp / 64) 224); [|lia].
  f_equal. set (q := cp / 64) in *. set (m := cp mod 64) in *.
  clearbody q m. lia.
Qed.

Lemma percent_decoded_3 (cp : N) (rest : jsstring) :
  2048 <= cp < 65536 ->
  percent_decoded
    (flat_map percent [224 + cp / 4096; 128 + (cp / 64) mod 64; 128 + cp mod 64]
     ++ rest) = cp :: percent_decoded rest.
Proof.
  intros H.
  assert (cp / 4096 < 16) by (apply N.Div0.div_lt_upper_bound; lia).
  assert (cp mod 64 < 64) by (apply N.mod_lt; discriminate).
  assert ((cp / 64) mod 64 < 64) by (apply N.mod_lt; discriminate).
  pose proof (N.div_mod cp 64 ltac:(discriminate)).
  pose proof (N.div_mod (cp / 64) 64 ltac:(discriminate)).
  assert (cp / 64 / 64 = cp / 4096) by (rewrite N.Div0.div_div; reflexivity).
  unfold percent. cbn [flat_map app percent_decoded].
  change (unit_eqb 37 37) with true. cbv zeta.
  rewrite !octet_of_percent by lia.
  destruct (N.ltb_spec (224 + cp / 4096) 128); [lia|].
  destruct (N.ltb_spec (224 + cp / 4096) 224); [lia|].
  destruct (N.ltb_spec (224 + cp / 4096) 240); [|lia].
  f_equal. set (q2 := cp / 4096) in *. set (m1 := (cp / 64) mod 64) in *.
  set (q := cp / 64) in *. set (m := cp mod 64) in *.
  clearbody q2 m1 q m. lia.
Qed.

Lemma percent_decoded_4 (cp : N) (rest : jsstring) :
  65536 <= cp < 1114112 ->
  percent_decoded
    (flat_map percent [240 + cp / 262144; 128 + (cp / 4096) mod 64;
                       128 + (cp / 64) mod 64; 128 + cp mod 64]
     ++ rest) =
    (55296 + (cp - 65536) / 1024) :: (56320 + (cp - 65536) mod 1024)
      :: percent_decoded rest.
Proof.
  intros H.
  assert (cp / 262144 < 5) by (apply N.Div0.div_lt_upper_bound; lia).
  assert (cp mod 64 < 64) by (apply N.mod_lt; discriminate).
  assert ((cp / 64) mod 64 < 64) by (apply N.mod_lt; discriminate).
  assert ((cp / 4096) mod 64 < 64) by (apply N.mod_lt; discriminate).
  pose proof (N.div_mod cp 64 ltac:(discriminate)).
  pose proof (N.div_mod (cp / 64) 64 ltac:(discriminate)).
  pose proof (N.div_mod (cp / 4096) 64 ltac:(discriminate)).
  assert (cp / 64 / 64 = cp / 4096) by (rewrite N.Div0.div_div; reflexivity).
  assert (cp / 4096 / 64 = cp / 262144) by (rewrite N.Div0.div_div; reflexivity).
  unfold percent. cbn [flat_map app percent_decoded].
  change (unit_eqb 37 37) with true. cbv zeta.
  rewrite !octet_of_percent by lia.
  destruct (N.ltb_spec (240 + cp / 262144) 128); [lia|].
  destruct (N.ltb_spec (240 + cp / 262144) 224); [lia|].
  destruct (N.ltb_spec (240 + cp / 262144) 240); [lia|].
  replace ((240 + cp / 262144 - 240) * 262144
           + (128 + (cp / 4096) mod 64 - 128) * 4096
           + (128 + (cp / 64) mod 64 - 128) * 64 + (128 + cp mod 64 - 128))
    with cp; [reflexivity|].
  set (q3 := cp / 262144) in *. set (m2 := (cp / 4096) mod 64) in *.
  set (q2 := cp / 4096) in *. set (m1 := (cp / 64) mod 64) in *.
  set (q := cp / 64) in *. set (m := cp mod 64) in *.
  clearbody q3 m2 q2 m1 q m. lia.
Qed.

Lemma percent_decoded_utf8 (cp : N) (rest : jsstring) :
  cp < 65536 ->
  percent_decoded (flat_map percent (utf8 cp) ++ rest) =
    cp :: percent_decoded rest.
Proof.
  intros H. unfold utf8.
  destruct (N.ltb_spec cp 128).
  { cbn [flat_map]. rewrite app_nil_r. apply percent_decoded_1. lia. }
  destruct (N.ltb_spec cp 2048); [apply percent_decoded_2; lia|].
  destruct (N.ltb_spec cp 65536); [apply percent_decoded_3; lia | lia].
Qed.

Lemma unreserved_not_percent (c : code_unit) :
  uri_unreserved c = true -> unit_eqb c 37 = false.
Proof.
  intros H. apply not_true_iff_false. rewrite unit_eqb_eq. intros ->.
  discriminate H.
Qed.

Lemma percent_decoded_encoded (s r : jsstring) :
  utf16 s = true -> encodeURIComponent s = Some r -> percent_decoded r = s.
Proof.
  revert r. induction s as [|c rest IH IH2] using jsstring_ind2; intros r Hu.
  - simpl. intros [= <-]. reflexivity.
  - simpl in Hu. apply andb_true_iff in Hu. destruct Hu as [Hc Hrest].
    apply N.ltb_lt in Hc. simpl.
    destruct (uri_unreserved c) eqn:U.
    + destruct (encodeURIComponent rest) as [r'|]; [|discriminate].
      simpl. intros [= <-]. cbn [percent_decoded].
      rewrite (unreserved_not_percent _ U), (IH r' Hrest eq_refl). reflexivity.
    + destruct (is_low_surrogate c) eqn:Lo; [discriminate|].
      destruct (is_high_surrogate c) eqn:Hi.
      * destruct rest as [|c2 rest']; [discriminate|].
        destruct (is_low_surrogate c2) eqn:Lo2; [|discriminate].
        destruct (encodeURIComponent rest') as [r'|] eqn:E; [|discriminate].
        simpl. intros [= <-].
        simpl in Hrest. apply andb_true_iff in Hrest.
        apply in_range_spec in Hi, Lo2.
        set (cp := (c - 55296) * 1024 + (c2 - 56320) + 65536).
        assert (Hcp : 65536 <= cp < 1114112) by (unfold cp; lia).
        unfold utf8.
        destruct (N.ltb_spec cp 128); [lia|].
        destruct (N.ltb_spec cp 2048); [lia|].
        destruct (N.ltb_spec cp 65536); [lia|].
        rewrite percent_decoded_4 by exact Hcp.
        rewrite (IH2 c2 rest' eq_refl r' (proj2 Hrest) E).
        replace (cp - 65536) with ((c - 55296) * 1024 + (c2 - 56320))
          by (unfold cp; lia).
        rewrite N.div_add_l by discriminate.
        rewrite N.div_small by lia.
        replace ((c - 55296) * 1024 + (c2 - 56320))
          with ((c2 - 56320) + (c - 55296) * 1024) by lia.
        rewrite N.Div0.mod_add. rewrite N.mod_small by lia.
        f_equal; [lia|]. f_equal. lia.
      * destruct (encodeURIComponent rest) as [r'|] eqn:E; [|discriminate].
        simpl. intros [= <-].
        rewrite percent_decoded_utf8 by exact Hc.
        rewrite (IH r' Hrest eq_refl). reflexivity.
Qed.

(** X11. The metadata of the put of a PDF upload starts with the
    entries [sourceLink] and [originalName], and nothing of the link or of
    the name is lost in them: decoding the percent-escapes gives back the
    link and the name, so no other link is stored as the same value. *)
Theorem X11_metadata_recovers_the_link S (c : S3Client S) (lib : PdfLib)
    (file : File) (link : jsstring) (today : Date) (ts : Z) (w : world S)
    (evs : list event) (p : PutObjectInput) :
  utf16 link = true -> utf16 (file_name file) = true ->
  trace (snd (Gateway.uploadPdfToS3 c lib file link today ts w)) =
    trace w ++ evs ->
  In (S3Put p) evs ->
  exists encodedLink encodedName rest,
    put_Metadata p =
      (lit "sourceLink", encodedLink) :: (lit "originalName", encodedName)
        :: rest /\
    percent_decoded encodedLink = link /\
    percent_decoded encodedName = file_name file /\
    forall link', utf16 link' = true ->
      encodeURIComponent link' = Some encodedLink -> link' = link.
Proof.
  intros Hl Hn Ht Hin.
  destruct (uploadPdfToS3_puts _ _ _ _ _ _ _ _ _ Ht Hin)
    as (doc & el & en & _ & _ & Hel & Hen & -> & _).
  exists el, en. eexists. split; [reflexivity|].
  pose proof (percent_decoded_encoded _ Hl Hel) as Dl.
  split; [exact Dl|]. split; [exact (percent_decoded_encoded _ Hn Hen)|].
  intros link' Hl' Hel'. rewrite <- Dl.
  symmetry. exact (percent_decoded_encoded _ Hl' Hel').
Qed.

Lemma X11_metadata_recovers_the_link_witness :
  let p := pdf_put_request Examples.report_pdf 1700000000000%Z
             (PDFDocument_save TinyPdf.lib
                (stamped Examples.report_pdf Examples.link 0%Z TinyPdf.blank))
             (lit "https%3A%2F%2Fexample.com%2Fa")
             (lit "%E6%8A%A5%E5%91%8A%20(final)%231.pdf") in
  utf16 Examples.link = true /\
  exists encodedLink encodedName rest,
    put_Metadata p =
      (lit "sourceLink", encodedLink) :: (lit "originalName", encodedName)
        :: rest /\
    percent_decoded encodedLink = Examples.link /\
    percent_decoded encodedName = file_name Examples.report_pdf /\
    forall link', utf16 link' = true ->
      encodeURIComponent link' = Some encodedLink -> link' = Examples.link.
Proof.
  intro p. split; [reflexivity|].
  apply (@X11_metadata_recovers_the_link _ InMemory.client TinyPdf.lib
           Examples.report_pdf Examples.link 0%Z 1700000000000%Z
           (InMemory.start [])
           [PdfLoad (file_arrayBuffer Examples.report_pdf);
            PdfSave (stamped Examples.report_pdf Examples.link 0%Z
                       TinyPdf.blank);
            S3Put p] p);
    [reflexivity | reflexivity | reflexivity
     | right; right; left; reflexivity].
Defined.

(* ===================================================================== *)
(** ** Listings: further properties *)
(* ===================================================================== *)

(** ** Segments of a key *)

Lemma split_join (sep : code_unit) (s : jsstring) :
  exists init last,
    split sep s = init ++ [last] /\
    s = flat_map (fun seg => seg ++ [sep]) init ++ last /\
    forallb (fun c => negb (unit_eqb c sep)) last = true.
Proof.
  induction s as [|c s (init & last & Hsplit & Hjoin & Hlast)].
  - exists [], []. repeat split.
  - simpl. destruct (unit_eqb c sep) eqn:E.
    + apply unit_eqb_eq in E. subst c.
      exists ([] :: init), last. rewrite Hsplit. split; [reflexivity|].
      split; [|exact Hlast]. simpl. f_equal. exact Hjoin.
    + rewrite Hsplit. destruct init as [|seg init]; simpl.
      * exists [], (c :: last). split; [reflexivity|]. split.
        -- simpl. f_equal. exact Hjoin.
        -- simpl. rewrite E, Hlast. reflexivity.
      * exists ((c :: seg) :: init), last. split; [reflexivity|].
        split; [|exact Hlast]. simpl. f_equal. exact Hjoin.
Qed.

(** The last segment of a key: the key is a directory part, empty or
    ending with the separator, followed by the segment, which has no
    separator. *)
Lemma last_segment (sep : code_unit) (s : jsstring) :
  exists dir name,
    pop (split sep s) = Some name /\
    s = dir ++ name /\
    forallb (fun c => negb (unit_eqb c sep)) name = true /\
    (dir = [] \/ exists dir', dir = dir' ++ [sep]).
Proof.
  destruct (split_join sep s) as (init & last & Hsplit & Hjoin & Hlast).
  exists (flat_map (fun seg => seg ++ [sep]) init), last.
  rewrite Hsplit, pop_last. split; [reflexivity|]. split; [exact Hjoin|].
  split; [exact Hlast|].
  clear. induction init as [|seg init IH] using rev_ind; [left; reflexivity|].
  right. rewrite flat_map_app. simpl. rewrite app_nil_r, app_assoc. eauto.
Qed.

Lemma endsWith_last_segment (sep : code_unit) (dir name ext : jsstring) :
  forallb (fun c => negb (unit_eqb c sep)) ext = true ->
  dir = [] \/ (exists dir', dir = dir' ++ [sep]) ->
  endsWith (dir ++ name) ext = endsWith name ext.
Proof.
  intros Hext [->|[dir' ->]]; [reflexivity|].
  rewrite <- app_assoc. simpl. apply endsWith_after, Hext.
Qed.

(** ** The listing *)

Section Listing.
Variable S : Type.
Implicit Types (w : world S) (c : S3Client S).

Lemma listFilesFromS3_returns c bucket today race w files :
  fst (Gateway.listFilesFromS3 c bucket today race w) = inr files ->
  exists pdfs sheets,
    fst (send_list c (pdf_listing bucket) (backend w)) = inr pdfs /\
    fst (send_list c (excel_listing bucket)
           (snd (send_list c (pdf_listing bucket) (backend w)))) = inr sheets /\
    files = merged bucket today pdfs sheets.
Proof.
  rewrite listFilesFromS3_run. simpl.
  destruct (fst (send_list c (pdf_listing bucket) (backend w))) as [e1|pdfs];
    destruct (fst (send_list c (excel_listing bucket) _)) as [e2|sheets];
    try discriminate.
  intros H. inversion H. eauto.
Qed.

Lemma toFileInfo_same (bucket type : jsstring) (today : Date) (item : S3Object) :
  LibS3.toFileInfo bucket type today item =
  Gateway.toFileInfo bucket type today item.
Proof. reflexivity. Qed.

Lemma listed_item (bucket type : jsstring) (today : Date) (exts : list jsstring)
    (item : S3Object) :
  Gateway.key_endsWith exts item = true ->
  exists key,
    key <> [] /\ obj_Key item = Some key /\
    existsb (endsWith key) exts = true /\
    Gateway.fi_id (Gateway.toFileInfo bucket type today item) = key /\
    Gateway.fi_url (Gateway.toFileInfo bucket type today item) =
      Gateway.public_url bucket key /\
    Gateway.fi_name (Gateway.toFileInfo bucket type today item) =
      match pop (split 47 key) with Some n => n | None => [] end.
Proof.
  unfold Gateway.key_endsWith, Gateway.toFileInfo. cbn.
  destruct (obj_Key item) as [[|ch k]|]; try discriminate.
  intros H. exists (ch :: k). repeat split; try assumption. discriminate.
Qed.

Lemma LibS3_listFilesFromS3_run c bucket today race w :
  let first := send_list c (pdf_listing_all bucket) (backend w) in
  let second := send_list c (excel_listing_all bucket) (snd first) in
  LibS3.listFilesFromS3 c bucket today race w =
    (match fst first, fst second with
     | inr pdfs, inr sheets => inr (unfiltered bucket today pdfs sheets)
     | _, _ => inl (new_Error (lit "Failed to list files from S3"))
     end,
     after w [S3List (pdf_listing_all bucket); S3List (excel_listing_all bucket)]
           (snd second)).
Proof.
  intros first second. unfold LibS3.listFilesFromS3, try_catch.
  unfold bind, Promise_all2. rewrite !call_backend_after.
  cbn [backend after]. fold (pdf_listing_all bucket) (excel_listing_all bucket).
  fold first. fold second. rewrite after_after. cbn [app].
  destruct (fst first) as [e1|pdfs], (fst second) as [e2|sheets]; try reflexivity.
  unfold unfiltered, Gateway.contents_or_empty, ret.
  destruct (Contents pdfs), (Contents sheets); reflexivity.
Qed.

End Listing.

Lemma in_merged (bucket : jsstring) (today : Date)
    (pdfs sheets : ListObjectsV2Output) (f : Gateway.FileInfo) :
  In f (merged bucket today pdfs sheets) ->
  (exists item,
     f = Gateway.toFileInfo bucket (lit "pdf") today item /\
     Gateway.key_endsWith [lit ".pdf"] item = true) \/
  (exists item,
     f = Gateway.toFileInfo bucket (lit "excel") today item /\
     Gateway.key_endsWith [lit ".xlsx"; lit ".xls"; lit ".ods"] item = true).
Proof.
  unfold merged. rewrite in_app_iff, !in_map_iff.
  intros [(item & <- & Hin)|(item & <- & Hin)];
    apply filter_In in Hin; destruct Hin as [_ Hk]; [left|right]; eauto.
Qed.

(** X12. Every file of a successful listing has a non-empty key as its
    id, the public address of that key in the bucket as its url, the part
    of the key after its last slash as its name, and a name that ends in an
    extension of its type. *)
Theorem X12_listed_files_are_well_formed S (c : S3Client S)
    (bucket : jsstring) (today : Date) (race : bool) (w : world S)
    (files : list Gateway.FileInfo) (f : Gateway.FileInfo) :
  fst (Gateway.listFilesFromS3 c bucket today race w) = inr files ->
  In f files ->
  Gateway.fi_id f <> [] /\
  Gateway.fi_url f =
    lit "https://" ++ bucket ++ lit ".s3.amazonaws.com/" ++ Gateway.fi_id f /\
  (exists dir,
     Gateway.fi_id f = dir ++ Gateway.fi_name f /\
     (dir = [] \/ exists dir', dir = dir' ++ lit "/")) /\
  forallb (fun ch => negb (unit_eqb ch 47)) (Gateway.fi_name f) = true /\
  ((Gateway.fi_type f = lit "pdf" /\
    endsWith (Gateway.fi_name f) (lit ".pdf") = true) \/
   (Gateway.fi_type f = lit "excel" /\
    endsWith (Gateway.fi_name f) (lit ".xlsx")
    || endsWith (Gateway.fi_name f) (lit ".xls")
    || endsWith (Gateway.fi_name f) (lit ".ods") = true)).
Proof.
  intros Hrun Hin.
  destruct (listFilesFromS3_returns _ _ _ _ _ Hrun) as (pdfs & sheets & _ & _ & ->).
  apply in_merged in Hin.
  assert (Shape : forall type exts item,
    f = Gateway.toFileInfo bucket type today item ->
    Gateway.key_endsWith exts item = true ->
    Forall (fun ext => forallb (fun ch => negb (unit_eqb ch 47)) ext = true) exts ->
    Gateway.fi_id f <> [] /\
    Gateway.fi_url f = Gateway.public_url bucket (Gateway.fi_id f) /\
    (exists dir,
       Gateway.fi_id f = dir ++ Gateway.fi_name f /\
       (dir = [] \/ exists dir', dir = dir' ++ lit "/")) /\
    forallb (fun ch => negb (unit_eqb ch 47)) (Gateway.fi_name f) = true /\
    Gateway.fi_type f = type /\
    existsb (endsWith (Gateway.fi_name f)) exts = true).
  { intros type exts item -> Hk Hexts.
    destruct (listed_item bucket type today exts item Hk)
      as (key & Hne & _ & Hends & -> & -> & ->).
    destruct (last_segment 47 key) as (dir & name & -> & Hkey & Hname & Hdir).
    split; [exact Hne|]. split; [reflexivity|].
    split; [exists dir; split; assumption|]. split; [exact Hname|].
    split; [reflexivity|].
    rewrite existsb_exists in *. destruct Hends as (ext & Hext & He).
    exists ext. split; [exact Hext|]. rewrite Forall_forall in Hexts.
    rewrite Hkey in He.
    rewrite endsWith_last_segment with (sep := 47) in He;
      [exact He | apply Hexts, Hext | exact Hdir]. }
  destruct Hin as [(item & Hf & Hk)|(item & Hf & Hk)].
  - destruct (Shape _ _ _ Hf Hk) as (H1 & H2 & H3 & H4 & H5 & H6);
      [repeat constructor|].
    repeat (split; [assumption|]). left. split; [exact H5|].
    cbn [existsb] in H6. rewrite orb_false_r in H6. exact H6.
  - destruct (Shape _ _ _ Hf Hk) as (H1 & H2 & H3 & H4 & H5 & H6);
      [repeat constructor|].
    repeat (split; [assumption|]). right. split; [exact H5|].
    cbn [existsb] in H6. rewrite orb_false_r, orb_assoc in H6. exact H6.
Qed.

Lemma X12_listed_files_are_well_formed_witness :
  exists files f,
    fst (Gateway.listFilesFromS3 InMemory.client Examples.bucket 0%Z false
           (InMemory.start Cases.mixed_store)) = inr files /\
    In f files /\
    Gateway.fi_name f = lit "17-a.pdf" /\
    Gateway.fi_url f =
      lit "https://" ++ Examples.bucket ++ lit ".s3.amazonaws.com/"
      ++ Gateway.fi_id f.
Proof.
  eexists. eexists.
  assert (R : fst (Gateway.listFilesFromS3 InMemory.client Examples.bucket 0%Z
                     false (InMemory.start Cases.mixed_store)) =
              inr (merged Examples.bucket 0%Z
                     {| Contents := Some (List.map InMemory.entry
                          [Cases.object "pdf_files/17-a.pdf" [x25; x50];
                           Cases.object "pdf_files/" [];
                           Cases.object "pdf_files/17-notes.txt" [x61]]) |}
                     {| Contents := Some (List.map InMemory.entry
                          [Cases.object "excel_sheets/18-q3.xlsx" [x50; x4b; x03]]) |}))
    by reflexivity.
  split; [exact R|].
  assert (I : In (Gateway.toFileInfo Examples.bucket (lit "pdf") 0%Z
                    (InMemory.entry (Cases.object "pdf_files/17-a.pdf" [x25; x50])))
                 (merged Examples.bucket 0%Z
                     {| Contents := Some (List.map InMemory.entry
                          [Cases.object "pdf_files/17-a.pdf" [x25; x50];
                           Cases.object "pdf_files/" [];
                           Cases.object "pdf_files/17-notes.txt" [x61]]) |}
                     {| Contents := Some (List.map InMemory.entry
                          [Cases.object "excel_sheets/18-q3.xlsx" [x50; x4b; x03]]) |}))
    by (left; reflexivity).
  split; [exact I|]. split; [reflexivity|].
  apply (@X12_listed_files_are_well_formed _ InMemory.client Examples.bucket
           0%Z false (InMemory.start Cases.mixed_store) _ _ R I).
Defined.

Lemma filter_length_le A (p : A -> bool) (l : list A) :
  (List.length (filter p l) <= List.length l)%nat.
Proof.
  induction l as [|x l IH]; simpl; [lia|]. destruct (p x); simpl; lia.
Qed.

(** X13. A successful listing is the PDF files, in the order the store
    returned them, followed by the spreadsheets; each part is no longer
    than what the store returned, and the ids of the PDF part are the keys
    of the store's answer that end in [.pdf]. *)
Theorem X13_listing_keeps_pdfs_first S (c : S3Client S) (bucket : jsstring)
    (today : Date) (race : bool) (w : world S)
    (files : list Gateway.FileInfo) :
  fst (Gateway.listFilesFromS3 c bucket today race w) = inr files ->
  exists pdfResponse excelResponse pdfFiles excelFiles,
    fst (send_list c (pdf_listing bucket) (backend w)) = inr pdfResponse /\
    fst (send_list c (excel_listing bucket)
           (snd (send_list c (pdf_listing bucket) (backend w)))) =
      inr excelResponse /\
    files = pdfFiles ++ excelFiles /\
    Forall (fun f => Gateway.fi_type f = lit "pdf") pdfFiles /\
    Forall (fun f => Gateway.fi_type f = lit "excel") excelFiles /\
    (List.length pdfFiles <=
       List.length (Gateway.contents_or_empty pdfResponse))%nat /\
    (List.length excelFiles <=
       List.length (Gateway.contents_or_empty excelResponse))%nat /\
    List.map Gateway.fi_id pdfFiles =
      filter (fun key => endsWith key (lit ".pdf"))
        (List.map (fun item => match obj_Key item with
                               | Some key => key | None => [] end)
                  (Gateway.contents_or_empty pdfResponse)).
Proof.
  intros Hrun.
  destruct (listFilesFromS3_returns _ _ _ _ _ Hrun)
    as (pdfs & sheets & H1 & H2 & ->).
  exists pdfs, sheets. unfold merged. do 2 eexists.
  split; [exact H1|]. split; [exact H2|]. split; [reflexivity|].
  split; [apply Forall_forall; intros f Hf; apply in_map_iff in Hf;
          destruct Hf as (item & <- & _); reflexivity|].
  split; [apply Forall_forall; intros f Hf; apply in_map_iff in Hf;
          destruct Hf as (item & <- & _); reflexivity|].
  rewrite !length_map. split; [apply filter_length_le|].
  split; [apply filter_length_le|].
  generalize (Gateway.contents_or_empty pdfs). intros items.
  induction items as [|item items IH]; [reflexivity|].
  cbn [filter List.map]. unfold Gateway.key_endsWith at 1.
  destruct (obj_Key item) as [[|ch k]|] eqn:K.
  - cbn [filter List.map]. exact IH.
  - cbn [existsb]. rewrite orb_false_r.
    destruct (endsWith (ch :: k) (lit ".pdf")) eqn:E.
    + cbn [List.map]. rewrite IH. unfold Gateway.toFileInfo at 1.
      cbn [Gateway.fi_id]. rewrite K. reflexivity.
    + exact IH.
  - exact IH.
Qed.

Lemma X13_listing_keeps_pdfs_first_witness :
  exists files,
    fst (Gateway.listFilesFromS3 InMemory.client Examples.bucket 0%Z false
           (InMemory.start Cases.mixed_store)) = inr files /\
    List.map Gateway.fi_id files =
      [lit "pdf_files/17-a.pdf"; lit "excel_sheets/18-q3.xlsx"].
Proof.
  eexists.
  assert (R : fst (Gateway.listFilesFromS3 InMemory.client Examples.bucket 0%Z
                     false (InMemory.start Cases.mixed_store)) =
              inr (merged Examples.bucket 0%Z
                     {| Contents := Some (List.map InMemory.entry
                          [Cases.object "pdf_files/17-a.pdf" [x25; x50];
                           Cases.object "pdf_files/" [];
                           Cases.object "pdf_files/17-notes.txt" [x61]]) |}
                     {| Contents := Some (List.map InMemory.entry
                          [Cases.object "excel_sheets/18-q3.xlsx" [x50; x4b; x03]]) |}))
    by reflexivity.
  split; [exact R|].
  destruct (@X13_listing_keeps_pdfs_first _ InMemory.client Examples.bucket
              0%Z false (InMemory.start Cases.mixed_store) _ R)
    as (r1 & r2 & pdfFiles & excelFiles & _).
  reflexivity.
Defined.

(** ** The first gateway *)




Lemma has_listed_extension_toFileInfo (bucket : jsstring) (today : Date)
    (item : S3Object) :
  has_listed_extension (Gateway.toFileInfo bucket (lit "pdf") today item) =
    Gateway.key_endsWith [lit ".pdf"] item /\
  has_listed_extension (Gateway.toFileInfo bucket (lit "excel") today item) =
    Gateway.key_endsWith [lit ".xlsx"; lit ".xls"; lit ".ods"] item.
Proof.
  unfold has_listed_extension, Gateway.key_endsWith, Gateway.toFileInfo.
  cbn [Gateway.fi_id Gateway.fi_type].
  change (JS.eqb (lit "pdf") (lit "pdf")) with true.
  change (JS.eqb (lit "excel") (lit "pdf")) with false.
  destruct (obj_Key item) as [[|ch k]|]; split; try reflexivity.
  cbn [existsb]. rewrite orb_false_r. reflexivity.
Qed.

Lemma filter_map_commute A B (f : A -> B) (p : B -> bool) (l : list A) :
  filter p (List.map f l) = List.map f (filter (fun x => p (f x)) l).
Proof.
  induction l as [|x l IH]; [reflexivity|]. simpl.
  destruct (p (f x)); simpl; rewrite IH; reflexivity.
Qed.

(** X15. The listing in [src/lib/s3.ts] sends the same two requests
    without a limit, fails with one fixed message, and returns one file
    for every object of the two answers; the guarded listing returns
    exactly those of them that have a key ending in an extension of their
    type. *)
Theorem X15_guarded_listing_filters_the_first S (c : S3Client S)
    (bucket : jsstring) (today : Date) (race : bool) (w : world S) :
  let first := send_list c (pdf_listing_all bucket) (backend w) in
  let second := send_list c (excel_listing_all bucket) (snd first) in
  let run := LibS3.listFilesFromS3 c bucket today race w in
  trace (snd run) =
    trace w ++ [S3List (pdf_listing_all bucket);
                S3List (excel_listing_all bucket)] /\
  (forall e, fst run = inl e ->
             e = new_Error (lit "Failed to list files from S3")) /\
  (forall pdfs sheets,
     fst first = inr pdfs -> fst second = inr sheets ->
     exists files,
       fst run = inr files /\
       List.length files =
         (List.length (Gateway.contents_or_empty pdfs)
          + List.length (Gateway.contents_or_empty sheets))%nat /\
       merged bucket today pdfs sheets = filter has_listed_extension files).
Proof.
  intros first second run. subst run. rewrite LibS3_listFilesFromS3_run.
  fold first. fold second. simpl. split; [reflexivity|]. split.
  - intros e. destruct (fst first), (fst second); intros H; inversion H;
      reflexivity.
  - intros pdfs sheets -> ->. eexists. split; [reflexivity|].
    unfold unfiltered, merged. rewrite length_app, !length_map.
    split; [reflexivity|].
    rewrite filter_app, !filter_map_commute. f_equal.
    + f_equal. apply filter_ext. intros item. symmetry.
      apply has_listed_extension_toFileInfo.
    + f_equal. apply filter_ext. intros item. symmetry.
      apply has_listed_extension_toFileInfo.
Qed.

Lemma X15_guarded_listing_filters_the_first_witness :
  exists files,
    fst (LibS3.listFilesFromS3 InMemory.client Examples.bucket 0%Z false
           (InMemory.start Cases.mixed_store)) = inr files /\
    List.length files = 4%nat /\
    List.length (filter has_listed_extension files) = 2%nat.
Proof.
  destruct (@X15_guarded_listing_filters_the_first _ InMemory.client
              Examples.bucket 0%Z false (InMemory.start Cases.mixed_store))
    as (_ & _ & H).
  destruct (H _ _ eq_refl eq_refl) as (files & Hrun & Hlen & Hfil).
  exists files. split; [exact Hrun|]. split; [exact Hlen|].
  rewrite <- Hfil. reflexivity.
Defined.

(* ===================================================================== *)
(** ** The table of files *)
(* ===================================================================== *)

Section TableOfFiles.

Import Gateway FilesList.
Local Open Scope Z_scope.

(** ** Sorting *)

Section Sorting.
Variable A : Type.
Variable compare : A -> A -> Z.

Lemma insert_sorted_perm (x : A) (l : list A) :
  Permutation (insert_sorted compare x l) (x :: l).
Proof.
  induction l as [|y l IH]; simpl; [reflexivity|].
  destruct (compare x y <=? 0); [reflexivity|].
  rewrite IH. apply perm_swap.
Qed.

Lemma Array_sort_perm (l : list A) : Permutation (Array_sort compare l) l.
Proof.
  induction l as [|x l IH]; simpl; [reflexivity|].
  rewrite insert_sorted_perm, IH. reflexivity.
Qed.

(** The comparison orders by a key: ascending or descending. *)
Variable key : A -> Z.
Variable ascending : bool.
Hypothesis compare_key :
  forall a b, compare a b = if ascending then key a - key b else key b - key a.

Lemma compare_le (a b : A) : (compare a b <=? 0) = true <-> in_order key ascending a b.
Proof.
  rewrite Z.leb_le, compare_key. unfold in_order. destruct ascending; lia.
Qed.

Lemma in_order_total (a b : A) : in_order key ascending a b \/ in_order key ascending b a.
Proof. unfold in_order. destruct ascending; lia. Qed.

Lemma in_order_trans (a b c : A) : in_order key ascending a b -> in_order key ascending b c -> in_order key ascending a c.
Proof. unfold in_order. destruct ascending; lia. Qed.

Lemma insert_sorted_sorted (x : A) (l : list A) :
  StronglySorted (in_order key ascending) l -> StronglySorted (in_order key ascending) (insert_sorted compare x l).
Proof.
  induction 1 as [|y l Hl IH Hy]; simpl; [repeat constructor|].
  destruct (compare x y <=? 0) eqn:E.
  - apply compare_le in E. constructor; [constructor; assumption|].
    constructor; [exact E|].
    rewrite Forall_forall in *. intros z Hz. eapply in_order_trans; eauto.
  - constructor; [exact IH|].
    assert (Hyx : in_order key ascending y x).
    { destruct (in_order_total x y) as [H|H]; [|exact H].
      apply compare_le in H. congruence. }
    rewrite Forall_forall in *. intros z Hz.
    apply (Permutation_in _ (insert_sorted_perm x l)) in Hz.
    destruct Hz as [<-|Hz]; [exact Hyx | apply Hy, Hz].
Qed.

Lemma Array_sort_sorted (l : list A) :
  StronglySorted (in_order key ascending) (Array_sort compare l).
Proof.
  induction l as [|x l IH]; simpl; [constructor|].
  apply insert_sorted_sorted, IH.
Qed.

(** Stability: the elements of one key keep their order. *)
Lemma insert_sorted_stable (t : Z) (x : A) (l : list A) :
  filter (fun a => key a =? t) (insert_sorted compare x l) =
  filter (fun a => key a =? t) (x :: l).
Proof.
  induction l as [|y l IH]; [reflexivity|]. simpl insert_sorted.
  destruct (compare x y <=? 0) eqn:E; [reflexivity|].
  cbn [filter] in *. rewrite IH.
  destruct (key x =? t) eqn:Kx; [|reflexivity].
  destruct (key y =? t) eqn:Ky; [|reflexivity].
  exfalso. apply Z.eqb_eq in Kx, Ky.
  assert (H : in_order key ascending x y) by (unfold in_order; destruct ascending; lia).
  apply compare_le in H. congruence.
Qed.

Lemma Array_sort_stable (t : Z) (l : list A) :
  filter (fun a => key a =? t) (Array_sort compare l) =
  filter (fun a => key a =? t) l.
Proof.
  induction l as [|x l IH]; [reflexivity|]. simpl Array_sort.
  rewrite insert_sorted_stable. cbn [filter]. rewrite IH. reflexivity.
Qed.

End Sorting.

(** X16. When the table is sorted by upload time, the rows are the
    displayed files rearranged, in ascending or descending order of upload
    time as the direction says, and files uploaded at the same time keep
    the order they were displayed in. *)
Theorem X16_table_sorted_by_upload_time
    (localeCompare : jsstring -> jsstring -> Z) (files : list FileInfo)
    (st : state) :
  st_sortField st = by_uploadedAt ->
  let shown := displayFiles (st_s3Files st) files in
  let sorted := sortedFiles localeCompare files st in
  Permutation sorted shown /\
  StronglySorted
    (fun a b =>
       match st_sortDirection st with
       | asc => fi_uploadedAt a <= fi_uploadedAt b
       | desc => fi_uploadedAt b <= fi_uploadedAt a
       end) sorted /\
  forall t,
    filter (fun f => fi_uploadedAt f =? t) sorted =
    filter (fun f => fi_uploadedAt f =? t) shown.
Proof.
  intros Hf shown sorted. subst sorted. unfold sortedFiles. rewrite Hf.
  fold shown. split; [apply Array_sort_perm|].
  set (ascending := match st_sortDirection st with asc => true | desc => false end).
  assert (K : forall a b,
             compareFiles localeCompare by_uploadedAt (st_sortDirection st) a b =
             if ascending then fi_uploadedAt a - fi_uploadedAt b
             else fi_uploadedAt b - fi_uploadedAt a).
  { intros a b. unfold ascending. destruct (st_sortDirection st); reflexivity. }
  split.
  - pose proof (@Array_sort_sorted _ _ fi_uploadedAt ascending K shown) as Hs.
    unfold in_order, ascending in Hs. destruct (st_sortDirection st); exact Hs.
  - intros t. apply (@Array_sort_stable _ _ fi_uploadedAt ascending K).
Qed.

Lemma X16_table_sorted_by_upload_time_witness :
  st_sortField mounted = by_uploadedAt /\
  List.map fi_id (sortedFiles (fun _ _ => 0) [] mounted) =
    [lit "1"; lit "2"; lit "3"; lit "4"; lit "5"] /\
  Permutation (sortedFiles (fun _ _ => 0) [] mounted) mockFiles.
Proof.
  split; [reflexivity|]. split; [vm_compute; reflexivity|].
  apply (@X16_table_sorted_by_upload_time (fun _ _ => 0) [] mounted).
  reflexivity.
Defined.

(** ** Pages *)

Lemma firstn_add A (a b : nat) (l : list A) :
  firstn (a + b) l = firstn a l ++ firstn b (skipn a l).
Proof.
  revert l. induction a as [|a IH]; intros l; [reflexivity|].
  destruct l as [|x l]; simpl.
  - destruct b; reflexivity.
  - rewrite IH. reflexivity.
Qed.

Lemma slice_page A (l : list A) (page : Z) :
  1 <= page ->
  slice l ((page - 1) * itemsPerPage) (page * itemsPerPage) =
  firstn 10 (skipn (Z.to_nat (10 * (page - 1))) l).
Proof.
  intros Hp. unfold slice, itemsPerPage.
  set (len := Z.of_nat (List.length l)).
  destruct (Z.ltb_spec ((page - 1) * 10) 0); [lia|].
  destruct (Z.ltb_spec (page * 10) 0); [lia|].
  replace (10 * (page - 1)) with ((page - 1) * 10) by lia.
  destruct (Z.le_gt_cases len ((page - 1) * 10)) as [Far|Near].
  - rewrite Z.min_r by lia. rewrite Z.min_r by lia.
    rewrite Z.sub_diag. simpl firstn.
    rewrite skipn_all2 by (unfold len in Far; lia). reflexivity.
  - rewrite (Z.min_l ((page - 1) * 10)) by lia.
    destruct (Z.le_gt_cases (page * 10) len) as [Full|Short].
    + rewrite Z.min_l by lia. f_equal. lia.
    + rewrite Z.min_r by lia.
      assert (L : List.length (skipn (Z.to_nat ((page - 1) * 10)) l) =
                  Z.to_nat (len - (page - 1) * 10)).
      { rewrite length_skipn. unfold len. lia. }
      rewrite firstn_all2 by lia. rewrite firstn_all2 by lia. reflexivity.
Qed.

Lemma pages_cover A (l : list A) (n : nat) :
  flat_map (fun p => firstn 10 (skipn (10 * (p - 1)) l)) (seq 1 n) =
  firstn (10 * n) l.
Proof.
  induction n as [|n IH]; [reflexivity|].
  rewrite seq_S, flat_map_app, IH. cbn [flat_map]. rewrite app_nil_r.
  replace (10 * (1 + n - 1))%nat with (10 * n)%nat by lia.
  replace (10 * Datatypes.S n)%nat with (10 * n + 10)%nat by lia.
  symmetry. apply firstn_add.
Qed.

Section Pages.
Variable S : Type.
Variable s3Client : S3Client S.
Variable BUCKET_NAME : jsstring.
Variable localeCompare : jsstring -> jsstring -> Z.
Variable files : list FileInfo.
Variable onDelete : jsstring -> exn + unit.


Lemma totalPages_nonneg : 0 <= totalPages files.
Proof. unfold totalPages. apply Z.div_pos; lia. Qed.

Lemma click_page (c : PageControl) (st : state) :
  1 <= st_currentPage st <= Z.max 1 (totalPages files) ->
  1 <= st_currentPage (click files c st) <= Z.max 1 (totalPages files).
Proof.
  intros H. unfold click, rendered.
  destruct (Z.ltb_spec 1 (totalPages files)) as [Many|Few]; [|exact H].
  destruct c as [| |page]; cbn [andb st_currentPage setCurrentPage].
  - lia.
  - lia.
  - destruct (Z.leb_spec 1 page), (Z.leb_spec page (totalPages files));
      cbn [andb st_currentPage setCurrentPage]; lia.
Qed.

Lemma act_page (a : action) (sw : state * world S) :
  1 <= st_currentPage (fst sw) <= Z.max 1 (totalPages files) ->
  1 <= st_currentPage (fst (act s3Client BUCKET_NAME files onDelete a sw))
    <= Z.max 1 (totalPages files).
Proof.
  intros H. destruct a as [c|field|today race|fileId]; cbn [act fst].
  - apply click_page, H.
  - replace (st_currentPage (handleSort field (fst sw)))
      with (st_currentPage (fst sw)); [exact H|].
    unfold handleSort. destruct field, (st_sortField (fst sw)); reflexivity.
  - unfold fetchFiles.
    destruct (LibS3.listFilesFromS3 _ _ _ _ _) as [[e|l] w']; exact H.
  - unfold handleDeleteFile.
    destruct (LibS3.deleteFileFromS3 _ _ _ _) as [[e|u] w']; [exact H|].
    destruct (onDelete fileId); exact H.
Qed.

Lemma acts_page (l : list action) (sw : state * world S) :
  1 <= st_currentPage (fst sw) <= Z.max 1 (totalPages files) ->
  1 <= st_currentPage (fst (acts s3Client BUCKET_NAME files onDelete l sw))
    <= Z.max 1 (totalPages files).
Proof.
  revert sw. induction l as [|a l IH]; intros sw H; [exact H|].
  apply IH, act_page, H.
Qed.

End Pages.

(** X17. Whatever sequence of clicks on the pagination, sortings,
    fetches and deletes the component goes through, the current page stays
    between 1 and the page count computed from the [files] prop, and the
    rows on screen are the ten sorted files of that page. With ten or
    fewer files in the prop only the first ten sorted files are ever on
    screen, however many files the store has returned. *)
Theorem X17_pages_within_the_files_prop S (s3Client : S3Client S)
    (BUCKET_NAME : jsstring) (localeCompare : jsstring -> jsstring -> Z)
    (files : list FileInfo) (onDelete : jsstring -> exn + unit)
    (l : list action) (w : world S) :
  let st := fst (acts s3Client BUCKET_NAME files onDelete l (mounted, w)) in
  let page := st_currentPage st in
  1 <= page <= Z.max 1 (totalPages files) /\
  currentFiles localeCompare files st =
    firstn 10 (skipn (Z.to_nat (10 * (page - 1)))
                     (sortedFiles localeCompare files st)) /\
  ((List.length files <= 10)%nat ->
   currentFiles localeCompare files st =
     firstn 10 (sortedFiles localeCompare files st)).
Proof.
  intros st page.
  assert (P : 1 <= page <= Z.max 1 (totalPages files)).
  { apply acts_page. simpl. pose proof (totalPages_nonneg files). lia. }
  assert (C : currentFiles localeCompare files st =
              firstn 10 (skipn (Z.to_nat (10 * (page - 1)))
                               (sortedFiles localeCompare files st))).
  { unfold currentFiles. apply slice_page. apply P. }
  split; [exact P|]. split; [exact C|].
  intros Few. rewrite C.
  assert (T : totalPages files <= 1).
  { unfold totalPages. apply Z.lt_succ_r. apply Z.div_lt_upper_bound; lia. }
  replace page with 1 by lia. reflexivity.
Qed.

(** X18. When the store has returned nothing and the [files] prop is
    not empty, the pages 1 to [totalPages] hold every sorted file exactly
    once, in order; no page holds more than ten rows and none of these
    pages is empty. *)
Theorem X18_pages_cover_the_files_prop
    (localeCompare : jsstring -> jsstring -> Z) (files : list FileInfo)
    (st : state) :
  st_s3Files st = [] -> files <> [] ->
  let sorted := sortedFiles localeCompare files st in
  let page p := currentFiles localeCompare files (setCurrentPage (Z.of_nat p) st) in
  flat_map page (seq 1 (Z.to_nat (totalPages files))) = sorted /\
  (forall p, (List.length (page p) <= 10)%nat) /\
  (forall p, (1 <= p)%nat -> Z.of_nat p <= totalPages files -> page p <> []).
Proof.
  intros Hs Hf sorted page.
  assert (Len : List.length sorted = List.length files).
  { unfold sorted, sortedFiles. rewrite (Permutation_length (Array_sort_perm _ _)).
    unfold displayFiles. rewrite Hs. destruct files; [congruence | reflexivity]. }
  assert (Page : forall p, (1 <= p)%nat ->
                 page p = firstn 10 (skipn (10 * (p - 1)) sorted)).
  { intros p Hp. unfold page, currentFiles. cbn [st_currentPage setCurrentPage].
    rewrite slice_page by lia.
    replace (Z.to_nat (10 * (Z.of_nat p - 1))) with (10 * (p - 1))%nat by lia.
    reflexivity. }
  assert (T : Z.of_nat (List.length files) <= 10 * totalPages files /\
              10 * totalPages files < Z.of_nat (List.length files) + 10).
  { unfold totalPages.
    pose proof (Z.div_mod (Z.of_nat (List.length files) + 9) 10 ltac:(lia)).
    pose proof (Z.mod_pos_bound (Z.of_nat (List.length files) + 9) 10 ltac:(lia)).
    lia. }
  split; [|split].
  - transitivity (firstn (10 * Z.to_nat (totalPages files)) sorted);
      [|apply firstn_all2; lia].
    rewrite <- pages_cover, !flat_map_concat_map. f_equal.
    apply map_ext_in. intros p Hp. apply in_seq in Hp. apply Page. lia.
  - intros p. unfold page, currentFiles, slice. rewrite length_firstn.
    cbn [st_currentPage setCurrentPage]. unfold itemsPerPage.
    set (len := Z.of_nat (List.length _)).
    assert (0 <= len) by (unfold len; lia).
    destruct (Z.ltb_spec ((Z.of_nat p - 1) * 10) 0),
             (Z.ltb_spec (Z.of_nat p * 10) 0); lia.
  - intros p Hp Hle. rewrite (Page p Hp). intros E.
    apply (f_equal (@List.length _)) in E.
    rewrite length_firstn, length_skipn, Len in E. cbn [List.length] in E.
    lia.
Qed.

Lemma X17_pages_within_the_files_prop_witness :
  let st := fst (acts InMemory.client Examples.bucket [] (fun _ => inr tt)
                   [Fetch 0 false; Click PaginationNext;
                    Click (PaginationLink 2); Sort by_name]
                   (mounted, InMemory.start Cases.mixed_store)) in
  (List.length (@nil FileInfo) <= 10)%nat /\
  st_currentPage st = 1 /\
  currentFiles (fun _ _ => 0) [] st = firstn 10 (sortedFiles (fun _ _ => 0) [] st).
Proof.
  intros st. split; [simpl; lia|].
  destruct (@X17_pages_within_the_files_prop _ InMemory.client Examples.bucket
              (fun _ _ => 0) [] (fun _ => inr tt)
              [Fetch 0 false; Click PaginationNext; Click (PaginationLink 2);
               Sort by_name]
              (InMemory.start Cases.mixed_store)) as (P & _ & Few).
  split; [reflexivity|]. apply Few. simpl. lia.
Defined.

Lemma X18_pages_cover_the_files_prop_witness :
  st_s3Files mounted = [] /\ Cases.twelve <> [] /\
  flat_map (fun p => currentFiles (fun _ _ => 0) Cases.twelve
                       (setCurrentPage (Z.of_nat p) mounted))
           (seq 1 (Z.to_nat (totalPages Cases.twelve))) =
    sortedFiles (fun _ _ => 0) Cases.twelve mounted.
Proof.
  split; [reflexivity|]. split; [discriminate|].
  apply (@X18_pages_cover_the_files_prop (fun _ _ => 0) Cases.twelve mounted);
    [reflexivity | discriminate].
Defined.

(** ** The handlers on the store *)

Lemma filter_out_all (fileId : jsstring) (l : list FileInfo) :
  Forall (fun f => fi_id f = fileId) l ->
  filter (fun f => negb (JS.eqb (fi_id f) fileId)) l = [].
Proof.
  induction 1 as [|f l Hf _ IH]; [reflexivity|].
  cbn [filter]. apply eqb_eq in Hf. rewrite Hf. exact IH.
Qed.

Lemma filter_out_none (fileId : jsstring) (l : list FileInfo) (f : FileInfo) :
  In f (filter (fun f => negb (JS.eqb (fi_id f) fileId)) l) ->
  fi_id f <> fileId.
Proof.
  intros Hf. apply filter_In in Hf. destruct Hf as [_ Hf].
  apply negb_true_iff in Hf. intros Eq.
  rewrite <- eqb_eq in Eq. congruence.
Qed.

Lemma handleDeleteFile_run S (s3Client : S3Client S) (BUCKET_NAME : jsstring)
    (onDelete : jsstring -> exn + unit) (fileId : jsstring) (st : state)
    (w : world S) :
  let command := {| ref_Bucket := BUCKET_NAME; ref_Key := fileId |} in
  let sent := send_delete s3Client command (backend w) in
  let failed := Some (lit "Failed to delete file. Please try again.") in
  let remaining :=
    filter (fun f => negb (JS.eqb (fi_id f) fileId)) (st_s3Files st) in
  handleDeleteFile s3Client BUCKET_NAME onDelete fileId st w =
    (match fst sent with
     | inl _ => finish (st_s3Files st) failed st
     | inr _ =>
         match onDelete fileId with
         | inr _ => finish remaining (st_error st) st
         | inl _ => finish remaining failed st
         end
     end,
     after w [S3Delete command] (snd sent)).
Proof.
  intros command sent failed remaining. unfold handleDeleteFile.
  rewrite LibS3_deleteFileFromS3_run. fold command. fold sent.
  destruct (fst sent); [reflexivity|]. fold remaining.
  destruct (onDelete fileId); reflexivity.
Qed.

(** X19. Deleting a row sends exactly one delete request for the id as
    it is, without the guard on the key. If the request fails the files
    stay and the fixed message is shown; if it succeeds every file with
    that id is removed from the state, and when no file is left and the
    [files] prop is empty the table shows the five sample files again.
    Loading is off afterwards. *)
Theorem X19_delete_handler S (s3Client : S3Client S) (BUCKET_NAME : jsstring)
    (onDelete : jsstring -> exn + unit) (fileId : jsstring) (st : state)
    (w : world S) :
  let command := {| ref_Bucket := BUCKET_NAME; ref_Key := fileId |} in
  let sent := send_delete s3Client command (backend w) in
  let run := handleDeleteFile s3Client BUCKET_NAME onDelete fileId st w in
  trace (snd run) = trace w ++ [S3Delete command] /\
  backend (snd run) = snd sent /\
  st_isLoading (fst run) = false /\
  ((exists e, fst sent = inl e) ->
   st_s3Files (fst run) = st_s3Files st /\
   st_error (fst run) = Some (lit "Failed to delete file. Please try again.")) /\
  ((exists u, fst sent = inr u) ->
   st_s3Files (fst run) =
     filter (fun f => negb (JS.eqb (fi_id f) fileId)) (st_s3Files st) /\
   (forall f, In f (st_s3Files (fst run)) -> fi_id f <> fileId) /\
   (Forall (fun f => fi_id f = fileId) (st_s3Files st) ->
    displayFiles (st_s3Files (fst run)) [] = mockFiles)).
Proof.
  intros command sent run. subst run. rewrite handleDeleteFile_run.
  fold command. fold sent. cbn [fst snd].
  split; [reflexivity|]. split; [reflexivity|].
  split; [destruct (fst sent); [|destruct (onDelete fileId)]; reflexivity|].
  split.
  - intros [e ->]. split; reflexivity.
  - intros [u ->].
    assert (R : st_s3Files
                  match onDelete fileId with
                  | inr _ =>
                      finish (filter (fun f => negb (JS.eqb (fi_id f) fileId))
                                     (st_s3Files st)) (st_error st) st
                  | inl _ =>
                      finish (filter (fun f => negb (JS.eqb (fi_id f) fileId))
                                     (st_s3Files st))
                             (Some (lit "Failed to delete file. Please try again."))
                             st
                  end =
                filter (fun f => negb (JS.eqb (fi_id f) fileId)) (st_s3Files st))
      by (destruct (onDelete fileId); reflexivity).
    rewrite R. split; [reflexivity|]. split.
    + intros f. apply filter_out_none.
    + intros All. rewrite (filter_out_all All). reflexivity.
Qed.

Lemma X19_delete_handler_witness :
  let st := {| st_currentPage := 1; st_sortField := by_uploadedAt;
               st_sortDirection := desc; st_isLoading := false;
               st_s3Files := [Cases.stored 1]; st_error := None |} in
  let run := handleDeleteFile InMemory.client Examples.bucket
               (fun _ => inr tt) (fi_id (Cases.stored 1)) st (InMemory.start []) in
  (exists u, fst (send_delete InMemory.client
                    {| ref_Bucket := Examples.bucket;
                       ref_Key := fi_id (Cases.stored 1) |} []) = inr u) /\
  displayFiles (st_s3Files (fst run)) [] = mockFiles.
Proof.
  intros st run.
  assert (Ok : exists u, fst (send_delete InMemory.client
                    {| ref_Bucket := Examples.bucket;
                       ref_Key := fi_id (Cases.stored 1) |} []) = inr u)
    by (exists tt; reflexivity).
  split; [exact Ok|].
  destruct (@X19_delete_handler _ InMemory.client Examples.bucket
              (fun _ => inr tt) (fi_id (Cases.stored 1)) st (InMemory.start []))
    as (_ & _ & _ & _ & H).
  destruct (H Ok) as (_ & _ & Mock). apply Mock.
  repeat constructor.
Defined.

Lemma fetchFiles_run S (s3Client : S3Client S) (BUCKET_NAME : jsstring)
    (today : Date) (race : bool) (st : state) (w : world S) :
  let first := send_list s3Client (pdf_listing_all BUCKET_NAME) (backend w) in
  let second := send_list s3Client (excel_listing_all BUCKET_NAME) (snd first) in
  fetchFiles s3Client BUCKET_NAME today race st w =
    (match fst first, fst second with
     | inr pdfs, inr sheets =>
         finish (unfiltered BUCKET_NAME today pdfs sheets) None st
     | _, _ =>
         finish (st_s3Files st)
                (Some (lit "Failed to fetch files. Please try again.")) st
     end,
     after w [S3List (pdf_listing_all BUCKET_NAME);
              S3List (excel_listing_all BUCKET_NAME)] (snd second)).
Proof.
  intros first second. unfold fetchFiles. rewrite LibS3_listFilesFromS3_run.
  fold first. fold second.
  destruct (fst first), (fst second); reflexivity.
Qed.

(** X20. Fetching shows what the store has, or the sample files. If
    either list request fails the files of the state stay and the fixed
    message is shown. Otherwise the state holds one file for every object
    returned; if the store returned none, the table shows the five sample
    files, and if it returned some, the table shows them and ignores the
    [files] prop. *)
Theorem X20_fetch_shows_the_store_or_the_mocks S (s3Client : S3Client S)
    (BUCKET_NAME : jsstring) (today : Date) (race : bool) (st : state)
    (w : world S) :
  let first := send_list s3Client (pdf_listing_all BUCKET_NAME) (backend w) in
  let second := send_list s3Client (excel_listing_all BUCKET_NAME) (snd first) in
  let st' := fst (fetchFiles s3Client BUCKET_NAME today race st w) in
  ((exists e, fst first = inl e) \/ (exists e, fst second = inl e) ->
   st_s3Files st' = st_s3Files st /\
   st_error st' = Some (lit "Failed to fetch files. Please try again.")) /\
  (forall pdfs sheets,
     fst first = inr pdfs -> fst second = inr sheets ->
     st_error st' = None /\
     List.length (st_s3Files st') =
       (List.length (Gateway.contents_or_empty pdfs)
        + List.length (Gateway.contents_or_empty sheets))%nat /\
     (Gateway.contents_or_empty pdfs = [] ->
      Gateway.contents_or_empty sheets = [] ->
      displayFiles (st_s3Files st') [] = mockFiles) /\
     (Gateway.contents_or_empty pdfs ++ Gateway.contents_or_empty sheets <> [] ->
      forall files, displayFiles (st_s3Files st') files = st_s3Files st')).
Proof.
  intros first second st'. subst st'. rewrite fetchFiles_run.
  fold first. fold second. cbn [fst]. split.
  - intros [[e ->]|[e ->]]; [|destruct (fst first)]; split; reflexivity.
  - intros pdfs sheets -> ->. cbn [st_error st_s3Files finish].
    split; [reflexivity|]. unfold unfiltered.
    split; [rewrite length_app, !length_map; reflexivity|]. split.
    + intros -> ->. reflexivity.
    + intros Hne files.
      destruct (Gateway.contents_or_empty pdfs) as [|i l]; [|reflexivity].
      destruct (Gateway.contents_or_empty sheets) as [|i l]; [|reflexivity].
      destruct Hne. reflexivity.
Qed.

Lemma X20_fetch_shows_the_store_or_the_mocks_witness :
  displayFiles
    (st_s3Files (fst (fetchFiles InMemory.client Examples.bucket 0 false
                        mounted (InMemory.start [])))) [] = mockFiles.
Proof.
  destruct (@X20_fetch_shows_the_store_or_the_mocks _ InMemory.client
              Examples.bucket 0 false mounted (InMemory.start []))
    as [_ H].
  destruct (H _ _ eq_refl eq_refl) as (_ & _ & Mock & _).
  apply Mock; reflexivity.
Defined.

(** ** Embedding again *)

Lemma stamped_again (file : File) (link1 link2 : jsstring) (today1 today2 : Date)
    (doc : PDFDocument) :
  stamped file link2 today2 (stamped file link1 today1 doc) =
  stamped file link2 today2 doc.
Proof. reflexivity. Qed.

(** X21. With a library that loads what it has saved, embedding a link
    in a file in which a link has already been embedded gives the same
    bytes as embedding it in the original file:
    the second embedding replaces title, author, subject, producer,
    creator and keywords, and nothing of the first remains. *)
Theorem X21_embedding_again_replaces S (lib : PdfLib) (file : File)
    (link1 link2 : jsstring) (today1 today2 : Date) (w1 w2 : world S)
    (doc : PDFDocument) :
  PDFDocument_load lib (file_arrayBuffer file) = inr doc ->
  round_trips lib (stamped file link1 today1 doc) ->
  exists bytes1,
    fst (Gateway.addSourceLinkToPdf lib file link1 today1 w1) = inr bytes1 /\
    let again :=
      {| file_name := file_name file; file_size := file_size file;
         file_type := file_type file; file_arrayBuffer := bytes1 |} in
    fst (Gateway.addSourceLinkToPdf lib again link2 today2 w2) =
    fst (Gateway.addSourceLinkToPdf lib file link2 today2 w2).
Proof.
  intros Hl Hrt. eexists.
  erewrite addSourceLinkToPdf_ok by eassumption. split; [reflexivity|].
  cbv zeta.
  rewrite (@addSourceLinkToPdf_ok _ lib
             {| file_name := file_name file; file_size := file_size file;
                file_type := file_type file;
                file_arrayBuffer :=
                  PDFDocument_save lib (stamped file link1 today1 doc) |}
             link2 today2 w2 (stamped file link1 today1 doc) Hrt).
  rewrite (@addSourceLinkToPdf_ok _ lib file link2 today2 w2 doc Hl).
  reflexivity.
Qed.

Lemma X21_embedding_again_replaces_witness :
  exists bytes1,
    fst (Gateway.addSourceLinkToPdf TinyPdf.lib Examples.report_pdf
           (lit "https://example.com/old") 0 (InMemory.start [])) = inr bytes1 /\
    fst (Gateway.addSourceLinkToPdf TinyPdf.lib
           {| file_name := file_name Examples.report_pdf;
              file_size := file_size Examples.report_pdf;
              file_type := file_type Examples.report_pdf;
              file_arrayBuffer := bytes1 |}
           Examples.link 1700000000000 (InMemory.start [])) =
    fst (Gateway.addSourceLinkToPdf TinyPdf.lib Examples.report_pdf
           Examples.link 1700000000000 (InMemory.start [])).
Proof.
  apply (@X21_embedding_again_replaces _ TinyPdf.lib Examples.report_pdf
           (lit "https://example.com/old") Examples.link 0 1700000000000
           (InMemory.start []) (InMemory.start []) TinyPdf.blank);
    reflexivity.
Defined.

End TableOfFiles.
